(** * Linear systems of planes: a shallow embedding of linsys.py, plane.py
      and hyperplane.py, and the properties of the elimination pipeline.

    Conventions of the embedding.

    - A [Decimal] is modelled by an exact rational number ([Qc], rationals in
      lowest terms, so that equal numbers are equal terms).  The source sets
      the decimal context to 30 significant digits; results that need more
      digits are rounded there and are exact here.  Every concrete run below
      uses numbers with few digits, on which both agree.
    - A raised exception is a value of [exn]; a computation that may raise
      returns a [res].  Methods that mutate their receiver are state
      transformers of the receiver which keep the state reached when they
      raise; methods that create objects run on a heap of objects.
    - Python indices are integers; a negative index counts from the end. *)

From Stdlib Require Import QArith Qcanon Qcabs Qfield.
From stdpp Require Import base numbers list gmap strings.

Local Open Scope Z_scope.

(** ** Exceptions and the two monads *)

Module Py.

(** The exceptions the three files can raise, with the text [str(e)]
    returns for them where the source inspects it.  [ReferenceError]
    stands for the use of a reference to no object, which a Python
    program cannot build. *)
Inductive exn : Type :=
| Exception (msg : string)
| IndexError (msg : string)
| AttributeError (msg : string)
| DivisionByZero
| VectorError (msg : string)
| ReferenceError.

Definition str (e : exn) : string :=
  match e with
  | Exception m | IndexError m | AttributeError m | VectorError m => m
  | DivisionByZero => "[<class 'decimal.DivisionByZero'>]"
  | ReferenceError => "object no longer exists"
  end.

Inductive res (A : Type) : Type :=
| Ok (a : A)
| Err (e : exn).
Arguments Ok {A} a.
Arguments Err {A} e.

#[global] Instance res_ret : MRet res := fun _ a => Ok a.
#[global] Instance res_bind : MBind res := fun _ _ f m =>
  match m with Ok a => f a | Err e => Err e end.
#[global] Instance res_fmap : FMap res := fun _ _ f m =>
  match m with Ok a => Ok (f a) | Err e => Err e end.

(** State and exceptions: the state reached is kept when an exception is
    raised, as a mutated Python object stays mutated. *)
Definition SE (S A : Type) : Type := S → res A * S.

#[global] Instance se_ret {S} : MRet (SE S) := fun _ a s => (Ok a, s).
#[global] Instance se_bind {S} : MBind (SE S) := fun _ _ f m s =>
  match m s with
  | (Ok a, s') => f a s'
  | (Err e, s') => (Err e, s')
  end.

Definition lift {S A} (r : res A) : SE S A := fun s => (r, s).
Definition get {S} : SE S S := fun s => (Ok s, s).
Definition put {S} (s : S) : SE S unit := fun _ => (Ok tt, s).
Definition raise {S A} (e : exn) : SE S A := fun s => (Err e, s).

(** [for x in xs: body(x)] *)
Fixpoint for_each {S A} (xs : list A) (body : A → SE S unit) : SE S unit :=
  match xs with
  | [] => mret tt
  | x :: xs' => body x ≫= λ _, for_each xs' body
  end.

(** [range(a, b)] *)
Definition range (a b : Z) : list Z := seqZ a (b - a).

(** [len(l)] *)
Definition len {A} (l : list A) : Z := Z.of_nat (length l).

(** The position a Python index denotes in a sequence of length [n]. *)
Definition index (n : nat) (i : Z) : option nat :=
  if bool_decide (0 ≤ i < Z.of_nat n) then Some (Z.to_nat i)
  else if bool_decide (- Z.of_nat n ≤ i < 0) then Some (Z.to_nat (Z.of_nat n + i))
  else None.

(** [l[i]] *)
Definition getitem {A} (l : list A) (i : Z) : res A :=
  match index (length l) i ≫= λ k, l !! k with
  | Some x => Ok x
  | None => Err (IndexError "list index out of range")
  end.

(** [l[i] = x] *)
Definition setitem {A} (l : list A) (i : Z) (x : A) : res (list A) :=
  match index (length l) i with
  | Some k => Ok (<[k := x]> l)
  | None => Err (IndexError "list assignment index out of range")
  end.

End Py.
Export Py.

(** ** Decimal *)

Abbreviation Decimal := Qc.

Definition dec (z : Z) : Decimal := Q2Qc (inject_Z z).

(** The default [eps=1e-10] of [is_near_zero] is a binary float; Python
    compares a Decimal with a float by the float's exact value, which is
    7737125245533627 / 2^86. *)
Definition eps : Decimal := Q2Qc (7737125245533627 # 77371252455336267181195264).

(** [MyDecimal.is_near_zero]: [abs(self) < eps] *)
Definition is_near_zero (x : Decimal) : bool := bool_decide (Qcabs x < eps)%Qc.

(** [a / b] on decimals *)
Definition dec_div (a b : Decimal) : res Decimal :=
  if bool_decide (b = 0%Qc) then Err DivisionByZero else Ok (a / b)%Qc.

(** ** Vector *)

Module Vector.

(** Modelled from the spec: vector.py is absent.  A vector is the ordered
    sequence of its coordinates; [dimension] is its length; indexing and
    iteration are those of the sequence; an operation on two vectors fails
    when their dimensions differ. *)
Abbreviation t := (list Decimal).

Definition DIMENSION_MISMATCH_MSG : string := "dimension mismatch".

Definition dimension (v : t) : Z := len v.

(** Modelled from the spec: truth value of a vector object, taken from
    its length as for a Python sequence. *)
Definition truthy (v : t) : bool := negb (bool_decide (length v = 0%nat)).

Definition zeros (n : Z) : t := replicate (Z.to_nat n) 0%Qc.

Definition scalar_multiply (v : t) (c : Decimal) : t := map (λ x, x * c)%Qc v.

Definition same_dimension {A} (v w : t) (k : res A) : res A :=
  if bool_decide (length v = length w) then k
  else Err (VectorError DIMENSION_MISMATCH_MSG).

Definition add (v w : t) : res t :=
  same_dimension v w (Ok (zip_with Qcplus v w)).

Definition substract (v w : t) : res t :=
  same_dimension v w (Ok (zip_with Qcminus v w)).

Definition sum (l : list Decimal) : Decimal := foldr Qcplus 0%Qc l.

Definition dot (v w : t) : res Decimal :=
  same_dimension v w (Ok (sum (zip_with Qcmult v w))).

(** Modelled from the spec: the zero test within epsilon; the zero vector
    is the one with no coordinate beyond epsilon. *)
Definition is_zero (v : t) : bool := forallb is_near_zero v.

(** Modelled from the spec: orthogonal when the dot product is within
    epsilon of zero. *)
Definition is_orthogonal (v w : t) : res bool :=
  is_near_zero <$> dot v w.

(** Modelled from the spec: parallel when one is a scalar multiple of the
    other, checked on every pair of coordinates within epsilon. *)
Definition is_parallel (v w : t) : res bool :=
  same_dimension v w
    (Ok (forallb (λ '(a, b),
           forallb (λ '(c, d), is_near_zero (a * d - c * b)%Qc) (zip v w))
         (zip v w))).

End Vector.

(** ** Plane *)

Module Plane.

Definition NO_NONZERO_ELTS_FOUND_MSG : string := "No nonzero elements found".

(** The attributes of a constructed plane.  [basepoint = None] is the
    source's [self.basepoint = None]. *)
Record obj : Type := Build {
  dimension : Z;
  normal_vector : Vector.t;
  constant_term : Decimal;
  basepoint : option Vector.t
}.

(** [first_nonzero_index(iterable)] *)
Fixpoint first_nonzero_from (k : Z) (items : list Decimal) : res Z :=
  match items with
  | [] => Err (Exception NO_NONZERO_ELTS_FOUND_MSG)
  | item :: rest =>
      if negb (is_near_zero item) then Ok k else first_nonzero_from (k + 1) rest
  end.

Definition first_nonzero_index (iterable : Vector.t) : res Z :=
  first_nonzero_from 0 iterable.

(** The body of the [try] block of [set_basepoint]. *)
Definition basepoint_of (dimension : Z) (n : Vector.t) (c : Decimal) : res Vector.t :=
  let basepoint_coords := Vector.zeros dimension in
  initial_index ← first_nonzero_index n;
  initial_coefficient ← getitem n initial_index;
  q ← dec_div c initial_coefficient;
  setitem basepoint_coords initial_index q.

(** [set_basepoint]: returns the value given to [self.basepoint]. *)
Definition set_basepoint (dimension : Z) (n : Vector.t) (c : Decimal)
  : res (option Vector.t) :=
  match basepoint_of dimension n c with
  | Ok b => Ok (Some b)
  | Err e =>
      if bool_decide (str e = NO_NONZERO_ELTS_FOUND_MSG) then Ok None else Err e
  end.

(** [Plane(normal_vector=..., constant_term=...)]; an argument left out is
    [None]. *)
Definition __init__ (normal_vector : option Vector.t) (constant_term : option Decimal)
  : res obj :=
  let dimension := 3 in
  let normal_vector :=
    match normal_vector with
    | Some v => if Vector.truthy v then v else Vector.zeros dimension
    | None => Vector.zeros dimension
    end in
  let constant_term := default 0%Qc constant_term in
  b ← set_basepoint dimension normal_vector constant_term;
  mret (Build dimension normal_vector constant_term b).

(** [is_parallel] and [is_orthogonal] *)
Definition is_parallel (self p : obj) : res bool :=
  Vector.is_parallel (normal_vector self) (normal_vector p).

Definition is_orthogonal (self p : obj) : res bool :=
  Vector.is_orthogonal (normal_vector self) (normal_vector p).

(** [__eq__].  [self.basepoint.substract(...)] on a basepoint that is
    [None] raises. *)
Definition __eq__ (self p : obj) : res bool :=
  if Vector.is_zero (normal_vector self) then
    if negb (Vector.is_zero (normal_vector p)) then Ok false
    else
      let diff := (constant_term self - constant_term p)%Qc in
      Ok (is_near_zero diff)
  else if Vector.is_zero (normal_vector p) then Ok false
  else
    par ← is_parallel self p;
    if negb par then Ok false
    else
      match basepoint self, basepoint p with
      | Some b1, Some b2 =>
          basepoint_diff ← Vector.substract b1 b2;
          Vector.is_orthogonal basepoint_diff (normal_vector self)
      | _, _ =>
          Err (AttributeError "'NoneType' object has no attribute 'substract'")
      end.

(** [len(self)] and [self[i]] *)
Definition __len__ (self : obj) : Z := len (normal_vector self).

Definition __getitem__ (self : obj) (i : Z) : res Decimal :=
  getitem (normal_vector self) i.

(** The iterator protocol.  A plane is its own iterator: the cursor is the
    attribute [current] of the plane, which [__iter__] assigns; it is the
    state here, [None] as long as it has not been assigned.  [__next__]
    returns a coordinate or raises [StopIteration], which is the outcome
    [StopIteration] here. *)
Inductive next_outcome : Type :=
| Return (current_value : Decimal)
| StopIteration.

Definition __iter__ : SE (option Z) unit := put (Some 0).

Definition __next__ (self : obj) : SE (option Z) next_outcome := λ current,
  match current with
  | None =>
      (Err (AttributeError "'Plane' object has no attribute 'current'"), current)
  | Some i =>
      if bool_decide (i >= len (normal_vector self)) then (Ok StopIteration, current)
      else
        match getitem (normal_vector self) i with
        | Ok current_value => (Ok (Return current_value), Some (i + 1))
        | Err e => (Err e, current)
        end
  end.

(** [for x in self] collecting the values of [x]: [__iter__] once, then
    [__next__] until it raises [StopIteration].  [calls] bounds the number
    of calls of [__next__]; the loop that has used them up returns [None]. *)
Fixpoint next_until_stop (calls : nat) (self : obj) : SE (option Z) (option (list Decimal)) :=
  match calls with
  | O => mret None
  | S calls' =>
      o ← __next__ self;
      match o with
      | StopIteration => mret (Some [])
      | Return x =>
          xs ← next_until_stop calls' self;
          mret (cons x <$> xs)
      end
  end.

Definition iterate (calls : nat) (self : obj) : SE (option Z) (option (list Decimal)) :=
  __iter__ ;; next_until_stop calls self.

End Plane.

(** ** Hyperplane *)

Module Hyperplane.

Definition NO_NONZERO_ELTS_FOUND_MSG : string := "No nonzero elements found".
Definition EITHER_DIM_OR_NORMAL_VEC_MUST_BE_PROVIDED_MSG : string :=
  "Either the dimension                 of the hyperplane or the normal vector must be provided".

(** The attributes of a hyperplane object; an attribute that has not been
    assigned is [None] here, and reading it raises [AttributeError]. *)
Record obj : Type := Build {
  dimension : option Z;
  normal_vector : option Vector.t;
  constant_term : option Decimal;
  basepoint : option (option Vector.t)
}.

Definition new : obj := Build None None None None.

Definition getattr {A} (name : string) (field : option A) : res A :=
  match field with
  | Some a => Ok a
  | None =>
      Err (AttributeError ("'Hyperplane' object has no attribute '" +:+ name +:+ "'"))
  end.

(** [first_nonzero_index(iterable)] *)
Fixpoint first_nonzero_from (k : Z) (items : list Decimal) : res Z :=
  match items with
  | [] => Err (Exception NO_NONZERO_ELTS_FOUND_MSG)
  | item :: rest =>
      if negb (is_near_zero item) then Ok k else first_nonzero_from (k + 1) rest
  end.

Definition first_nonzero_index (iterable : Vector.t) : res Z :=
  first_nonzero_from 0 iterable.

(** The body of the [try] block of [set_basepoint], up to the value
    assigned to [self.basepoint]. *)
Definition basepoint_of (self : obj) : res Vector.t :=
  n ← getattr "normal_vector" (normal_vector self);
  c ← getattr "constant_term" (constant_term self);
  d ← getattr "dimension" (dimension self);
  let basepoint_coords := Vector.zeros d in
  initial_index ← first_nonzero_index n;
  initial_coefficient ← getitem n initial_index;
  q ← dec_div c initial_coefficient;
  setitem basepoint_coords initial_index q.

(** [set_basepoint] *)
Definition set_basepoint (self : obj) : res obj :=
  let assign b :=
    Build (dimension self) (normal_vector self) (constant_term self) (Some b) in
  match basepoint_of self with
  | Ok b => Ok (assign (Some b))
  | Err e =>
      if bool_decide (str e = NO_NONZERO_ELTS_FOUND_MSG) then Ok (assign None)
      else Err e
  end.

(** [not dimension] and [not normal_vector] for an argument that may have
    been left out ([None]). *)
Definition given_dimension (dimension : option Z) : bool :=
  match dimension with Some d => negb (bool_decide (d = 0)) | None => false end.

Definition given_vector (normal_vector : option Vector.t) : bool :=
  match normal_vector with Some v => Vector.truthy v | None => false end.

(** [Hyperplane(dimension=..., normal_vector=..., constant_term=...)].
    The local [normal_vector] is never stored in the object. *)
Definition __init__ (dimension : option Z) (normal_vector : option Vector.t)
    (constant_term : option Decimal) : res obj :=
  if negb (given_dimension dimension) && negb (given_vector normal_vector) then
    Err (Exception EITHER_DIM_OR_NORMAL_VEC_MUST_BE_PROVIDED_MSG)
  else
    let self :=
      if negb (given_vector normal_vector) then
        Build dimension None None None
      else
        Build (Vector.dimension <$> normal_vector) None None None in
    let constant_term := default 0%Qc constant_term in
    let self :=
      Build (Hyperplane.dimension self) (Hyperplane.normal_vector self)
            (Some constant_term) (Hyperplane.basepoint self) in
    set_basepoint self.

(** [is_parallel] *)
Definition is_parallel (self p : obj) : res bool :=
  n1 ← getattr "normal_vector" (normal_vector self);
  n2 ← getattr "normal_vector" (normal_vector p);
  Vector.is_parallel n1 n2.

(** [__eq__] *)
Definition __eq__ (self p : obj) : res bool :=
  n1 ← getattr "normal_vector" (normal_vector self);
  if Vector.is_zero n1 then
    n2 ← getattr "normal_vector" (normal_vector p);
    if negb (Vector.is_zero n2) then Ok false
    else
      c1 ← getattr "constant_term" (constant_term self);
      c2 ← getattr "constant_term" (constant_term p);
      Ok (is_near_zero (c1 - c2)%Qc)
  else
    n2 ← getattr "normal_vector" (normal_vector p);
    if Vector.is_zero n2 then Ok false
    else
      par ← is_parallel self p;
      if negb par then Ok false
      else
        b1 ← getattr "basepoint" (basepoint self);
        b2 ← getattr "basepoint" (basepoint p);
        match b1, b2 with
        | Some b1, Some b2 =>
            basepoint_diff ← Vector.substract b1 b2;
            Vector.is_orthogonal basepoint_diff n1
        | _, _ =>
            Err (AttributeError "'NoneType' object has no attribute 'substract'")
        end.

End Hyperplane.

(** ** Parametrization *)

Module Parametrization.

Definition BASEPT_AND_DIR_VECTORS_MUST_BE_IN_SAME_DIM : string :=
  "The basepoint and             direction vectors should all live in the same dimension".

Record obj : Type := Build {
  basepoint : Vector.t;
  direction_vectors : list Vector.t;
  dimension : Z
}.

(** [Parametrization(basepoint, direction_vectors)] *)
Definition __init__ (basepoint : Vector.t) (direction_vectors : list Vector.t) : res obj :=
  let dimension := Vector.dimension basepoint in
  if forallb (λ v, bool_decide (Vector.dimension v = dimension)) direction_vectors
  then Ok (Build basepoint direction_vectors dimension)
  else Err (Exception BASEPT_AND_DIR_VECTORS_MUST_BE_IN_SAME_DIM).

End Parametrization.

(** ** LinearSystem *)

Module LinearSystem.

Definition ALL_PLANES_MUST_BE_IN_SAME_DIM_MSG : string :=
  "All planes in the system should live in the same dimension".
Definition NO_SOLUTIONS_MSG : string := "No solutions".
Definition INF_SOLUTIONS_MSG : string := "Infinitely many solutions".

(** The attributes of a linear system object. *)
Record obj : Type := Build {
  planes : list Plane.obj;
  dimension : Z
}.

(** [LinearSystem(planes)].  [planes[0]] on an empty list raises
    [IndexError], which the constructor does not catch. *)
Definition __init__ (planes : list Plane.obj) : res obj :=
  p0 ← getitem planes 0;
  let d := Plane.dimension p0 in
  if forallb (λ p, bool_decide (Plane.dimension p = d)) planes
  then Ok (Build planes d)
  else Err (Exception ALL_PLANES_MUST_BE_IN_SAME_DIM_MSG).

(** Methods run on their receiver. *)
Abbreviation M := (SE obj).

(** [len(self)] *)
Definition __len__ : M Z := λ self, (Ok (len (planes self)), self).

(** [self.dimension] *)
Definition dimension_ : M Z := λ self, (Ok (dimension self), self).

(** [self[i]] and [self.planes[i]] *)
Definition __getitem__ (i : Z) : M Plane.obj := λ self, (getitem (planes self) i, self).

(** [self.planes[i] = x] *)
Definition assign_row (i : Z) (x : Plane.obj) : M unit := λ self,
  match setitem (planes self) i x with
  | Ok l => (Ok tt, Build l (dimension self))
  | Err e => (Err e, self)
  end.

(** [self[i] = x], that is [__setitem__] *)
Definition __setitem__ (i : Z) (x : Plane.obj) : M unit := λ self,
  if bool_decide (Plane.dimension x = dimension self) then assign_row i x self
  else (Err (Exception ALL_PLANES_MUST_BE_IN_SAME_DIM_MSG), self).

(** [self[row].normal_vector[col]] *)
Definition entry (row col : Z) : M Decimal :=
  p ← __getitem__ row; lift (getitem (Plane.normal_vector p) col).

Definition add_multiple_times_row_to_row
    (coefficient : Decimal) (row_to_add row_to_be_added_to : Z) : M unit :=
  plane1 ← __getitem__ row_to_add;
  let normal_vector1 := Plane.normal_vector plane1 in
  let constant_term1 := Plane.constant_term plane1 in
  plane2 ← __getitem__ row_to_be_added_to;
  let normal_vector2 := Plane.normal_vector plane2 in
  let constant_term2 := Plane.constant_term plane2 in
  new_normal_vector ←
    lift (Vector.add (Vector.scalar_multiply normal_vector1 coefficient) normal_vector2);
  let new_constant_term := (constant_term1 * coefficient + constant_term2)%Qc in
  p ← lift (Plane.__init__ (Some new_normal_vector) (Some new_constant_term));
  assign_row row_to_be_added_to p.

(** The index of one row in [indices_of_first_nonzero_terms_in_each_row]. *)
Definition first_nonzero_or_minus_one (p : Plane.obj) : res Z :=
  match Plane.first_nonzero_index (Plane.normal_vector p) with
  | Ok k => Ok k
  | Err e =>
      if bool_decide (str e = Plane.NO_NONZERO_ELTS_FOUND_MSG) then Ok (-1)
      else Err e
  end.

Definition indices_of_first_nonzero_terms_in_each_row : M (list Z) := λ self,
  (mapM first_nonzero_or_minus_one (planes self), self).

Definition swap_rows (row1 row2 : Z) : M unit :=
  a ← __getitem__ row1;
  b ← __getitem__ row2;
  assign_row row2 a ;; assign_row row1 b.

Definition multiply_coefficient_and_row (coefficient : Decimal) (row : Z) : M unit :=
  plane ← __getitem__ row;
  let normal_vector := Plane.normal_vector plane in
  let constant_term := Plane.constant_term plane in
  let new_normal_vector := Vector.scalar_multiply normal_vector coefficient in
  let new_constant_term := (constant_term * coefficient)%Qc in
  p ← lift (Plane.__init__ (Some new_normal_vector) (Some new_constant_term));
  assign_row row p.

(** The loop of [swap_with_row_below_for_nonzero_coefficient] over the
    rows [ks] still to try. *)
Fixpoint swap_with_first_nonzero (row col : Z) (ks : list Z) : M bool :=
  match ks with
  | [] => mret false
  | k :: ks' =>
      coeff ← entry k col;
      if negb (is_near_zero coeff) then swap_rows row k ;; mret true
      else swap_with_first_nonzero row col ks'
  end.

Definition swap_with_row_below_for_nonzero_coefficient (row col : Z) : M bool :=
  num_equations ← __len__;
  swap_with_first_nonzero row col (range (row + 1) num_equations).

Definition clear_coeffs_below (row col : Z) : M unit :=
  num_equations ← __len__;
  beta ← entry row col;
  for_each (range (row + 1) num_equations) (λ k,
    gamma ← entry k col;
    alpha ← lift (dec_div (- gamma)%Qc beta);
    add_multiple_times_row_to_row alpha row k).

Definition clear_coefficients_above (row col : Z) : M unit :=
  for_each (reverse (range 0 row)) (λ k,
    n ← entry k col;
    let alpha := (- n)%Qc in
    add_multiple_times_row_to_row alpha row k).

Definition scale_row_to_make_coefficient_equal_one (row col : Z) : M unit :=
  n ← entry row col;
  beta ← lift (dec_div 1%Qc n);
  multiply_coefficient_and_row beta row.

(** The [while col < n_variables] loop of [compute_triangular_form] for
    one row; [todo] is its variant [n_variables - col], and the value
    returned is [col] when the loop is left. *)
Fixpoint find_pivot_and_clear (todo : nat) (row col : Z) : M Z :=
  match todo with
  | O => mret col
  | S todo' =>
      c ← entry row col;
      if is_near_zero c then
        swapped ← swap_with_row_below_for_nonzero_coefficient row col;
        if negb swapped then find_pivot_and_clear todo' row (col + 1)
        else clear_coeffs_below row col ;; mret (col + 1)
      else clear_coeffs_below row col ;; mret (col + 1)
  end.

(** The [for row in range(n_equations)] loop of [compute_triangular_form],
    run on [system]; [col] is carried from row to row. *)
Fixpoint triangular_rows (n_variables : Z) (rows : list Z) (col : Z) : M unit :=
  match rows with
  | [] => mret tt
  | row :: rows' =>
      col' ← find_pivot_and_clear (Z.to_nat (n_variables - col)) row col;
      triangular_rows n_variables rows' col'
  end.

(** The loop of [compute_rref], run on [triangular_form]. *)
Definition rref_rows : M unit :=
  num_equations ← __len__;
  pivot_indices ← indices_of_first_nonzero_terms_in_each_row;
  for_each (reverse (range 0 num_equations)) (λ row,
    pivot_var ← lift (getitem pivot_indices row);
    if bool_decide (pivot_var < 0) then mret tt
    else
      scale_row_to_make_coefficient_equal_one row pivot_var ;;
      clear_coefficients_above row pivot_var).

Fixpoint check_contradictory (ps : list Plane.obj) : res unit :=
  match ps with
  | [] => Ok tt
  | plane :: ps' =>
      match Plane.first_nonzero_index (Plane.normal_vector plane) with
      | Ok _ => check_contradictory ps'
      | Err e =>
          if bool_decide (str e = Plane.NO_NONZERO_ELTS_FOUND_MSG) then
            if negb (is_near_zero (Plane.constant_term plane))
            then Err (Exception NO_SOLUTIONS_MSG)
            else check_contradictory ps'
          else Err e
      end
  end.

Definition raise_excepion_if_contradictory_equation : M unit := λ self,
  (check_contradictory (planes self), self).

Definition raise_excepion_if_too_few_pivots : M unit :=
  pivot_indices ← indices_of_first_nonzero_terms_in_each_row;
  let num_pivots :=
    foldr Z.add 0 (map (λ index, if bool_decide (index >= 0) then 1 else 0) pivot_indices) in
  num_variables ← dimension_;
  if bool_decide (num_pivots < num_variables)
  then raise (Exception INF_SOLUTIONS_MSG)
  else mret tt.

(** [set(range(num_variables)) - set(pivot_indices)], in the order the
    [for] loop visits it: a set of small non-negative integers is visited
    in increasing order. *)
Definition free_variables (num_variables : Z) (pivot_indices : list Z) : list Z :=
  filter (λ i, i ∉ pivot_indices) (range 0 num_variables).

(** The inner loop of [extract_direction_vectors_for_parametrization]
    over [enumerate(self.planes)], with its [break]. *)
Fixpoint direction_coords (free_var : Z) (rows : list (Z * Plane.obj))
    (vector_coords : list Decimal) : res (list Decimal) :=
  match rows with
  | [] => Ok vector_coords
  | (pivot_var, plane) :: rows' =>
      if bool_decide (pivot_var < 0) then Ok vector_coords
      else
        x ← getitem (Plane.normal_vector plane) free_var;
        vector_coords' ← setitem vector_coords pivot_var (- x)%Qc;
        direction_coords free_var rows' vector_coords'
  end.

Definition extract_direction_vectors_for_parametrization : M (list Vector.t) :=
  num_variables ← dimension_;
  pivot_indices ← indices_of_first_nonzero_terms_in_each_row;
  let free_variable_indices := free_variables num_variables pivot_indices in
  self ← get;
  lift (mapM (λ free_var,
    let vector_coords := Vector.zeros num_variables in
    vector_coords ← setitem vector_coords free_var 1%Qc;
    direction_coords free_var (zip pivot_indices (planes self)) vector_coords)
    free_variable_indices).

(** The loop of [extract_basepoint_for_parametrization]. *)
Fixpoint basepoint_coords_from (rows : list (Z * Plane.obj))
    (basepoint_coords : list Decimal) : res (list Decimal) :=
  match rows with
  | [] => Ok basepoint_coords
  | (pivot_var, plane) :: rows' =>
      if bool_decide (pivot_var < 0) then Ok basepoint_coords
      else
        basepoint_coords' ← setitem basepoint_coords pivot_var (Plane.constant_term plane);
        basepoint_coords_from rows' basepoint_coords'
  end.

Definition extract_basepoint_for_parametrization : M Vector.t :=
  num_variables ← dimension_;
  pivot_indices ← indices_of_first_nonzero_terms_in_each_row;
  self ← get;
  lift (basepoint_coords_from (zip pivot_indices (planes self))
          (Vector.zeros num_variables)).

(** *** Methods that create a system: the heap of system objects *)

Definition loc : Type := nat.
Abbreviation heap := (gmap loc obj).
Abbreviation H := (SE heap).

(** A method call [o.m(...)] on the object at [o]. *)
Definition call {A} (o : loc) (m : M A) : H A := λ h,
  match h !! o with
  | Some self => let '(r, self') := m self in (r, <[o := self']> h)
  | None => (Err ReferenceError, h)
  end.

(** [deepcopy(o)]: a new object holding a copy of the attributes of [o]
    (planes are never mutated, so a copied row is the same value). *)
Definition deepcopy (o : loc) : H loc := λ h,
  match h !! o with
  | Some self => let o' := fresh (dom h) in (Ok o', <[o' := self]> h)
  | None => (Err ReferenceError, h)
  end.

Definition compute_triangular_form (self : loc) : H loc :=
  system ← deepcopy self;
  n_equations ← call system __len__;
  n_variables ← call self dimension_;
  call system (triangular_rows n_variables (range 0 n_equations) 0) ;;
  mret system.

Definition compute_rref (self : loc) : H loc :=
  triangular_form ← compute_triangular_form self;
  call triangular_form rref_rows ;;
  mret triangular_form.

Definition do_gaussian_elimination_and_parametrization (self : loc)
  : H Parametrization.obj :=
  rref ← compute_rref self;
  call rref raise_excepion_if_contradictory_equation ;;
  direction_vectors ← call rref extract_direction_vectors_for_parametrization;
  basepoint ← call rref extract_basepoint_for_parametrization;
  lift (Parametrization.__init__ basepoint direction_vectors).

(** What [compute_solution] returns: a parametrization or a message. *)
Inductive solution : Type :=
| Param (p : Parametrization.obj)
| Message (s : string).

Definition compute_solution (self : loc) : H solution := λ h,
  match do_gaussian_elimination_and_parametrization self h with
  | (Ok p, h') => (Ok (Param p), h')
  | (Err e, h') =>
      if bool_decide (str e = NO_SOLUTIONS_MSG) || bool_decide (str e = INF_SOLUTIONS_MSG)
      then (Ok (Message (str e)), h')
      else (Err e, h')
  end.

End LinearSystem.


(** * Definitions used to state the properties *)

(** The elimination [compute_triangular_form] runs on the copy of [s]. *)
Definition triangular_form_of (s : LinearSystem.obj) : res unit * LinearSystem.obj :=
  LinearSystem.triangular_rows (LinearSystem.dimension s)
    (range 0 (len (LinearSystem.planes s))) 0 s.

(** The back substitution [compute_rref] runs after it on the same copy. *)
Definition rref_of (s : LinearSystem.obj) : res unit * LinearSystem.obj :=
  (triangular_form_of ≫= λ _, LinearSystem.rref_rows) s.

(** The rest of [do_gaussian_elimination_and_parametrization], which runs on
    the same copy. *)
Definition parametrization_of (s : LinearSystem.obj)
  : res Parametrization.obj * LinearSystem.obj :=
  (rref_of ≫= λ _,
   LinearSystem.raise_excepion_if_contradictory_equation ≫= λ _,
   LinearSystem.extract_direction_vectors_for_parametrization ≫= λ direction_vectors,
   LinearSystem.extract_basepoint_for_parametrization ≫= λ basepoint,
   lift (Parametrization.__init__ basepoint direction_vectors)) s.

(** The [try] and [except] of [compute_solution] around its outcome. *)
Definition solution_of (r : res Parametrization.obj) : res LinearSystem.solution :=
  match r with
  | Ok p => Ok (LinearSystem.Param p)
  | Err e =>
      if bool_decide (str e = LinearSystem.NO_SOLUTIONS_MSG)
         || bool_decide (str e = LinearSystem.INF_SOLUTIONS_MSG)
      then Ok (LinearSystem.Message (str e))
      else Err e
  end.

(** A plane and a system of planes given by integer coefficients, as a
    caller builds them: [Plane(Vector(n), c)] and [LinearSystem([...])]. *)
Definition plane_of (n : list Z) (c : Z) : res Plane.obj :=
  Plane.__init__ (Some (map dec n)) (Some (dec c)).

Definition system_of (rows : list (list Z * Z)) : res LinearSystem.obj :=
  mapM (λ '(n, c), plane_of n c) rows ≫= LinearSystem.__init__.

(** The system of claim C1, as [system_of] builds it. *)
Definition three_planes : LinearSystem.obj :=
  Eval vm_compute in
    match system_of [([1; 1; 1], 1); ([0; 1; 0], 2); ([0; 0; 1], 3)] with
    | Ok s => s
    | Err _ => LinearSystem.Build [] 0
    end.

(** The system of claim C2, built from planes. *)
Definition two_planes_four_unknowns : LinearSystem.obj :=
  Eval vm_compute in
    match system_of [([1; 1; 1; 1], 1); ([1; 1; 2; 2], 2)] with
    | Ok s => s
    | Err _ => LinearSystem.Build [] 0
    end.

(** The point [basepoint + sum of t_i * direction_vectors[i]] of a
    parametrization, with the vector operations of the model. *)
Fixpoint combination (b : Vector.t) (ds : list Vector.t) (ts : list Decimal)
  : res Vector.t :=
  match ds, ts with
  | d :: ds', t :: ts' =>
      Vector.add b (Vector.scalar_multiply d t) ≫= λ b', combination b' ds' ts'
  | _, _ => Ok b
  end.

Definition point_of (P : Parametrization.obj) (ts : list Decimal) : res Vector.t :=
  combination (Parametrization.basepoint P) (Parametrization.direction_vectors P) ts.

(** [x] satisfies the equation of [p] within epsilon: the residual
    [normal_vector . x - constant_term] is near zero. *)
Definition satisfies_within_epsilon (x : Vector.t) (p : Plane.obj) : bool :=
  match Vector.dot (Plane.normal_vector p) x with
  | Ok d => is_near_zero (d - Plane.constant_term p)%Qc
  | Err _ => false
  end.

(** [x] satisfies the equation of [p] exactly. *)
Definition solves (x : Vector.t) (p : Plane.obj) : Prop :=
  Vector.dot (Plane.normal_vector p) x = Ok (Plane.constant_term p).

(** The exceptions the row operations and the elimination can raise: those
    of indexing, of decimal division and of the vector operations. *)
Definition builtin_error (e : exn) : Prop :=
  match e with
  | IndexError m =>
      m = "list index out of range" ∨ m = "list assignment index out of range"
  | DivisionByZero => True
  | VectorError m => m = Vector.DIMENSION_MISMATCH_MSG
  | Exception _ | AttributeError _ | ReferenceError => False
  end.

(** A row that no point satisfies: its normal vector is zero within epsilon
    and its constant term is not. *)
Definition contradictory (p : Plane.obj) : Prop :=
  Vector.is_zero (Plane.normal_vector p) = true ∧
  is_near_zero (Plane.constant_term p) = false.

(** The system of the contradiction example of claim C6. *)
Definition zero_rows_0_and_5 : LinearSystem.obj :=
  Eval vm_compute in
    match system_of [([0; 0; 0], 0); ([0; 0; 0], 5)] with
    | Ok s => s
    | Err _ => LinearSystem.Build [] 0
    end.

(** Every row has the dimension of the system. *)
Definition rows_in_dimension (s : LinearSystem.obj) : Prop :=
  Forall (λ p, Plane.dimension p = LinearSystem.dimension s) (LinearSystem.planes s).

(** A row object whose [dimension] attribute is 4, as a hyperplane of four
    unknowns would be, and the system of that row. *)
Definition row_of_dimension_four : Plane.obj :=
  Plane.Build 4 [dec 1; dec 0; dec 0; dec 0] (dec 0) (Some [dec 0; dec 0; dec 0; dec 0]).

Definition system_of_dimension_four : LinearSystem.obj :=
  LinearSystem.Build [row_of_dimension_four] 4.

(** A plane the constructor returns. *)
Definition constructed (p : Plane.obj) : Prop :=
  ∃ nv c, Plane.__init__ nv c = Ok p.

(** The hyperplane object holding the attributes of the plane [p]. *)
Definition hyperplane_of (p : Plane.obj) : Hyperplane.obj :=
  Hyperplane.Build (Some (Plane.dimension p)) (Some (Plane.normal_vector p))
    (Some (Plane.constant_term p)) (Some (Plane.basepoint p)).

(** The planes of the coincidence examples of claim C10, as the constructor
    returns them. *)
Definition built (r : res Plane.obj) : Plane.obj :=
  match r with Ok p => p | Err _ => Plane.Build 0 [] 0%Qc None end.

Definition plane_123_1 : Plane.obj :=
  Eval vm_compute in built (Plane.__init__ (Some [dec 1; dec 2; dec 3]) (Some (dec 1))).
Definition plane_246_2 : Plane.obj :=
  Eval vm_compute in built (Plane.__init__ (Some [dec 2; dec 4; dec 6]) (Some (dec 2))).
Definition plane_246_3 : Plane.obj :=
  Eval vm_compute in built (Plane.__init__ (Some [dec 2; dec 4; dec 6]) (Some (dec 3))).

(** The elementary row operations, and a finite sequence of them applied
    to a system. *)
Inductive row_operation : Type :=
| Swap (row1 row2 : Z)
| Scale (coefficient : Decimal) (row : Z)
| AddMultiple (coefficient : Decimal) (row_to_add row_to_be_added_to : Z).

Definition apply_operation (op : row_operation) : LinearSystem.M unit :=
  match op with
  | Swap row1 row2 => LinearSystem.swap_rows row1 row2
  | Scale coefficient row => LinearSystem.multiply_coefficient_and_row coefficient row
  | AddMultiple coefficient row_to_add row_to_be_added_to =>
      LinearSystem.add_multiple_times_row_to_row coefficient row_to_add row_to_be_added_to
  end.

Definition apply_operations (ops : list row_operation) : LinearSystem.M unit :=
  for_each ops apply_operation.

(** [x] satisfies every equation of [s] within epsilon, and exactly. *)
Definition satisfies_all_within_epsilon (x : Vector.t) (s : LinearSystem.obj) : bool :=
  forallb (satisfies_within_epsilon x) (LinearSystem.planes s).

Definition solves_all (x : Vector.t) (s : LinearSystem.obj) : Prop :=
  Forall (solves x) (LinearSystem.planes s).

(** In a system of [n] rows: a scaling by a coefficient that is not zero,
    and the addition of a multiple of a row to another row. *)
Definition elementary (n : nat) (op : row_operation) : Prop :=
  match op with
  | Swap _ _ => True
  | Scale coefficient _ => coefficient ≠ 0%Qc
  | AddMultiple _ row_to_add row_to_be_added_to =>
      index n row_to_add ≠ index n row_to_be_added_to
  end.

(** The system of the single plane x = 0. *)
Definition plane_x_is_0 : LinearSystem.obj :=
  Eval vm_compute in
    match system_of [([1; 0; 0], 0)] with
    | Ok s => s
    | Err _ => LinearSystem.Build [] 0
    end.

(** The entry of row [r] in column [c]. *)
Definition entry_at (s : LinearSystem.obj) (r c : nat) : option Decimal :=
  LinearSystem.planes s !! r ≫= λ p, Plane.normal_vector p !! c.

(** Row [k] of [s'] is the plane built from row [k] of [s] plus [alpha]
    times row [r] of [s]. *)
Definition combined (s s' : LinearSystem.obj) (r k : nat) (alpha : Decimal) : Prop :=
  ∃ pr pk pk',
    LinearSystem.planes s !! r = Some pr ∧ LinearSystem.planes s !! k = Some pk ∧
    LinearSystem.planes s' !! k = Some pk' ∧
    length (Plane.normal_vector pr) = length (Plane.normal_vector pk) ∧
    Plane.__init__
      (Some (zip_with Qcplus (Vector.scalar_multiply (Plane.normal_vector pr) alpha)
               (Plane.normal_vector pk)))
      (Some (Plane.constant_term pr * alpha + Plane.constant_term pk)%Qc) = Ok pk'.

(** A system of planes given by decimal fractions. *)
Definition system_of_rationals (rows : list (list Q * Q)) : res LinearSystem.obj :=
  mapM (λ '(n, c), Plane.__init__ (Some (map Q2Qc n)) (Some (Q2Qc c))) rows
  ≫= LinearSystem.__init__.

Definition system_or_empty (r : res LinearSystem.obj) : LinearSystem.obj :=
  match r with Ok s => s | Err _ => LinearSystem.Build [] 0 end.

(** The plane 1e-11 x + 1e-9 y = 0. *)
Definition one_small_row : LinearSystem.obj :=
  Eval vm_compute in
    system_or_empty (system_of_rationals
      [([1 # 100000000000; 1 # 1000000000; 0], 0)]%Q).

(** The planes 5e-11 x + y = 0, 5e-11 x = 0 and 5e-11 x + 5 y = 0. *)
Definition three_small_rows : LinearSystem.obj :=
  Eval vm_compute in
    system_or_empty (system_of_rationals
      [([5 # 100000000000; 1; 0], 0); ([5 # 100000000000; 0; 0], 0);
       ([5 # 100000000000; 5; 0], 0)]%Q).

(** The planes 5e-11 x + y = 0 and 5e-11 x + 5 y + z = 0. *)
Definition two_small_rows : LinearSystem.obj :=
  Eval vm_compute in
    system_or_empty (system_of_rationals
      [([5 # 100000000000; 1; 0], 0); ([5 # 100000000000; 5; 1], 0)]%Q).

(** The pivot column of a row, as claims C4 and C5 define it: the first
    index of its normal vector whose entry is not within epsilon of zero. *)
Definition pivot_column (p : Plane.obj) : option Z :=
  match Plane.first_nonzero_index (Plane.normal_vector p) with
  | Ok k => Some k
  | Err _ => None
  end.

(** The triangular form and the reduced form of [three_planes]. *)
Definition three_planes_triangular : LinearSystem.obj :=
  Eval vm_compute in snd (triangular_form_of three_planes).

Definition three_planes_reduced : LinearSystem.obj :=
  Eval vm_compute in snd (rref_of three_planes).

(** Entries within epsilon of zero, entries that can be pivots, and
    columns that are zero, or near zero, from a row on. *)
Definition near_zero_at (s : LinearSystem.obj) (r c : nat) : Prop :=
  ∃ y, entry_at s r c = Some y ∧ is_near_zero y = true.

Definition pivot_at (s : LinearSystem.obj) (r c : nat) : Prop :=
  ∃ x, entry_at s r c = Some x ∧ is_near_zero x = false.

Definition zero_below (s : LinearSystem.obj) (r c : nat) : Prop :=
  ∀ k, (r < k < length (LinearSystem.planes s))%nat → entry_at s k c = Some 0%Qc.

Definition zero_from (s : LinearSystem.obj) (r c : nat) : Prop :=
  ∀ k, (r ≤ k < length (LinearSystem.planes s))%nat → entry_at s k c = Some 0%Qc.

Definition near_zero_from (s : LinearSystem.obj) (r c : nat) : Prop :=
  ∀ k, (r ≤ k < length (LinearSystem.planes s))%nat → near_zero_at s k c.

(** The column at which the search for a pivot resumes after the pivot
    columns [cs]. *)
Definition next_column (cs : list nat) : nat :=
  match last cs with Some c => S c | None => 0%nat end.

(** The pivot found in row [i], in column [c], after the pivot columns
    [before] of the rows above: the entry is not within epsilon of zero,
    every entry below it is zero, and the row is within epsilon of zero
    from the column after the previous pivot up to [c]. *)
Definition pivot_row (d : Z) (s : LinearSystem.obj) (before : list nat) (i c : nat)
  : Prop :=
  Z.of_nat c < d ∧ (next_column before ≤ c)%nat ∧
  pivot_at s i c ∧ zero_below s i c ∧
  ∀ c', (next_column before ≤ c' < c)%nat → near_zero_at s i c'.

(** The rows from [m] on are within epsilon of zero in the columns from
    [c0] up to the dimension [d]. *)
Definition no_pivot_from (d : Z) (s : LinearSystem.obj) (m c0 : nat) : Prop :=
  ∀ k c', (m ≤ k < length (LinearSystem.planes s))%nat → (c0 ≤ c')%nat →
          Z.of_nat c' < d → near_zero_at s k c'.

(** The staircase of pivot columns [cs] of the system [T] in [d] columns:
    row [i] has its pivot in column [cs !! i], the columns increase, and the
    rows that have no pivot are within epsilon of zero after the last pivot
    column. *)
Definition staircase (d : Z) (T : LinearSystem.obj) (cs : list nat) : Prop :=
  (length cs ≤ length (LinearSystem.planes T))%nat ∧
  (∀ i c, cs !! i = Some c → pivot_row d T (take i cs) i c) ∧
  no_pivot_from d T (length cs) (next_column cs).

(** What the elimination does to the system while it handles row [rn]: the
    rows above are kept, a column that was zero from row [rn] on stays so,
    and row [rn] is within epsilon of zero wherever all rows from [rn] on
    were. *)
Definition row_step (s s' : LinearSystem.obj) (rn : nat) : Prop :=
  length (LinearSystem.planes s') = length (LinearSystem.planes s) ∧
  LinearSystem.dimension s' = LinearSystem.dimension s ∧
  (∀ k, (k < rn)%nat → LinearSystem.planes s' !! k = LinearSystem.planes s !! k) ∧
  (∀ z, zero_from s rn z → zero_from s' rn z) ∧
  (∀ c', near_zero_from s rn c' → near_zero_at s' rn c').

(** The state of the loop of [compute_triangular_form] before row [rn],
    with the column cursor [col] and the pivot columns [cs] found so far. *)
Definition triangular_invariant (d : Z) (s : LinearSystem.obj) (rn : nat) (col : Z)
    (cs : list nat) : Prop :=
  (∀ i c, cs !! i = Some c → pivot_row d s (take i cs) i c) ∧
  ((length cs = rn ∧ col = Z.of_nat (next_column cs)) ∨
   ((length cs < rn)%nat ∧ d ≤ col ∧ no_pivot_from d s (length cs) (next_column cs))).

(** The triangular form of [two_small_rows]. *)
Definition two_small_rows_triangular : LinearSystem.obj :=
  Eval vm_compute in snd (triangular_form_of two_small_rows).

(** A system of planes in three unknowns: its dimension is 3 and every
    normal vector has three coordinates. *)
Definition three_unknowns (s : LinearSystem.obj) : Prop :=
  LinearSystem.dimension s = 3 ∧
  Forall (λ p, length (Plane.normal_vector p) = 3%nat) (LinearSystem.planes s).

(** The planes 5e-11 x + y = 0, 5e-11 x + 5 y + z = 0 and 5e-11 x + 5 y = 0. *)
Definition three_rows_one_cancelled : LinearSystem.obj :=
  Eval vm_compute in
    system_or_empty (system_of_rationals
      [([5 # 100000000000; 1; 0], 0); ([5 # 100000000000; 5; 1], 0);
       ([5 # 100000000000; 5; 0], 0)]%Q).

(** The systems the elimination makes of [one_small_row] and of
    [three_small_rows]. *)
Definition one_small_row_reduced : LinearSystem.obj :=
  Eval vm_compute in snd (rref_of one_small_row).

Definition three_small_rows_triangular : LinearSystem.obj :=
  Eval vm_compute in snd (triangular_form_of three_small_rows).

Definition three_small_rows_reduced : LinearSystem.obj :=
  Eval vm_compute in snd (rref_of three_small_rows).

(** The system [s'] has the rows of constructed planes, as many as [s], and
    the same exact solutions as [s]. *)
Definition same_solutions (s s' : LinearSystem.obj) : Prop :=
  Forall constructed (LinearSystem.planes s') ∧
  length (LinearSystem.planes s') = length (LinearSystem.planes s) ∧
  ∀ x, solves_all x s ↔ solves_all x s'.

(** The coordinates [coords] with the values [cvs] stored at their places,
    in order. *)
Definition with_values (coords : list Decimal) (cvs : list (nat * Decimal))
  : list Decimal :=
  foldl (λ acc cv, <[cv.1 := cv.2]> acc) coords cvs.

(** The pivot columns of the leading rows of [ps] that have one. *)
Fixpoint leading_pivots (ps : list Plane.obj) : list nat :=
  match ps with
  | [] => []
  | p :: ps' =>
      match pivot_column p with
      | Some c => Z.to_nat c :: leading_pivots ps'
      | None => []
      end
  end.

(** The row 0 = 0. *)
Definition zero_row (p : Plane.obj) : bool :=
  forallb (λ x, bool_decide (x = 0%Qc)) (Plane.normal_vector p)
  && bool_decide (Plane.constant_term p = 0%Qc).

(** Column [c] is the unit column of row [i] of [ps]: its entry is one in
    row [i] and zero in every other row. *)
Definition unit_column (ps : list Plane.obj) (i c : nat) : bool :=
  forallb (λ '(k, p),
      bool_decide (Plane.normal_vector p !! c
                   = Some (if bool_decide (k = i) then 1%Qc else 0%Qc)))
    (zip (seq 0 (length ps)) ps).

(** A system in reduced row-echelon form, exactly: every normal vector has
    as many coordinates as the dimension; the rows that have a pivot come
    first, and the pivot column of each is its unit column; the rows after
    them are rows 0 = 0. *)
Definition reduced (s : LinearSystem.obj) : bool :=
  let ps := LinearSystem.planes s in
  let cs := leading_pivots ps in
  forallb (λ p, bool_decide (len (Plane.normal_vector p) = LinearSystem.dimension s)) ps
  && forallb (λ '(i, c), unit_column ps i c) (zip (seq 0 (length cs)) cs)
  && forallb zero_row (drop (length cs) ps).

(** The parametrization the pipeline makes of a system it has reduced: the
    part of [do_gaussian_elimination_and_parametrization] after
    [compute_rref]. *)
Definition parametrization_of_reduced (R : LinearSystem.obj)
  : res Parametrization.obj * LinearSystem.obj :=
  (LinearSystem.raise_excepion_if_contradictory_equation ≫= λ _,
   LinearSystem.extract_direction_vectors_for_parametrization ≫= λ direction_vectors,
   LinearSystem.extract_basepoint_for_parametrization ≫= λ basepoint,
   lift (Parametrization.__init__ basepoint direction_vectors)) R.

(** The points of a parametrization: one parameter for each direction
    vector. *)
Definition point (P : Parametrization.obj) (x : Vector.t) : Prop :=
  ∃ ts, length ts = length (Parametrization.direction_vectors P) ∧
        point_of P ts = Ok x.

(** The systems of the planes x + y + z = 1, x + y + 2z = 2, and its
    reduced form. *)
Definition two_planes : LinearSystem.obj :=
  Eval vm_compute in
    match system_of [([1; 1; 1], 1); ([1; 1; 2], 2)] with
    | Ok s => s
    | Err _ => LinearSystem.Build [] 0
    end.

Definition two_planes_reduced : LinearSystem.obj :=
  Eval vm_compute in snd (rref_of two_planes).

(** * Reasoning about the two monads *)

Section monads.
Context {S : Type}.

Lemma se_bind_eq {A B} (m : SE S A) (f : A → SE S B) (s : S) :
  (m ≫= f) s =
  match m s with
  | (Ok a, s') => f a s'
  | (Err e, s') => (Err e, s')
  end.
Proof. reflexivity. Qed.

Lemma se_bind_ok {A B} (m : SE S A) (f : A → SE S B) (s s' : S) (b : B) :
  (m ≫= f) s = (Ok b, s') → ∃ a s1, m s = (Ok a, s1) ∧ f a s1 = (Ok b, s').
Proof.
  rewrite se_bind_eq. destruct (m s) as [[a|e] s1]; [eauto | discriminate].
Qed.

Lemma se_bind_err {A B} (m : SE S A) (f : A → SE S B) (s s' : S) (e : exn) :
  (m ≫= f) s = (Err e, s') →
  m s = (Err e, s') ∨ ∃ a s1, m s = (Ok a, s1) ∧ f a s1 = (Err e, s').
Proof.
  rewrite se_bind_eq. destruct (m s) as [[a|e'] s1]; [eauto | left; congruence].
Qed.

Lemma lift_ok {A} (r : res A) (s s' : S) (a : A) :
  lift r s = (Ok a, s') → r = Ok a ∧ s' = s.
Proof. unfold lift. intros [= -> ->]. done. Qed.

Lemma for_each_app {A} (xs ys : list A) (body : A → SE S unit) (s : S) :
  for_each (xs ++ ys) body s =
  (for_each xs body ≫= λ _, for_each ys body) s.
Proof.
  revert s. induction xs as [|x xs IH]; intros s; simpl.
  - reflexivity.
  - rewrite !se_bind_eq. destruct (body x s) as [[[]|e] s1]; [|done].
    rewrite IH, se_bind_eq. reflexivity.
Qed.

(** A loop invariant indexed by the elements already visited. *)
Lemma for_each_invariant {A} (I : list A → S → Prop) (xs : list A)
    (body : A → SE S unit) (s s' : S) :
  I [] s →
  (∀ done x s1 s2, (∃ rest, xs = done ++ x :: rest) →
     I done s1 → body x s1 = (Ok tt, s2) → I (done ++ [x]) s2) →
  for_each xs body s = (Ok tt, s') → I xs s'.
Proof.
  intros H0 Hstep.
  assert (Hgen : ∀ todo done s, xs = done ++ todo → I done s →
            for_each todo body s = (Ok tt, s') → I xs s').
  { induction todo as [|x todo IH]; intros done s1 Hxs Hd Hrun.
    - simpl in Hrun. injection Hrun as <-. rewrite app_nil_r in Hxs. by subst.
    - simpl in Hrun. apply se_bind_ok in Hrun as ([] & s2 & Hb & Hrest).
      apply (IH (done ++ [x]) s2); [by rewrite <- app_assoc | | done].
      eapply Hstep; eauto. }
  intros Hrun. by apply (Hgen xs [] s).
Qed.

End monads.

Lemma res_bind_ok {A B} (m : res A) (f : A → res B) (b : B) :
  m ≫= f = Ok b → ∃ a, m = Ok a ∧ f a = Ok b.
Proof. destruct m as [a|e]; [eauto | discriminate]. Qed.

(** * Python indexing *)

Lemma index_nonneg (n : nat) (i : Z) :
  0 ≤ i < Z.of_nat n → index n i = Some (Z.to_nat i).
Proof. intros H. unfold index. by rewrite bool_decide_true. Qed.

Lemma index_lt (n : nat) (i : Z) (k : nat) : index n i = Some k → (k < n)%nat.
Proof.
  unfold index. repeat case_bool_decide; intros [= <-]; lia.
Qed.

Lemma index_of_nat (n k : nat) : (k < n)%nat → index n (Z.of_nat k) = Some k.
Proof. intros H. rewrite index_nonneg by lia. by rewrite Nat2Z.id. Qed.

Lemma getitem_ok {A} (l : list A) (i : Z) (x : A) :
  getitem l i = Ok x ↔ ∃ k, index (length l) i = Some k ∧ l !! k = Some x.
Proof.
  unfold getitem. destruct (index (length l) i) as [k|] eqn:Hk; simpl.
  - destruct (l !! k) as [y|] eqn:Hy.
    + split; [intros [= ->]; eauto | intros (k' & [= <-] & Hx); congruence].
    + split; [done | intros (k' & [= <-] & Hx); congruence].
  - split; [done | intros (k' & [=] & _)].
Qed.

Lemma getitem_of_nat {A} (l : list A) (k : nat) (x : A) :
  l !! k = Some x → getitem l (Z.of_nat k) = Ok x.
Proof.
  intros H. apply getitem_ok. exists k. split; [|done].
  apply index_of_nat. by eapply lookup_lt_Some.
Qed.

Lemma setitem_ok {A} (l l' : list A) (i : Z) (x : A) :
  setitem l i x = Ok l' ↔ ∃ k, index (length l) i = Some k ∧ l' = <[k := x]> l.
Proof.
  unfold setitem. destruct (index (length l) i) as [k|]; split.
  - intros [= <-]. eauto.
  - intros (k' & [= <-] & ->). done.
  - done.
  - intros (k' & [=] & _).
Qed.

(** * Method calls on the heap *)

Section heap.
Import LinearSystem.

Lemma call_eq {A} (o : loc) (m : M A) (h : heap) (self : obj) :
  h !! o = Some self → call o m h = (fst (m self), <[o := snd (m self)]> h).
Proof. intros H. unfold call. rewrite H. by destruct (m self). Qed.

Lemma fresh_loc_unused (h : heap) : h !! fresh (dom h) = None.
Proof. apply not_elem_of_dom, is_fresh. Qed.

(** [compute_triangular_form] allocates one object, the copy, and leaves in
    it the outcome of the elimination. *)
Lemma compute_triangular_form_eq (self : loc) (h : heap) (s : obj) :
  h !! self = Some s →
  compute_triangular_form self h =
    (fst (triangular_form_of s) ≫= λ _, Ok (fresh (dom h)),
     <[fresh (dom h) := snd (triangular_form_of s)]> h).
Proof.
  intros Hs. pose proof (fresh_loc_unused h) as Hfresh.
  assert (Hne : fresh (dom h) ≠ self) by congruence.
  unfold compute_triangular_form, deepcopy. rewrite se_bind_eq, Hs.
  rewrite se_bind_eq, (call_eq _ _ _ s) by apply lookup_insert_eq. simpl.
  rewrite insert_insert_eq.
  rewrite se_bind_eq, (call_eq _ _ _ s) by (by rewrite lookup_insert_ne). simpl.
  rewrite (insert_id (<[_ := s]> h) self s) by (by rewrite lookup_insert_ne).
  rewrite se_bind_eq, (call_eq _ _ _ s) by apply lookup_insert_eq.
  rewrite insert_insert_eq. unfold triangular_form_of.
  by destruct (triangular_rows _ _ _ s) as [[[]|e] t].
Qed.

Lemma compute_triangular_form_dangling (self : loc) (h : heap) :
  h !! self = None → compute_triangular_form self h = (Err ReferenceError, h).
Proof.
  intros Hs. unfold compute_triangular_form, deepcopy. by rewrite se_bind_eq, Hs.
Qed.

Lemma compute_rref_eq (self : loc) (h : heap) (s : obj) :
  h !! self = Some s →
  compute_rref self h =
    (fst (rref_of s) ≫= λ _, Ok (fresh (dom h)),
     <[fresh (dom h) := snd (rref_of s)]> h).
Proof.
  intros Hs. unfold compute_rref.
  rewrite se_bind_eq, (compute_triangular_form_eq _ _ s Hs).
  unfold rref_of. rewrite (se_bind_eq triangular_form_of).
  destruct (triangular_form_of s) as [[[]|e] t]; simpl; [|done].
  rewrite se_bind_eq, (call_eq _ _ _ t) by apply lookup_insert_eq.
  rewrite insert_insert_eq. by destruct (rref_rows t) as [[[]|e] t'].
Qed.

Lemma compute_rref_dangling (self : loc) (h : heap) :
  h !! self = None → compute_rref self h = (Err ReferenceError, h).
Proof.
  intros Hs. unfold compute_rref.
  by rewrite se_bind_eq, compute_triangular_form_dangling.
Qed.

End heap.

Section heap_solution.
Import LinearSystem.

Lemma do_gaussian_elimination_and_parametrization_eq (self : loc) (h : heap) (s : obj) :
  h !! self = Some s →
  do_gaussian_elimination_and_parametrization self h =
    (fst (parametrization_of s), <[fresh (dom h) := snd (parametrization_of s)]> h).
Proof.
  intros Hs. unfold do_gaussian_elimination_and_parametrization, parametrization_of.
  rewrite se_bind_eq, (compute_rref_eq _ _ s Hs), (se_bind_eq rref_of).
  destruct (rref_of s) as [[[]|e] t]; simpl; [|done].
  rewrite se_bind_eq, (call_eq _ _ _ t) by apply lookup_insert_eq.
  rewrite insert_insert_eq, (se_bind_eq raise_excepion_if_contradictory_equation).
  destruct (raise_excepion_if_contradictory_equation t) as [[[]|e] t1]; simpl; [|done].
  rewrite se_bind_eq, (call_eq _ _ _ t1) by apply lookup_insert_eq.
  rewrite insert_insert_eq, (se_bind_eq extract_direction_vectors_for_parametrization).
  destruct (extract_direction_vectors_for_parametrization t1) as [[dvs|e] t2]; simpl; [|done].
  rewrite se_bind_eq, (call_eq _ _ _ t2) by apply lookup_insert_eq.
  rewrite insert_insert_eq, (se_bind_eq extract_basepoint_for_parametrization).
  by destruct (extract_basepoint_for_parametrization t2) as [[bp|e] t3].
Qed.

Lemma do_gaussian_elimination_and_parametrization_dangling (self : loc) (h : heap) :
  h !! self = None →
  do_gaussian_elimination_and_parametrization self h = (Err ReferenceError, h).
Proof.
  intros Hs. unfold do_gaussian_elimination_and_parametrization.
  by rewrite se_bind_eq, compute_rref_dangling.
Qed.

Lemma compute_solution_eq (self : loc) (h : heap) (s : obj) :
  h !! self = Some s →
  compute_solution self h =
    (solution_of (fst (parametrization_of s)),
     <[fresh (dom h) := snd (parametrization_of s)]> h).
Proof.
  intros Hs. unfold compute_solution.
  rewrite (do_gaussian_elimination_and_parametrization_eq _ _ s Hs). simpl.
  destruct (parametrization_of s) as [[p|e] t]; simpl; [done|].
  by destruct (_ || _).
Qed.

Lemma compute_solution_dangling (self : loc) (h : heap) :
  h !! self = None → compute_solution self h = (Err ReferenceError, h).
Proof.
  intros Hs. unfold compute_solution.
  by rewrite do_gaussian_elimination_and_parametrization_dangling.
Qed.

End heap_solution.

(** * The exceptions of the elimination *)

Lemma builtin_error_str (e : exn) :
  builtin_error e →
  str e ≠ LinearSystem.NO_SOLUTIONS_MSG ∧ str e ≠ LinearSystem.INF_SOLUTIONS_MSG ∧
  str e ≠ Plane.NO_NONZERO_ELTS_FOUND_MSG.
Proof.
  destruct e as [m|m|m| |m|]; simpl; try done.
  - intros [-> | ->]; done.
  - intros ->; done.
Qed.

Lemma getitem_err {A} (l : list A) (i : Z) (e : exn) :
  getitem l i = Err e → builtin_error e.
Proof.
  unfold getitem. destruct (_ ≫= _); [done|]. intros [= <-]. simpl. by left.
Qed.

Lemma setitem_err {A} (l : list A) (i : Z) (x : A) (e : exn) :
  setitem l i x = Err e → builtin_error e.
Proof.
  unfold setitem. destruct (index _ _); [done|]. intros [= <-]. simpl. by right.
Qed.

Lemma dec_div_err (a b : Decimal) (e : exn) : dec_div a b = Err e → builtin_error e.
Proof. unfold dec_div. case_bool_decide; [|done]. by intros [= <-]. Qed.

Lemma vector_add_err (v w : Vector.t) (e : exn) :
  Vector.add v w = Err e → builtin_error e.
Proof.
  unfold Vector.add, Vector.same_dimension. case_bool_decide; [done|].
  by intros [= <-].
Qed.

Lemma res_bind_err {A B} (m : res A) (f : A → res B) (e : exn) :
  m ≫= f = Err e → m = Err e ∨ ∃ a, m = Ok a ∧ f a = Err e.
Proof. destruct m as [a|e']; [eauto | intros [= <-]; by left]. Qed.

(** ** first_nonzero_index *)

Lemma first_nonzero_from_err (k : Z) (v : Vector.t) (e : exn) :
  Plane.first_nonzero_from k v = Err e →
  e = Exception Plane.NO_NONZERO_ELTS_FOUND_MSG ∧ Vector.is_zero v = true.
Proof.
  revert k. induction v as [|x v IH]; intros k; simpl.
  - by intros [= <-].
  - destruct (is_near_zero x); simpl; [apply IH | done].
Qed.

Lemma first_nonzero_from_ok (k i : Z) (v : Vector.t) :
  Plane.first_nonzero_from k v = Ok i →
  ∃ j x, i = k + Z.of_nat j ∧ v !! j = Some x ∧ is_near_zero x = false ∧
         Forall (λ y, is_near_zero y = true) (take j v).
Proof.
  revert k. induction v as [|x v IH]; intros k; simpl; [done|].
  destruct (is_near_zero x) eqn:Hx; simpl.
  - intros H. apply IH in H as (j & y & -> & Hj & Hy & Hall).
    exists (S j), y. repeat split; [lia | done | done |].
    simpl. by constructor.
  - intros [= <-]. exists 0%nat, x. repeat split; [lia | done | constructor].
Qed.

Lemma first_nonzero_index_ok_not_zero (i : Z) (v : Vector.t) :
  Plane.first_nonzero_index v = Ok i → Vector.is_zero v = false.
Proof.
  intros H. apply first_nonzero_from_ok in H as (j & x & _ & Hj & Hx & _).
  unfold Vector.is_zero. apply not_true_iff_false. intros Hall.
  rewrite forallb_forall in Hall. specialize (Hall x).
  rewrite Hall in Hx; [done|]. apply list_elem_of_In, list_elem_of_lookup. eauto.
Qed.

Lemma first_nonzero_index_zero (v : Vector.t) :
  Vector.is_zero v = true →
  Plane.first_nonzero_index v = Err (Exception Plane.NO_NONZERO_ELTS_FOUND_MSG).
Proof.
  intros Hz. destruct (Plane.first_nonzero_index v) as [i|e] eqn:H.
  - apply first_nonzero_index_ok_not_zero in H. congruence.
  - apply first_nonzero_from_err in H as [-> _]. done.
Qed.

Lemma first_nonzero_or_minus_one_total (p : Plane.obj) :
  ∃ k, LinearSystem.first_nonzero_or_minus_one p = Ok k.
Proof.
  unfold LinearSystem.first_nonzero_or_minus_one.
  destruct (Plane.first_nonzero_index _) as [i|e] eqn:H; [eauto|].
  apply first_nonzero_from_err in H as [-> _]. simpl. eauto.
Qed.

Lemma mapM_first_nonzero_total (ps : list Plane.obj) :
  ∃ ks, mapM LinearSystem.first_nonzero_or_minus_one ps = Ok ks ∧
        length ks = length ps.
Proof.
  induction ps as [|p ps (ks & IH & Hlen)]; [by exists []|].
  destruct (first_nonzero_or_minus_one_total p) as [k Hk].
  exists (k :: ks). simpl. rewrite Hk. simpl. rewrite IH. simpl. split; [done|].
  by rewrite Hlen.
Qed.

(** ** The constructor of planes *)

Lemma set_basepoint_err (d : Z) (n : Vector.t) (c : Decimal) (e : exn) :
  Plane.set_basepoint d n c = Err e → builtin_error e.
Proof.
  unfold Plane.set_basepoint.
  destruct (Plane.basepoint_of d n c) as [b|e'] eqn:Hb; [done|].
  case_bool_decide as Hstr; [done|]. intros [= <-].
  unfold Plane.basepoint_of in Hb.
  apply res_bind_err in Hb as [Hb | (i & Hi & Hb)].
  { apply first_nonzero_from_err in Hb as [-> _]. done. }
  apply res_bind_err in Hb as [Hb | (x & Hx & Hb)]; [by eapply getitem_err|].
  apply res_bind_err in Hb as [Hb | (q & Hq & Hb)]; [by eapply dec_div_err|].
  by eapply setitem_err.
Qed.

(** The normal vector a plane is given: the argument, or three zeros when
    the argument is empty. *)
Lemma plane_init_ok (nv : Vector.t) (c : Decimal) (p : Plane.obj) :
  Plane.__init__ (Some nv) (Some c) = Ok p →
  Plane.dimension p = 3 ∧
  Plane.normal_vector p = (if Vector.truthy nv then nv else Vector.zeros 3) ∧
  Plane.constant_term p = c ∧
  Plane.set_basepoint 3 (Plane.normal_vector p) c = Ok (Plane.basepoint p).
Proof.
  unfold Plane.__init__. simpl. intros H.
  apply res_bind_ok in H as (b & Hb & [= <-]). simpl. done.
Qed.

Lemma plane_init_err (nv : option Vector.t) (c : option Decimal) (e : exn) :
  Plane.__init__ nv c = Err e → builtin_error e.
Proof.
  unfold Plane.__init__. intros H.
  apply res_bind_err in H as [H | (b & _ & H)]; [|done].
  by eapply set_basepoint_err.
Qed.

(** ** The row operations *)

Section row_operations.
Import LinearSystem.

Lemma assign_row_ok (i : Z) (x : Plane.obj) (s s' : obj) :
  assign_row i x s = (Ok tt, s') ↔
  ∃ k, index (length (planes s)) i = Some k ∧
       s' = Build (<[k := x]> (planes s)) (dimension s).
Proof.
  unfold assign_row, setitem. destruct (index _ i) as [k|]; split.
  - intros [= <-]. eauto.
  - by intros (k' & [= <-] & ->).
  - done.
  - by intros (k' & [=] & _).
Qed.

Lemma assign_row_err (i : Z) (x : Plane.obj) (s s' : obj) (e : exn) :
  assign_row i x s = (Err e, s') → builtin_error e ∧ s' = s.
Proof.
  unfold assign_row. destruct (setitem _ i x) as [l|e'] eqn:H; [done|].
  intros [= <- <-]. split; [by eapply setitem_err | done].
Qed.

Lemma row_ok (i : Z) (s s' : obj) (p : Plane.obj) :
  __getitem__ i s = (Ok p, s') ↔
  s' = s ∧ ∃ k, index (length (planes s)) i = Some k ∧ planes s !! k = Some p.
Proof.
  unfold __getitem__. split.
  - intros [= H <-]. split; [done|]. by apply getitem_ok.
  - intros [-> H]. apply getitem_ok in H. by rewrite H.
Qed.

Lemma row_err (i : Z) (s s' : obj) (e : exn) :
  __getitem__ i s = (Err e, s') → builtin_error e ∧ s' = s.
Proof. unfold __getitem__. intros [= H <-]. split; [by eapply getitem_err | done]. Qed.

Lemma entry_ok (r col : Z) (s s' : obj) (x : Decimal) :
  entry r col s = (Ok x, s') ↔
  s' = s ∧ ∃ k p, index (length (planes s)) r = Some k ∧ planes s !! k = Some p ∧
                  getitem (Plane.normal_vector p) col = Ok x.
Proof.
  unfold entry. split.
  - intros H. apply se_bind_ok in H as (p & s1 & Hp & H).
    apply row_ok in Hp as [-> (k & Hk & Hp)]. apply lift_ok in H as [H ->].
    split; [done|]. eauto.
  - intros [-> (k & p & Hk & Hp & Hx)]. rewrite se_bind_eq.
    assert (Hr : __getitem__ r s = (Ok p, s)) by (apply row_ok; eauto).
    rewrite Hr. unfold lift. by rewrite Hx.
Qed.

Lemma entry_err (r col : Z) (s s' : obj) (e : exn) :
  entry r col s = (Err e, s') → builtin_error e ∧ s' = s.
Proof.
  unfold entry. intros H. apply se_bind_err in H as [H | (p & s1 & Hp & H)].
  - by eapply row_err.
  - apply row_ok in Hp as [-> _]. unfold lift in H. injection H as H <-.
    split; [by eapply getitem_err | done].
Qed.

Lemma add_multiple_times_row_to_row_ok (c : Decimal) (i j : Z) (s s' : obj) :
  add_multiple_times_row_to_row c i j s = (Ok tt, s') →
  ∃ ki kj p1 p2 p',
    index (length (planes s)) i = Some ki ∧ index (length (planes s)) j = Some kj ∧
    planes s !! ki = Some p1 ∧ planes s !! kj = Some p2 ∧
    length (Plane.normal_vector p1) = length (Plane.normal_vector p2) ∧
    Plane.__init__
      (Some (zip_with Qcplus
               (Vector.scalar_multiply (Plane.normal_vector p1) c)
               (Plane.normal_vector p2)))
      (Some (Plane.constant_term p1 * c + Plane.constant_term p2)%Qc) = Ok p' ∧
    s' = Build (<[kj := p']> (planes s)) (dimension s).
Proof.
  unfold add_multiple_times_row_to_row. intros H.
  apply se_bind_ok in H as (p1 & s1 & H1 & H). apply row_ok in H1 as [-> (ki & Hki & Hp1)].
  apply se_bind_ok in H as (p2 & s1 & H2 & H). apply row_ok in H2 as [-> (kj & Hkj & Hp2)].
  apply se_bind_ok in H as (nv & s1 & Hnv & H). apply lift_ok in Hnv as [Hnv ->].
  apply se_bind_ok in H as (p' & s1 & Hp' & H). apply lift_ok in Hp' as [Hp' ->].
  apply assign_row_ok in H as (k & Hk & ->).
  unfold Vector.add, Vector.same_dimension in Hnv.
  case_bool_decide as Hlen; [|done]. injection Hnv as <-.
  unfold Vector.scalar_multiply in Hlen. rewrite length_map in Hlen.
  exists ki, kj, p1, p2, p'. repeat split; try done. congruence.
Qed.

Lemma add_multiple_times_row_to_row_err (c : Decimal) (i j : Z) (s s' : obj) (e : exn) :
  add_multiple_times_row_to_row c i j s = (Err e, s') → builtin_error e ∧ s' = s.
Proof.
  unfold add_multiple_times_row_to_row. intros H.
  apply se_bind_err in H as [H | (p1 & s1 & H1 & H)]; [by eapply row_err|].
  apply row_ok in H1 as [-> _].
  apply se_bind_err in H as [H | (p2 & s1 & H2 & H)]; [by eapply row_err|].
  apply row_ok in H2 as [-> _].
  apply se_bind_err in H as [H | (nv & s1 & Hnv & H)].
  { unfold lift in H. injection H as H <-. split; [by eapply vector_add_err | done]. }
  apply lift_ok in Hnv as [_ ->].
  apply se_bind_err in H as [H | (p' & s1 & Hp' & H)].
  { unfold lift in H. injection H as H <-. split; [by eapply plane_init_err | done]. }
  apply lift_ok in Hp' as [_ ->]. by eapply assign_row_err.
Qed.

Lemma multiply_coefficient_and_row_ok (c : Decimal) (i : Z) (s s' : obj) :
  multiply_coefficient_and_row c i s = (Ok tt, s') →
  ∃ k p p',
    index (length (planes s)) i = Some k ∧ planes s !! k = Some p ∧
    Plane.__init__ (Some (Vector.scalar_multiply (Plane.normal_vector p) c))
               (Some (Plane.constant_term p * c)%Qc) = Ok p' ∧
    s' = Build (<[k := p']> (planes s)) (dimension s).
Proof.
  unfold multiply_coefficient_and_row. intros H.
  apply se_bind_ok in H as (p & s1 & H1 & H). apply row_ok in H1 as [-> (k & Hk & Hp)].
  apply se_bind_ok in H as (p' & s1 & Hp' & H). apply lift_ok in Hp' as [Hp' ->].
  apply assign_row_ok in H as (k' & Hk' & ->).
  exists k, p, p'. repeat split; try done. congruence.
Qed.

Lemma multiply_coefficient_and_row_err (c : Decimal) (i : Z) (s s' : obj) (e : exn) :
  multiply_coefficient_and_row c i s = (Err e, s') → builtin_error e ∧ s' = s.
Proof.
  unfold multiply_coefficient_and_row. intros H.
  apply se_bind_err in H as [H | (p & s1 & H1 & H)]; [by eapply row_err|].
  apply row_ok in H1 as [-> _].
  apply se_bind_err in H as [H | (p' & s1 & Hp' & H)].
  { unfold lift in H. injection H as H <-. split; [by eapply plane_init_err | done]. }
  apply lift_ok in Hp' as [_ ->]. by eapply assign_row_err.
Qed.

Lemma swap_rows_ok (i j : Z) (s s' : obj) :
  swap_rows i j s = (Ok tt, s') →
  ∃ ki kj a b,
    index (length (planes s)) i = Some ki ∧ index (length (planes s)) j = Some kj ∧
    planes s !! ki = Some a ∧ planes s !! kj = Some b ∧
    s' = Build (<[ki := b]> (<[kj := a]> (planes s))) (dimension s).
Proof.
  unfold swap_rows. intros H.
  apply se_bind_ok in H as (a & s1 & H1 & H). apply row_ok in H1 as [-> (ki & Hki & Ha)].
  apply se_bind_ok in H as (b & s1 & H2 & H). apply row_ok in H2 as [-> (kj & Hkj & Hb)].
  apply se_bind_ok in H as ([] & s1 & H1 & H).
  apply assign_row_ok in H1 as (k1 & Hk1 & ->).
  apply assign_row_ok in H as (k2 & Hk2 & ->). simpl in *.
  rewrite length_insert in Hk2.
  exists ki, kj, a, b. repeat split; try done. congruence.
Qed.

Lemma swap_rows_err (i j : Z) (s s' : obj) (e : exn) :
  swap_rows i j s = (Err e, s') → builtin_error e ∧ s' = s.
Proof.
  unfold swap_rows. intros H.
  apply se_bind_err in H as [H | (a & s1 & H1 & H)]; [by eapply row_err|].
  apply row_ok in H1 as [-> (ki & Hki & _)].
  apply se_bind_err in H as [H | (b & s1 & H2 & H)]; [by eapply row_err|].
  apply row_ok in H2 as [-> (kj & Hkj & _)].
  apply se_bind_err in H as [H | ([] & s1 & H1 & H)]; [by eapply assign_row_err|].
  apply assign_row_ok in H1 as (k1 & Hk1 & ->).
  exfalso. unfold assign_row, setitem in H. simpl in H.
  rewrite length_insert, Hki in H. done.
Qed.

End row_operations.

Lemma for_each_err {S A} (P : exn → Prop) (xs : list A) (body : A → SE S unit)
    (s s' : S) (e : exn) :
  (∀ x s1 s2 e, body x s1 = (Err e, s2) → P e) →
  for_each xs body s = (Err e, s') → P e.
Proof.
  intros Hbody. revert s. induction xs as [|x xs IH]; intros s; simpl; [done|].
  intros H. apply se_bind_err in H as [H | ([] & s1 & _ & H)]; eauto.
Qed.

Section elimination_errors.
Import LinearSystem.

Lemma swap_with_first_nonzero_err (r col : Z) (ks : list Z) (s s' : obj) (e : exn) :
  swap_with_first_nonzero r col ks s = (Err e, s') → builtin_error e.
Proof.
  revert s. induction ks as [|k ks IH]; intros s; simpl; [done|].
  intros H. apply se_bind_err in H as [H | (x & s1 & _ & H)]; [by eapply entry_err|].
  destruct (negb (is_near_zero x)); [|by eapply IH].
  apply se_bind_err in H as [H | ([] & s2 & _ & H)]; [by eapply swap_rows_err | done].
Qed.

Lemma swap_with_row_below_err (r col : Z) (s s' : obj) (e : exn) :
  swap_with_row_below_for_nonzero_coefficient r col s = (Err e, s') → builtin_error e.
Proof.
  unfold swap_with_row_below_for_nonzero_coefficient. intros H.
  apply se_bind_err in H as [H | (n & s1 & _ & H)]; [done|].
  by eapply swap_with_first_nonzero_err.
Qed.

Lemma clear_coeffs_below_err (r col : Z) (s s' : obj) (e : exn) :
  clear_coeffs_below r col s = (Err e, s') → builtin_error e.
Proof.
  unfold clear_coeffs_below. intros H.
  apply se_bind_err in H as [H | (n & s1 & _ & H)]; [done|].
  apply se_bind_err in H as [H | (beta & s2 & _ & H)]; [by eapply entry_err|].
  revert H. apply for_each_err. clear. intros k s1 s2 e H.
  apply se_bind_err in H as [H | (gamma & s3 & _ & H)]; [by eapply entry_err|].
  apply se_bind_err in H as [H | (alpha & s4 & _ & H)].
  { unfold lift in H. injection H as H _. by eapply dec_div_err. }
  by eapply add_multiple_times_row_to_row_err.
Qed.

Lemma clear_coefficients_above_err (r col : Z) (s s' : obj) (e : exn) :
  clear_coefficients_above r col s = (Err e, s') → builtin_error e.
Proof.
  unfold clear_coefficients_above. apply for_each_err. intros k s1 s2 e' H.
  apply se_bind_err in H as [H | (n & s3 & _ & H)]; [by eapply entry_err|].
  by eapply add_multiple_times_row_to_row_err.
Qed.

Lemma scale_row_err (r col : Z) (s s' : obj) (e : exn) :
  scale_row_to_make_coefficient_equal_one r col s = (Err e, s') → builtin_error e.
Proof.
  unfold scale_row_to_make_coefficient_equal_one. intros H.
  apply se_bind_err in H as [H | (n & s1 & _ & H)]; [by eapply entry_err|].
  apply se_bind_err in H as [H | (beta & s2 & _ & H)].
  { unfold lift in H. injection H as H _. by eapply dec_div_err. }
  by eapply multiply_coefficient_and_row_err.
Qed.

Lemma find_pivot_and_clear_err (todo : nat) (r col : Z) (s s' : obj) (e : exn) :
  find_pivot_and_clear todo r col s = (Err e, s') → builtin_error e.
Proof.
  revert col s. induction todo as [|todo IH]; intros col s; simpl; [done|].
  intros H. apply se_bind_err in H as [H | (c & s1 & _ & H)]; [by eapply entry_err|].
  assert (Hclear : ∀ s1, (clear_coeffs_below r col ≫= λ _, mret (col + 1)) s1
                          = (Err e, s') → builtin_error e).
  { intros s2 H2. apply se_bind_err in H2 as [H2 | ([] & s3 & _ & H2)];
      [by eapply clear_coeffs_below_err | done]. }
  destruct (is_near_zero c); [|by eapply Hclear].
  apply se_bind_err in H as [H | (swapped & s2 & _ & H)];
    [by eapply swap_with_row_below_err|].
  destruct (negb swapped); [by eapply IH | by eapply Hclear].
Qed.

Lemma triangular_rows_err (n : Z) (rows : list Z) (col : Z) (s s' : obj) (e : exn) :
  triangular_rows n rows col s = (Err e, s') → builtin_error e.
Proof.
  revert col s. induction rows as [|r rows IH]; intros col s; simpl; [done|].
  intros H. apply se_bind_err in H as [H | (col' & s1 & _ & H)];
    [by eapply find_pivot_and_clear_err | by eapply IH].
Qed.

Lemma indices_ok (s : obj) :
  ∃ ks, indices_of_first_nonzero_terms_in_each_row s = (Ok ks, s) ∧
        mapM first_nonzero_or_minus_one (planes s) = Ok ks ∧
        length ks = length (planes s).
Proof.
  destruct (mapM_first_nonzero_total (planes s)) as (ks & Hks & Hlen).
  exists ks. unfold indices_of_first_nonzero_terms_in_each_row. by rewrite Hks.
Qed.

Lemma rref_rows_err (s s' : obj) (e : exn) :
  rref_rows s = (Err e, s') → builtin_error e.
Proof.
  unfold rref_rows. intros H.
  apply se_bind_err in H as [H | (n & s1 & Hn & H)]; [done|].
  injection Hn as <- <-.
  destruct (indices_ok s) as (ks & Hks & _).
  apply se_bind_err in H as [H | (ks' & s1 & Hks' & H)]; [congruence|].
  revert H. apply for_each_err. clear. intros r s1 s2 e H.
  apply se_bind_err in H as [H | (pv & s3 & _ & H)].
  { unfold lift in H. injection H as H _. by eapply getitem_err. }
  case_bool_decide; [done|].
  apply se_bind_err in H as [H | ([] & s4 & _ & H)];
    [by eapply scale_row_err | by eapply clear_coefficients_above_err].
Qed.

Lemma rref_of_err (s s' : obj) (e : exn) :
  rref_of s = (Err e, s') → builtin_error e.
Proof.
  unfold rref_of. intros H.
  apply se_bind_err in H as [H | ([] & s1 & _ & H)].
  - by eapply triangular_rows_err.
  - by eapply rref_rows_err.
Qed.

End elimination_errors.

(** ** Constructed planes and their basepoint *)

Lemma near_zero_0 : is_near_zero 0%Qc = true.
Proof. reflexivity. Qed.

Lemma not_near_zero_ne_0 (x : Decimal) : is_near_zero x = false → x ≠ 0%Qc.
Proof. intros H ->. by rewrite near_zero_0 in H. Qed.

Lemma dec_div_ok (a b : Decimal) : b ≠ 0%Qc → dec_div a b = Ok (a / b)%Qc.
Proof. intros H. unfold dec_div. by rewrite bool_decide_false. Qed.

Lemma set_basepoint_zero (d : Z) (n : Vector.t) (c : Decimal) :
  Vector.is_zero n = true → Plane.set_basepoint d n c = Ok None.
Proof.
  intros Hz. unfold Plane.set_basepoint, Plane.basepoint_of.
  by rewrite (first_nonzero_index_zero n Hz).
Qed.

Lemma set_basepoint_nonzero (d : Z) (n : Vector.t) (c : Decimal) (b : option Vector.t) :
  Plane.set_basepoint d n c = Ok b → Vector.is_zero n = false →
  ∃ i x, Plane.first_nonzero_index n = Ok (Z.of_nat i) ∧ n !! i = Some x ∧
         is_near_zero x = false ∧ (i < Z.to_nat d)%nat ∧
         b = Some (<[i := (c / x)%Qc]> (Vector.zeros d)).
Proof.
  intros Hb Hz. unfold Plane.set_basepoint, Plane.basepoint_of in Hb.
  destruct (Plane.first_nonzero_index n) as [i|e] eqn:Hi.
  2:{ apply first_nonzero_from_err in Hi as [_ Hi]. congruence. }
  pose proof Hi as Hi'.
  apply first_nonzero_from_ok in Hi' as (j & x & -> & Hj & Hx & _).
  rewrite Z.add_0_l in *. simpl in Hb.
  rewrite (getitem_of_nat n j x Hj) in Hb. simpl in Hb.
  rewrite (dec_div_ok c x (not_near_zero_ne_0 x Hx)) in Hb. simpl in Hb.
  destruct (setitem (Vector.zeros d) (Z.of_nat j) (c / x)%Qc) as [l|e] eqn:Hset.
  2:{ apply setitem_err, builtin_error_str in Hset as (_ & _ & Hne).
      by rewrite bool_decide_false in Hb. }
  injection Hb as <-. apply setitem_ok in Hset as (k & Hk & ->).
  pose proof (index_lt _ _ _ Hk) as Hlt.
  unfold Vector.zeros in Hk, Hlt. rewrite length_replicate in Hk, Hlt.
  rewrite index_of_nat in Hk.
  2:{ unfold index in Hk. case_bool_decide as H1; [lia|].
      case_bool_decide as H2; [lia | done]. }
  injection Hk as <-. exists j, x. done.
Qed.

Lemma constructed_inv (p : Plane.obj) :
  constructed p →
  Plane.dimension p = 3 ∧ Plane.normal_vector p ≠ [] ∧
  Plane.set_basepoint 3 (Plane.normal_vector p) (Plane.constant_term p)
    = Ok (Plane.basepoint p).
Proof.
  intros (nv & c & H). unfold Plane.__init__ in H.
  apply res_bind_ok in H as (b & Hb & [= <-]). simpl.
  split; [done|]. split; [|done].
  destruct nv as [v|]; [|done]. unfold Vector.truthy.
  case_bool_decide as Hv; simpl; [done|]. by destruct v.
Qed.

(** * Loops of the elimination *)

Lemma index_nonneg_inv (n : nat) (i : Z) (k : nat) :
  0 ≤ i → index n i = Some k → k = Z.to_nat i ∧ (k < n)%nat.
Proof.
  intros Hi. unfold index. case_bool_decide as H1.
  - intros [= <-]. lia.
  - case_bool_decide as H2; [lia | done].
Qed.

Lemma getitem_nonneg {A} (l : list A) (i : Z) (x : A) :
  0 ≤ i → getitem l i = Ok x → l !! Z.to_nat i = Some x.
Proof.
  intros Hi H. apply getitem_ok in H as (k & Hk & Hx).
  by apply index_nonneg_inv in Hk as [-> _].
Qed.

Lemma for_each_ext {S A} (xs : list A) (f g : A → SE S unit) (s : S) :
  (∀ x s, f x s = g x s) → for_each xs f s = for_each xs g s.
Proof.
  intros Hfg. revert s. induction xs as [|x xs IH]; intros s; simpl; [done|].
  rewrite !se_bind_eq, Hfg. by destruct (g x s) as [[[]|e] s1].
Qed.

Section add_multiples.
Import LinearSystem.

(** A loop that adds to each row of [ks] a multiple of the row [r], the
    multiple being computed from the entry of the row in column [col]. *)
Lemma add_multiples_loop (coef : Decimal → res Decimal) (r col : Z) (ks : list Z)
    (s s' : obj) :
  NoDup ks → (∀ k, k ∈ ks → 0 ≤ k ∧ k ≠ r) → 0 ≤ r → 0 ≤ col →
  for_each ks (λ k,
    entry k col ≫= λ g, lift (coef g) ≫= λ alpha,
    add_multiple_times_row_to_row alpha r k) s = (Ok tt, s') →
  length (planes s') = length (planes s) ∧ dimension s' = dimension s ∧
  (∀ k : nat, Z.of_nat k ∉ ks → planes s' !! k = planes s !! k) ∧
  (∀ k : nat, Z.of_nat k ∈ ks →
     ∃ g alpha, entry_at s k (Z.to_nat col) = Some g ∧ coef g = Ok alpha ∧
                combined s s' (Z.to_nat r) k alpha).
Proof.
  intros Hnd Hks Hr Hcol.
  apply (for_each_invariant (λ done s1,
    length (planes s1) = length (planes s) ∧ dimension s1 = dimension s ∧
    (∀ k : nat, Z.of_nat k ∉ done → planes s1 !! k = planes s !! k) ∧
    (∀ k : nat, Z.of_nat k ∈ done →
       ∃ g alpha, entry_at s k (Z.to_nat col) = Some g ∧ coef g = Ok alpha ∧
                  combined s s1 (Z.to_nat r) k alpha))).
  { split; [done|]. split; [done|]. split; [done|]. intros k Hk. by apply elem_of_nil in Hk. }
  intros done x s1 s2 [rest Hsplit] (Hlen & Hdim & Hsame & Hcomb) Hbody.
  assert (Hx : x ∈ ks) by (rewrite Hsplit, elem_of_app, elem_of_cons; auto).
  destruct (Hks x Hx) as [Hx0 Hxr].
  assert (Hxd : x ∉ done).
  { rewrite Hsplit in Hnd. apply NoDup_app in Hnd as (_ & Hnd & _).
    intros Hin. apply (Hnd x Hin). by left. }
  assert (Hrd : r ∉ done).
  { intros Hin. destruct (Hks r) as [_ Hne]; [|done].
    rewrite Hsplit, elem_of_app. by left. }
  apply se_bind_ok in Hbody as (g & s1' & Hg & Hbody).
  apply entry_ok in Hg as (-> & k & pk & Hk & Hpk & Hgk).
  apply index_nonneg_inv in Hk as [-> Hklt]; [|done].
  apply getitem_nonneg in Hgk; [|done].
  apply se_bind_ok in Hbody as (alpha & s1' & Halpha & Hbody).
  apply lift_ok in Halpha as [Halpha ->].
  apply add_multiple_times_row_to_row_ok in Hbody
    as (ki & kj & p1 & p2 & p' & Hki & Hkj & Hp1 & Hp2 & Hl & Hp' & ->).
  apply index_nonneg_inv in Hki as [-> _]; [|done].
  apply index_nonneg_inv in Hkj as [-> _]; [|done].
  assert (p2 = pk) as -> by congruence.
  rewrite Hsame in Hp1 by (by rewrite Z2Nat.id).
  rewrite Hsame in Hpk by (by rewrite Z2Nat.id).
  simpl. split; [by rewrite length_insert|]. split; [done|]. split.
  - intros k Hk. rewrite not_elem_of_app, not_elem_of_cons in Hk.
    destruct Hk as [Hk1 [Hk2 _]].
    rewrite list_lookup_insert_ne by lia. by apply Hsame.
  - intros k Hk. apply elem_of_app in Hk as [Hk | Hk].
    + destruct (Hcomb k Hk) as (g' & alpha' & Hg' & Ha' & pr & pk0 & pk' & H1 & H2 & H3 & H4 & H5).
      exists g', alpha'. split; [done|]. split; [done|].
      exists pr, pk0, pk'. simpl. rewrite list_lookup_insert_ne; [done|].
      intros Heq. apply Hxd. rewrite <- Heq in Hk. by rewrite Z2Nat.id in Hk.
    + apply list_elem_of_singleton in Hk. subst x. rewrite Nat2Z.id in *.
      exists g, alpha. split; [unfold entry_at; by rewrite Hpk|]. split; [done|].
      exists p1, pk, p'. simpl. rewrite list_lookup_insert_eq by lia. done.
Qed.

End add_multiples.

Section entries.
Import LinearSystem.

Lemma plane_init_nv (nv : Vector.t) (c : Decimal) (p : Plane.obj) :
  nv ≠ [] → Plane.__init__ (Some nv) (Some c) = Ok p → Plane.normal_vector p = nv.
Proof.
  intros Hne H. apply plane_init_ok in H as (_ & H & _).
  rewrite H. by destruct nv.
Qed.

Lemma entry_at_insert_ne (s : obj) (l : list Plane.obj) (d : Z) (k k' c : nat) (p : Plane.obj) :
  k ≠ k' → entry_at (Build (<[k := p]> (planes s)) d) k' c = entry_at s k' c.
Proof. intros H. unfold entry_at. simpl. by rewrite list_lookup_insert_ne. Qed.

Lemma combined_entry (s s' : obj) (r k c0 : nat) (alpha : Decimal) :
  combined s s' r k alpha → is_Some (entry_at s k c0) →
  ∀ c, entry_at s' k c =
       entry_at s r c ≫= λ a, entry_at s k c ≫= λ b, Some (a * alpha + b)%Qc.
Proof.
  intros (pr & pk & pk' & Hr & Hk & Hk' & Hlen & Hinit) [x Hx] c.
  unfold entry_at in *. rewrite Hk in Hx. simpl in Hx.
  rewrite Hr, Hk, Hk'. simpl.
  apply plane_init_nv in Hinit.
  2:{ unfold Vector.scalar_multiply. destruct (Plane.normal_vector pr),
        (Plane.normal_vector pk); done. }
  rewrite Hinit, lookup_zip_with. unfold Vector.scalar_multiply.
  rewrite list_lookup_fmap. by destruct (Plane.normal_vector pr !! c).
Qed.

Lemma scale_row_spec (r col : Z) (s s' : obj) :
  0 ≤ r → 0 ≤ col →
  scale_row_to_make_coefficient_equal_one r col s = (Ok tt, s') →
  ∃ v, entry_at s (Z.to_nat r) (Z.to_nat col) = Some v ∧ v ≠ 0%Qc ∧
       length (planes s') = length (planes s) ∧ dimension s' = dimension s ∧
       (∀ k, k ≠ Z.to_nat r → planes s' !! k = planes s !! k) ∧
       (∀ c, entry_at s' (Z.to_nat r) c
             = (λ a, a * (1 / v))%Qc <$> entry_at s (Z.to_nat r) c).
Proof.
  intros Hr Hcol H. unfold scale_row_to_make_coefficient_equal_one in H.
  apply se_bind_ok in H as (v & s1 & Hv & H).
  apply entry_ok in Hv as (-> & k & p & Hk & Hp & Hv).
  apply index_nonneg_inv in Hk as [-> Hlt]; [|done].
  apply getitem_nonneg in Hv; [|done].
  apply se_bind_ok in H as (beta & s1 & Hbeta & H). apply lift_ok in Hbeta as [Hbeta ->].
  unfold dec_div in Hbeta. case_bool_decide as Hv0; [done|]. injection Hbeta as <-.
  apply multiply_coefficient_and_row_ok in H as (k & p0 & p' & Hk & Hp0 & Hp' & ->).
  apply index_nonneg_inv in Hk as [-> _]; [|done].
  assert (p0 = p) as -> by congruence.
  apply plane_init_nv in Hp'.
  2:{ unfold Vector.scalar_multiply. by destruct (Plane.normal_vector p). }
  exists v. split; [unfold entry_at; by rewrite Hp|]. split; [done|]. simpl.
  split; [by rewrite length_insert|]. split; [done|]. split.
  - intros k Hk. by rewrite list_lookup_insert_ne.
  - intros c. unfold entry_at. simpl. rewrite list_lookup_insert_eq by done.
    rewrite Hp. simpl. rewrite Hp'. unfold Vector.scalar_multiply.
    by rewrite list_lookup_fmap.
Qed.

Lemma range_reverse_facts (r k : Z) : k ∈ reverse (range 0 r) ↔ 0 ≤ k < r.
Proof. unfold range. rewrite elem_of_reverse, elem_of_seqZ. lia. Qed.

Lemma clear_coefficients_above_spec (r col : Z) (s s' : obj) :
  0 ≤ r → 0 ≤ col →
  clear_coefficients_above r col s = (Ok tt, s') →
  length (planes s') = length (planes s) ∧ dimension s' = dimension s ∧
  (∀ k, (Z.to_nat r ≤ k)%nat → planes s' !! k = planes s !! k) ∧
  (∀ k, (k < Z.to_nat r)%nat →
     ∃ g, entry_at s k (Z.to_nat col) = Some g ∧
          ∀ c, entry_at s' k c =
               entry_at s (Z.to_nat r) c ≫= λ a,
               entry_at s k c ≫= λ b, Some (a * - g + b)%Qc).
Proof.
  intros Hr Hcol H. unfold clear_coefficients_above in H.
  rewrite (for_each_ext _ _ (λ k,
    entry k col ≫= λ g, lift (Ok (- g)%Qc) ≫= λ alpha,
    add_multiple_times_row_to_row alpha r k)) in H.
  2:{ intros k s1. rewrite !se_bind_eq. by destruct (entry k col s1) as [[g|e] s2]. }
  apply (add_multiples_loop (λ g, Ok (- g)%Qc)) in H as (Hlen & Hdim & Hsame & Hcomb);
    try done.
  2:{ rewrite reverse_Permutation. apply NoDup_seqZ. }
  2:{ intros k Hk. apply range_reverse_facts in Hk. lia. }
  split; [done|]. split; [done|]. split.
  - intros k Hk. apply Hsame. rewrite range_reverse_facts. lia.
  - intros k Hk. destruct (Hcomb k) as (g & alpha & Hg & [= <-] & Hc).
    { rewrite range_reverse_facts. lia. }
    exists g. split; [done|]. by eapply combined_entry.
Qed.

End entries.

(** * The receiver of the pipeline is not mutated (C9) *)

(** C9: [compute_triangular_form], [compute_rref] and [compute_solution]
    leave the receiver as it was: in the heap they return, the object the
    caller passed holds the rows and the dimension it held before the call,
    whatever the outcome, because every mutation goes to the deep copy. *)
Theorem C9_receiver_unchanged (self : LinearSystem.loc) (h : LinearSystem.heap) :
  snd (LinearSystem.compute_triangular_form self h) !! self = h !! self ∧
  snd (LinearSystem.compute_rref self h) !! self = h !! self ∧
  snd (LinearSystem.compute_solution self h) !! self = h !! self.
Proof.
  destruct (h !! self) as [s|] eqn:Hs.
  - assert (Hne : fresh (dom h) ≠ self).
    { intros Heq. pose proof (fresh_loc_unused h). congruence. }
    rewrite (compute_triangular_form_eq _ _ s Hs), (compute_rref_eq _ _ s Hs),
      (compute_solution_eq _ _ s Hs). simpl.
    by rewrite !lookup_insert_ne.
  - by rewrite compute_triangular_form_dangling, compute_rref_dangling,
      compute_solution_dangling.
Qed.

(** The same holds of every object of the heap, and the copy is new. *)
Lemma pipeline_frame (self o : LinearSystem.loc) (h : LinearSystem.heap) :
  is_Some (h !! o) →
  snd (LinearSystem.compute_rref self h) !! o = h !! o ∧
  fst (LinearSystem.compute_rref self h) ≠ Ok o.
Proof.
  intros Ho. assert (Hne : fresh (dom h) ≠ o).
  { intros Heq. pose proof (fresh_loc_unused h) as Hf. rewrite Heq in Hf.
    rewrite Hf in Ho. by destruct Ho. }
  destruct (h !! self) as [s|] eqn:Hs.
  - rewrite (compute_rref_eq _ _ s Hs). simpl. rewrite lookup_insert_ne by done.
    split; [done|]. destruct (rref_of s).1; simpl; congruence.
  - by rewrite compute_rref_dangling.
Qed.

(** * The unique solution of three planes (C1) *)

(** C1: on the system of the planes with normal vectors (1,1,1), (0,1,0),
    (0,0,1) and constant terms 1, 2, 3, [compute_solution] returns a
    parametrization with no direction vector and basepoint (-4, 2, 3). *)
Theorem C1_unique_solution (self : LinearSystem.loc) (h : LinearSystem.heap)
    (s : LinearSystem.obj) :
  system_of [([1; 1; 1], 1); ([0; 1; 0], 2); ([0; 0; 1], 3)] = Ok s →
  h !! self = Some s →
  ∃ P, fst (LinearSystem.compute_solution self h) = Ok (LinearSystem.Param P) ∧
       Parametrization.direction_vectors P = [] ∧
       Parametrization.basepoint P = [dec (-4); dec 2; dec 3].
Proof.
  intros Hsys Hs. rewrite (compute_solution_eq _ _ s Hs). simpl.
  vm_compute in Hsys. injection Hsys as <-.
  eexists. split; [vm_compute; reflexivity|]. split; [reflexivity|].
  apply (bool_decide_unpack _). by vm_compute.
Qed.

Lemma C1_unique_solution_witness :
  ∃ P, fst (LinearSystem.compute_solution 0%nat {[0%nat := three_planes]})
         = Ok (LinearSystem.Param P) ∧
       Parametrization.direction_vectors P = [] ∧
       Parametrization.basepoint P = [dec (-4); dec 2; dec 3].
Proof.
  apply (C1_unique_solution 0%nat {[0%nat := three_planes]} three_planes).
  - vm_compute. reflexivity.
  - vm_compute. reflexivity.
Defined.

(** * Construction of a hyperplane (C7) *)

Lemma hyperplane_init_eq (dimension : option Z) (normal_vector : option Vector.t)
    (constant_term : option Decimal) :
  Hyperplane.__init__ dimension normal_vector constant_term =
    if negb (Hyperplane.given_dimension dimension)
       && negb (Hyperplane.given_vector normal_vector)
    then Err (Exception Hyperplane.EITHER_DIM_OR_NORMAL_VEC_MUST_BE_PROVIDED_MSG)
    else Err (AttributeError "'Hyperplane' object has no attribute 'normal_vector'").
Proof.
  unfold Hyperplane.__init__.
  destruct (negb (Hyperplane.given_dimension dimension)
            && negb (Hyperplane.given_vector normal_vector)); [done|].
  by destruct (negb (Hyperplane.given_vector normal_vector)).
Qed.

(** C7, as the code has it: the constructor of [Hyperplane] raises the
    configuration error when neither a dimension nor a normal vector is
    given, and in every other case it raises [AttributeError], because
    [set_basepoint] reads [self.normal_vector], which [__init__] never
    assigns: no hyperplane is ever constructed and no basepoint computed. *)
Theorem C7_hyperplane_never_constructed (dimension : option Z)
    (normal_vector : option Vector.t) (constant_term : option Decimal) :
  Hyperplane.__init__ dimension normal_vector constant_term =
    if negb (Hyperplane.given_dimension dimension)
       && negb (Hyperplane.given_vector normal_vector)
    then Err (Exception Hyperplane.EITHER_DIM_OR_NORMAL_VEC_MUST_BE_PROVIDED_MSG)
    else Err (AttributeError "'Hyperplane' object has no attribute 'normal_vector'").
Proof. apply hyperplane_init_eq. Qed.

(** The sibling constructor stores the normal vector and computes the
    basepoint the claim describes. *)
Example plane_init_computes_basepoint :
  Plane.__init__ (Some [dec 1; dec 2; dec 3]) (Some (dec 1)) =
    Ok (Plane.Build 3 [dec 1; dec 2; dec 3] (dec 1) (Some [dec 1; dec 0; dec 0])) ∧
  Hyperplane.__init__ None (Some [dec 1; dec 2; dec 3]) (Some (dec 1)) =
    Err (AttributeError "'Hyperplane' object has no attribute 'normal_vector'").
Proof. split; vm_compute; reflexivity. Qed.

(** * Two planes in four unknowns (C2) *)

(** C2, as the code has it: the rows of normal vectors (1,1,1,1) and
    (1,1,2,2) cannot be hyperplanes, whose constructor raises; as planes
    they have dimension 3, and [compute_solution] returns a parametrization
    of dimension 3, with basepoint (0,0,1) and the single direction vector
    (-1,1,0).  Its points have three coordinates and satisfy neither
    equation in four unknowns. *)
Theorem C2_four_unknowns_as_planes (self : LinearSystem.loc) (h : LinearSystem.heap)
    (s : LinearSystem.obj) :
  system_of [([1; 1; 1; 1], 1); ([1; 1; 2; 2], 2)] = Ok s →
  h !! self = Some s →
  Hyperplane.__init__ (Some 4) (Some (map dec [1; 1; 1; 1])) (Some (dec 1)) =
    Err (AttributeError "'Hyperplane' object has no attribute 'normal_vector'") ∧
  LinearSystem.dimension s = 3 ∧
  ∃ P, fst (LinearSystem.compute_solution self h) = Ok (LinearSystem.Param P) ∧
       Parametrization.dimension P = 3 ∧
       Parametrization.basepoint P = [dec 0; dec 0; dec 1] ∧
       Parametrization.direction_vectors P = [[dec (-1); dec 1; dec 0]] ∧
       ∀ t : Decimal, ∃ x,
         point_of P [t] = Ok x ∧ length x = 3%nat ∧
         Forall (λ p, satisfies_within_epsilon x p = false) (LinearSystem.planes s).
Proof.
  intros Hsys Hs. split; [apply hyperplane_init_eq|].
  rewrite (compute_solution_eq _ _ s Hs). simpl.
  vm_compute in Hsys. injection Hsys as <-. split; [reflexivity|].
  eexists. split; [vm_compute; reflexivity|].
  split; [reflexivity|]. split; [apply (bool_decide_unpack _); by vm_compute|].
  split; [apply (bool_decide_unpack _); by vm_compute|].
  intros t. eexists. split; [reflexivity|]. split; [reflexivity|].
  repeat constructor.
Qed.

Lemma C2_four_unknowns_as_planes_witness :
  LinearSystem.dimension two_planes_four_unknowns = 3 ∧
  ∃ P, fst (LinearSystem.compute_solution 0%nat {[0%nat := two_planes_four_unknowns]})
         = Ok (LinearSystem.Param P) ∧
       Parametrization.direction_vectors P = [[dec (-1); dec 1; dec 0]].
Proof.
  destruct (C2_four_unknowns_as_planes 0%nat {[0%nat := two_planes_four_unknowns]}
              two_planes_four_unknowns) as (_ & Hd & P & HP & _ & _ & Hv & _).
  - vm_compute. reflexivity.
  - vm_compute. reflexivity.
  - split; [exact Hd|]. exists P. split; [exact HP | exact Hv].
Defined.

(** * The "No solutions" outcome (C6) *)

Section no_solutions.
Import LinearSystem.

Lemma check_contradictory_ok (ps : list Plane.obj) :
  check_contradictory ps = Ok tt ↔ ¬ Exists contradictory ps.
Proof.
  induction ps as [|p ps IH]; simpl.
  - split; [intros _ H; inversion H | done].
  - rewrite Exists_cons. unfold contradictory at 1.
    destruct (Plane.first_nonzero_index (Plane.normal_vector p)) as [i|e] eqn:Hi.
    + apply first_nonzero_index_ok_not_zero in Hi. rewrite IH, Hi. intuition congruence.
    + apply first_nonzero_from_err in Hi as [-> Hz]. simpl. rewrite Hz.
      destruct (is_near_zero (Plane.constant_term p)); simpl.
      * rewrite IH. intuition congruence.
      * intuition congruence.
Qed.

Lemma check_contradictory_err (ps : list Plane.obj) (e : exn) :
  check_contradictory ps = Err e →
  e = Exception NO_SOLUTIONS_MSG ∧ Exists contradictory ps.
Proof.
  induction ps as [|p ps IH]; simpl; [done|].
  destruct (Plane.first_nonzero_index (Plane.normal_vector p)) as [i|e'] eqn:Hi.
  { intros H. apply IH in H as [-> H]. split; [done | by right]. }
  apply first_nonzero_from_err in Hi as [-> Hz]. simpl.
  destruct (is_near_zero (Plane.constant_term p)) eqn:Hc; simpl.
  - intros H. apply IH in H as [-> H]. split; [done | by right].
  - intros [= <-]. split; [done|]. by left.
Qed.

Lemma mapM_err {A B} (P : exn → Prop) (f : A → res B) (xs : list A) (e : exn) :
  (∀ x e, f x = Err e → P e) → mapM f xs = Err e → P e.
Proof.
  intros Hf. induction xs as [|x xs IH]; simpl; [done|].
  intros H. apply res_bind_err in H as [H | (y & _ & H)]; [by eapply Hf|].
  apply res_bind_err in H as [H | (ys & _ & H)]; [by apply IH | done].
Qed.

Lemma direction_coords_err (free_var : Z) (rows : list (Z * Plane.obj))
    (coords : list Decimal) (e : exn) :
  direction_coords free_var rows coords = Err e → builtin_error e.
Proof.
  revert coords. induction rows as [|[pv p] rows IH]; intros coords; simpl; [done|].
  case_bool_decide as Hpv; [done|]. intros H.
  apply res_bind_err in H as [H | (x & _ & H)]; [by eapply getitem_err|].
  apply res_bind_err in H as [H | (c & _ & H)]; [by eapply setitem_err | by eapply IH].
Qed.

Lemma basepoint_coords_from_err (rows : list (Z * Plane.obj))
    (coords : list Decimal) (e : exn) :
  basepoint_coords_from rows coords = Err e → builtin_error e.
Proof.
  revert coords. induction rows as [|[pv p] rows IH]; intros coords; simpl; [done|].
  case_bool_decide as Hpv; [done|]. intros H.
  apply res_bind_err in H as [H | (c & _ & H)]; [by eapply setitem_err | by eapply IH].
Qed.

Lemma extract_direction_vectors_err (s s' : obj) (e : exn) :
  extract_direction_vectors_for_parametrization s = (Err e, s') → builtin_error e.
Proof.
  unfold extract_direction_vectors_for_parametrization. intros H.
  apply se_bind_err in H as [H | (n & s1 & Hn & H)]; [done|]. injection Hn as <- <-.
  destruct (indices_ok s) as (ks & Hks & _).
  apply se_bind_err in H as [H | (ks' & s1 & Hks' & H)]; [congruence|].
  apply se_bind_err in H as [H | (self & s2 & _ & H)]; [done|].
  unfold lift in H. injection H as H _. revert H. apply mapM_err.
  intros fv e' H. apply res_bind_err in H as [H | (c & _ & H)];
    [by eapply setitem_err | by eapply direction_coords_err].
Qed.

Lemma extract_basepoint_err (s s' : obj) (e : exn) :
  extract_basepoint_for_parametrization s = (Err e, s') → builtin_error e.
Proof.
  unfold extract_basepoint_for_parametrization. intros H.
  apply se_bind_err in H as [H | (n & s1 & Hn & H)]; [done|]. injection Hn as <- <-.
  destruct (indices_ok s) as (ks & Hks & _).
  apply se_bind_err in H as [H | (ks' & s1 & Hks' & H)]; [congruence|].
  apply se_bind_err in H as [H | (self & s2 & _ & H)]; [done|].
  unfold lift in H. injection H as H _. by eapply basepoint_coords_from_err.
Qed.

Lemma parametrization_of_eq (s : obj) :
  parametrization_of s =
  match rref_of s with
  | (Ok _, R) =>
      match check_contradictory (planes R) with
      | Ok _ =>
          match extract_direction_vectors_for_parametrization R with
          | (Ok dvs, R1) =>
              match extract_basepoint_for_parametrization R1 with
              | (Ok bp, R2) => (Parametrization.__init__ bp dvs, R2)
              | (Err e, R2) => (Err e, R2)
              end
          | (Err e, R1) => (Err e, R1)
          end
      | Err e => (Err e, R)
      end
  | (Err e, R) => (Err e, R)
  end.
Proof.
  unfold parametrization_of. rewrite (se_bind_eq rref_of).
  destruct (rref_of s) as [[[]|e] R]; [|done].
  rewrite se_bind_eq. unfold raise_excepion_if_contradictory_equation.
  destruct (check_contradictory (planes R)) as [[]|e]; [|done].
  rewrite se_bind_eq.
  destruct (extract_direction_vectors_for_parametrization R) as [[dvs|e] R1]; [|done].
  rewrite se_bind_eq.
  by destruct (extract_basepoint_for_parametrization R1) as [[bp|e] R2].
Qed.

(** What the pipeline makes of the reduced system [R]. *)
Lemma parametrization_of_cases (s : obj) :
  (∃ e R, rref_of s = (Err e, R) ∧ builtin_error e ∧
          parametrization_of s = (Err e, R)) ∨
  (∃ R, rref_of s = (Ok tt, R) ∧ Exists contradictory (planes R) ∧
        parametrization_of s = (Err (Exception NO_SOLUTIONS_MSG), R)) ∨
  (∃ R, rref_of s = (Ok tt, R) ∧ ¬ Exists contradictory (planes R) ∧
        ((∃ P, fst (parametrization_of s) = Ok P) ∨
         (∃ e, fst (parametrization_of s) = Err e ∧ str e ≠ NO_SOLUTIONS_MSG))).
Proof.
  rewrite parametrization_of_eq.
  destruct (rref_of s) as [[[]|e] R] eqn:HR.
  2:{ left. exists e, R. split; [done|]. split; [by eapply rref_of_err | done]. }
  right. destruct (check_contradictory (planes R)) as [[]|e] eqn:Hc.
  2:{ left. exists R. apply check_contradictory_err in Hc as [-> Hc].
      split; [done|]. split; done. }
  right. apply check_contradictory_ok in Hc. exists R.
  split; [done|]. split; [done|].
  destruct (extract_direction_vectors_for_parametrization R) as [[dvs|e] R1] eqn:Hd.
  2:{ right. exists e. split; [done|]. by eapply builtin_error_str,
        extract_direction_vectors_err. }
  destruct (extract_basepoint_for_parametrization R1) as [[bp|e] R2] eqn:Hb.
  2:{ right. exists e. split; [done|]. by eapply builtin_error_str,
        extract_basepoint_err. }
  simpl. unfold Parametrization.__init__.
  destruct (forallb _ dvs); [left; eauto | right; eexists; split; done].
Qed.

End no_solutions.

(** C6: [compute_solution] returns the message "No solutions" exactly when
    [compute_rref] returns a system with a row whose normal vector is zero
    within epsilon and whose constant term is not; it never lets an
    exception with that message reach the caller; and the system of the rows
    0x+0y+0z=0 and 0x+0y+0z=5 gets that message. *)
Theorem C6_no_solutions_message :
  (∀ (self : LinearSystem.loc) (h : LinearSystem.heap) (s : LinearSystem.obj),
     h !! self = Some s →
     (fst (LinearSystem.compute_solution self h)
        = Ok (LinearSystem.Message LinearSystem.NO_SOLUTIONS_MSG) ↔
      ∃ o R, fst (LinearSystem.compute_rref self h) = Ok o ∧
             snd (LinearSystem.compute_rref self h) !! o = Some R ∧
             Exists contradictory (LinearSystem.planes R)) ∧
     (∀ e, fst (LinearSystem.compute_solution self h) = Err e →
           str e ≠ LinearSystem.NO_SOLUTIONS_MSG)) ∧
  (∀ (self : LinearSystem.loc) (h : LinearSystem.heap) (s : LinearSystem.obj),
     system_of [([0; 0; 0], 0); ([0; 0; 0], 5)] = Ok s →
     h !! self = Some s →
     fst (LinearSystem.compute_solution self h)
       = Ok (LinearSystem.Message LinearSystem.NO_SOLUTIONS_MSG)).
Proof.
  split.
  - intros self h s Hs.
    rewrite (compute_solution_eq _ _ s Hs), (compute_rref_eq _ _ s Hs). simpl.
    destruct (parametrization_of_cases s)
      as [(e & R & HR & He & Hp) | [(R & HR & Hc & Hp) | (R & HR & Hc & Hp)]].
    + rewrite Hp, HR. simpl.
      destruct (builtin_error_str e He) as (Hno & Hinf & _).
      rewrite !bool_decide_false by done. simpl. split.
      * split; [done | by intros (o & R' & [=] & _)].
      * by intros e' [= <-].
    + rewrite Hp, HR. simpl. split.
      * split; [intros _ | done]. exists (fresh (dom h)), R.
        by rewrite lookup_insert_eq.
      * done.
    + rewrite HR. simpl. split.
      * split.
        -- destruct Hp as [[P HP] | (e & He & Hne)]; rewrite ?HP, ?He; simpl; [done|].
           rewrite (bool_decide_false _ Hne). simpl. case_bool_decide; [|done].
           intros [= Heq]. done.
        -- intros (o & R' & [= <-] & HR' & Hex).
           rewrite lookup_insert_eq in HR'. by injection HR' as <-.
      * intros e'. destruct Hp as [[P HP] | (e & He & Hne)]; rewrite ?HP, ?He; simpl;
          [done|]. rewrite (bool_decide_false _ Hne). simpl.
        case_bool_decide; [done|]. by intros [= <-].
  - intros self h s Hsys Hs. rewrite (compute_solution_eq _ _ s Hs). simpl.
    vm_compute in Hsys. injection Hsys as <-. vm_compute. reflexivity.
Qed.

Lemma C6_no_solutions_message_witness :
  fst (LinearSystem.compute_solution 0%nat {[0%nat := zero_rows_0_and_5]})
    = Ok (LinearSystem.Message LinearSystem.NO_SOLUTIONS_MSG) ∧
  ∃ o R, fst (LinearSystem.compute_rref 0%nat {[0%nat := zero_rows_0_and_5]}) = Ok o ∧
         snd (LinearSystem.compute_rref 0%nat {[0%nat := zero_rows_0_and_5]}) !! o
           = Some R ∧
         Exists contradictory (LinearSystem.planes R).
Proof.
  destruct C6_no_solutions_message as [Hgen Hex].
  assert (Hmsg : fst (LinearSystem.compute_solution 0%nat {[0%nat := zero_rows_0_and_5]})
                 = Ok (LinearSystem.Message LinearSystem.NO_SOLUTIONS_MSG)).
  { apply (Hex 0%nat {[0%nat := zero_rows_0_and_5]} zero_rows_0_and_5).
    - vm_compute. reflexivity.
    - vm_compute. reflexivity. }
  split; [exact Hmsg|].
  apply (Hgen 0%nat {[0%nat := zero_rows_0_and_5]} zero_rows_0_and_5).
  - vm_compute. reflexivity.
  - exact Hmsg.
Defined.

(** * Rows and the dimension of the system (C8) *)

Section dimension_invariant.
Import LinearSystem.

Lemma init_ok (ps : list Plane.obj) (s : obj) :
  __init__ ps = Ok s → planes s = ps ∧ rows_in_dimension s.
Proof.
  unfold __init__. intros H. apply res_bind_ok in H as (p0 & _ & H).
  destruct (forallb _ ps) eqn:Hall; [|done]. injection H as <-.
  split; [done|]. unfold rows_in_dimension. simpl.
  apply Forall_forall. intros p Hp. rewrite forallb_forall in Hall.
  apply list_elem_of_In, Hall in Hp. by apply bool_decide_eq_true in Hp.
Qed.

Lemma init_ok_planes (ps : list Plane.obj) (s : obj) :
  __init__ ps = Ok s → planes s = ps.
Proof. intros H. by apply init_ok in H as [H _]. Qed.

Lemma init_rejects (ps : list Plane.obj) (p0 p : Plane.obj) :
  ps !! 0%nat = Some p0 → p ∈ ps → Plane.dimension p ≠ Plane.dimension p0 →
  __init__ ps = Err (Exception ALL_PLANES_MUST_BE_IN_SAME_DIM_MSG).
Proof.
  intros H0 Hp Hne. unfold __init__.
  assert (getitem ps 0 = Ok p0) as -> by apply (getitem_of_nat ps 0 p0 H0). simpl.
  destruct (forallb _ ps) eqn:Hall; [|done]. exfalso.
  rewrite forallb_forall in Hall. apply list_elem_of_In, Hall in Hp.
  by apply bool_decide_eq_true in Hp.
Qed.

Lemma setitem_rejects (i : Z) (x : Plane.obj) (s : obj) :
  Plane.dimension x ≠ dimension s →
  __setitem__ i x s = (Err (Exception ALL_PLANES_MUST_BE_IN_SAME_DIM_MSG), s).
Proof. intros H. unfold __setitem__. by rewrite bool_decide_false. Qed.

Lemma setitem_keeps (i : Z) (x : Plane.obj) (s s' : obj) :
  rows_in_dimension s → __setitem__ i x s = (Ok tt, s') → rows_in_dimension s'.
Proof.
  unfold __setitem__. intros Hinv. case_bool_decide as Hd; [|done]. intros H.
  apply assign_row_ok in H as (k & Hk & ->). unfold rows_in_dimension. simpl.
  by apply Forall_insert.
Qed.

Lemma swap_rows_keeps (i j : Z) (s s' : obj) :
  rows_in_dimension s → swap_rows i j s = (Ok tt, s') → rows_in_dimension s'.
Proof.
  intros Hinv H. apply swap_rows_ok in H as (ki & kj & a & b & _ & _ & Ha & Hb & ->).
  unfold rows_in_dimension in *. simpl.
  pose proof (Forall_lookup_1 _ _ _ _ Hinv Ha). pose proof (Forall_lookup_1 _ _ _ _ Hinv Hb).
  by repeat apply Forall_insert.
Qed.

Lemma multiply_keeps (c : Decimal) (i : Z) (s s' : obj) :
  dimension s = 3 → rows_in_dimension s →
  multiply_coefficient_and_row c i s = (Ok tt, s') → rows_in_dimension s'.
Proof.
  intros Hd Hinv H.
  apply multiply_coefficient_and_row_ok in H as (k & p & p' & _ & _ & Hp' & ->).
  apply plane_init_ok in Hp' as (Hdim & _). unfold rows_in_dimension in *. simpl.
  apply Forall_insert; [done | congruence].
Qed.

Lemma add_multiple_keeps (c : Decimal) (i j : Z) (s s' : obj) :
  dimension s = 3 → rows_in_dimension s →
  add_multiple_times_row_to_row c i j s = (Ok tt, s') → rows_in_dimension s'.
Proof.
  intros Hd Hinv H.
  apply add_multiple_times_row_to_row_ok in H
    as (ki & kj & p1 & p2 & p' & _ & _ & _ & _ & _ & Hp' & ->).
  apply plane_init_ok in Hp' as (Hdim & _). unfold rows_in_dimension in *. simpl.
  apply Forall_insert; [done | congruence].
Qed.

End dimension_invariant.




(** * Row operations and the solution set (C3) *)

Section solution_set.
Import LinearSystem.

Lemma Qc_mul_cancel (c a b : Qc) : c ≠ 0%Qc → (c * a = c * b)%Qc → a = b.
Proof.
  intros Hc H. replace a with (c * a / c)%Qc by (field; done).
  rewrite H. field. done.
Qed.

Lemma Qc_add_cancel (c a b : Qc) : (c + a = c + b)%Qc → a = b.
Proof.
  intros H. replace a with (c + a - c)%Qc by ring. rewrite H. ring.
Qed.

Lemma sum_scale (v x : list Decimal) (c : Decimal) :
  Vector.sum (zip_with Qcmult (map (λ a, a * c)%Qc v) x)
  = (c * Vector.sum (zip_with Qcmult v x))%Qc.
Proof.
  revert x. induction v as [|a v IH]; intros [|b x]; simpl; try ring.
  rewrite IH. ring.
Qed.

Lemma sum_add (v w x : list Decimal) :
  length v = length w →
  Vector.sum (zip_with Qcmult (zip_with Qcplus v w) x)
  = (Vector.sum (zip_with Qcmult v x) + Vector.sum (zip_with Qcmult w x))%Qc.
Proof.
  revert w x. induction v as [|a v IH]; intros [|b w] [|y x] Hlen; simpl in *;
    try done; try ring.
  rewrite IH by lia. ring.
Qed.

Lemma solves_iff (x : Vector.t) (p : Plane.obj) :
  solves x p ↔
  length (Plane.normal_vector p) = length x ∧
  Vector.sum (zip_with Qcmult (Plane.normal_vector p) x) = Plane.constant_term p.
Proof.
  unfold solves, Vector.dot, Vector.same_dimension. case_bool_decide as Hlen.
  - split; [intros [= H]; done | intros [_ ->]; done].
  - split; [done | intros [H _]; done].
Qed.

Lemma truthy_nonempty (v : Vector.t) : v ≠ [] → Vector.truthy v = true.
Proof. by destruct v. Qed.

Lemma constructed_nonempty (p : Plane.obj) :
  constructed p → Plane.normal_vector p ≠ [].
Proof. intros H. by apply constructed_inv in H as (_ & H & _). Qed.

Lemma init_constructed (nv : option Vector.t) (c : option Decimal) (p : Plane.obj) :
  Plane.__init__ nv c = Ok p → constructed p.
Proof. intros H. by exists nv, c. Qed.

(** Replacing a row by an equivalent one. *)
Lemma Forall_insert_iff {A} (P : A → Prop) (l : list A) (k : nat) (y z : A) :
  l !! k = Some y → (Forall P l → (P y ↔ P z)) → (Forall P (<[k := z]> l) → (P y ↔ P z)) →
  Forall P l ↔ Forall P (<[k := z]> l).
Proof.
  intros Hk H1 H2. pose proof (lookup_lt_Some _ _ _ Hk) as Hlt. split; intros H.
  - apply Forall_insert; [done|]. apply H1; [done|]. by eapply Forall_lookup_1.
  - rewrite <- (list_insert_id l k y Hk), <- (list_insert_insert_eq l k y z).
    apply Forall_insert; [done|]. apply H2; [done|].
    eapply Forall_lookup_1; [done|]. by apply list_lookup_insert_eq.
Qed.

Lemma scale_step (c : Decimal) (i : Z) (s s' : obj) (x : Vector.t) :
  c ≠ 0%Qc → Forall constructed (planes s) →
  multiply_coefficient_and_row c i s = (Ok tt, s') →
  Forall constructed (planes s') ∧ length (planes s') = length (planes s) ∧
  (solves_all x s ↔ solves_all x s').
Proof.
  intros Hc Hall H.
  apply multiply_coefficient_and_row_ok in H as (k & p & p' & Hk & Hp & Hp' & ->).
  simpl. split; [|split].
  - apply Forall_insert; [done | by eapply init_constructed].
  - by rewrite length_insert.
  - unfold solves_all. simpl.
    assert (Hne : Plane.normal_vector p ≠ []).
    { eapply constructed_nonempty, Forall_lookup_1; eauto. }
    apply plane_init_ok in Hp' as (_ & Hnv & Hct & _).
    rewrite truthy_nonempty in Hnv by (unfold Vector.scalar_multiply; by destruct (Plane.normal_vector p)).
    assert (Heq : solves x p ↔ solves x p').
    { rewrite !solves_iff, Hnv, Hct. unfold Vector.scalar_multiply.
      rewrite length_map, sum_scale. split; intros [Hl Hs]; (split; [done|]).
      - rewrite Hs. ring.
      - apply (Qc_mul_cancel c); [done|]. rewrite Hs. ring. }
    apply Forall_insert_iff with (y := p); [done | done | done].
Qed.

Lemma add_multiple_step (c : Decimal) (i j : Z) (s s' : obj) (x : Vector.t) :
  index (length (planes s)) i ≠ index (length (planes s)) j →
  Forall constructed (planes s) →
  add_multiple_times_row_to_row c i j s = (Ok tt, s') →
  Forall constructed (planes s') ∧ length (planes s') = length (planes s) ∧
  (solves_all x s ↔ solves_all x s').
Proof.
  intros Hij Hall H.
  apply add_multiple_times_row_to_row_ok in H
    as (ki & kj & p1 & p2 & p' & Hki & Hkj & Hp1 & Hp2 & Hlen & Hp' & ->).
  assert (Hne : ki ≠ kj) by congruence.
  simpl. split; [|split].
  - apply Forall_insert; [done | by eapply init_constructed].
  - by rewrite length_insert.
  - unfold solves_all. simpl.
    assert (Hne2 : Plane.normal_vector p2 ≠ []).
    { eapply constructed_nonempty, Forall_lookup_1; eauto. }
    apply plane_init_ok in Hp' as (_ & Hnv & Hct & _).
    rewrite truthy_nonempty in Hnv.
    2:{ unfold Vector.scalar_multiply. destruct (Plane.normal_vector p1),
          (Plane.normal_vector p2); done. }
    assert (Heq : solves x p1 → (solves x p2 ↔ solves x p')).
    { rewrite !solves_iff, Hnv, Hct. unfold Vector.scalar_multiply.
      rewrite length_zip_with, length_map, sum_add, sum_scale by (by rewrite length_map).
      intros [Hl1 Hs1]. rewrite Hs1. split; intros [Hl Hs]; (split; [lia|]).
      - rewrite Hs. ring.
      - apply (Qc_add_cancel (c * Plane.constant_term p1)%Qc). rewrite Hs. ring. }
    apply Forall_insert_iff with (y := p2); [done | |].
    + intros HP. apply Heq. by eapply Forall_lookup_1.
    + intros HP. apply Heq. eapply Forall_lookup_1; [done|].
      by rewrite list_lookup_insert_ne.
Qed.

Lemma swap_step (i j : Z) (s s' : obj) (x : Vector.t) :
  Forall constructed (planes s) → swap_rows i j s = (Ok tt, s') →
  Forall constructed (planes s') ∧ length (planes s') = length (planes s) ∧
  (solves_all x s ↔ solves_all x s').
Proof.
  intros Hall H.
  apply swap_rows_ok in H as (ki & kj & a & b & _ & _ & Ha & Hb & ->). simpl.
  assert (Hswap : ∀ P : Plane.obj → Prop,
            Forall P (planes s) ↔ Forall P (<[ki := b]> (<[kj := a]> (planes s)))).
  { intros P. pose proof (lookup_lt_Some _ _ _ Ha). pose proof (lookup_lt_Some _ _ _ Hb).
    split; intros HP.
    - repeat apply Forall_insert; try done; by eapply Forall_lookup_1.
    - apply Forall_lookup. intros k z Hz.
      destruct (decide (k = ki)) as [->|Hki].
      + assert (z = a) as -> by congruence.
        destruct (decide (ki = kj)) as [->|Hne].
        * assert (a = b) as -> by congruence.
          eapply Forall_lookup_1; [done|].
          apply list_lookup_insert_eq. by rewrite length_insert.
        * eapply Forall_lookup_1; [done|]. rewrite list_lookup_insert_ne by done.
          by apply list_lookup_insert_eq.
      + destruct (decide (k = kj)) as [->|Hkj].
        * assert (z = b) as -> by congruence.
          eapply Forall_lookup_1; [done|].
          apply list_lookup_insert_eq. by rewrite length_insert.
        * eapply Forall_lookup_1; [done|]. by rewrite !list_lookup_insert_ne. }
  split; [by apply Hswap|]. split; [by rewrite !length_insert|]. apply Hswap.
Qed.

Lemma apply_operations_solution (ops : list row_operation) (s s' : obj) (x : Vector.t) :
  Forall constructed (planes s) →
  Forall (elementary (length (planes s))) ops →
  apply_operations ops s = (Ok tt, s') →
  Forall constructed (planes s') ∧ (solves_all x s ↔ solves_all x s').
Proof.
  unfold apply_operations. revert s.
  induction ops as [|op ops IH]; intros s Hall Hops H; simpl in H.
  - by injection H as <-.
  - apply se_bind_ok in H as ([] & s1 & Hop & H).
    apply Forall_cons in Hops as [Hop1 Hops].
    assert (Hstep : Forall constructed (planes s1) ∧
                    length (planes s1) = length (planes s) ∧
                    (solves_all x s ↔ solves_all x s1)).
    { destruct op as [r1 r2|c r|c r1 r2]; simpl in Hop, Hop1.
      - by eapply swap_step.
      - by eapply scale_step.
      - by eapply add_multiple_step. }
    destruct Hstep as (Hall1 & Hlen & Heq).
    rewrite <- Hlen in Hops. destruct (IH s1 Hall1 Hops H) as [Hall' Heq'].
    split; [done|]. by rewrite Heq.
Qed.

End solution_set.

Lemma mapM_Forall {A B} (P : B → Prop) (f : A → res B) (xs : list A) (ys : list B) :
  (∀ x y, f x = Ok y → P y) → mapM f xs = Ok ys → Forall P ys.
Proof.
  intros Hf. revert ys. induction xs as [|x xs IH]; intros ys; simpl.
  - by intros [= <-].
  - intros H. apply res_bind_ok in H as (y & Hy & H).
    apply res_bind_ok in H as (ys' & Hys & [= <-]). constructor; eauto.
Qed.

Lemma system_of_constructed (rows : list (list Z * Z)) (s : LinearSystem.obj) :
  system_of rows = Ok s → Forall constructed (LinearSystem.planes s).
Proof.
  unfold system_of. intros H. apply res_bind_ok in H as (ps & Hps & H).
  apply init_ok_planes in H as ->. revert Hps. apply mapM_Forall.
  intros [n c] p Hp. by eapply init_constructed.
Qed.




(** * The coincidence test (C10) *)

Section coincidence.

Lemma hyperplane_eq_plane_eq (p q : Plane.obj) :
  Hyperplane.__eq__ (hyperplane_of p) (hyperplane_of q) = Plane.__eq__ p q.
Proof.
  unfold Hyperplane.__eq__, Plane.__eq__, Hyperplane.is_parallel, Plane.is_parallel. simpl.
  destruct (Vector.is_zero (Plane.normal_vector p)); simpl;
    destruct (Vector.is_zero (Plane.normal_vector q)); simpl; done.
Qed.

Lemma is_parallel_total (v w : Vector.t) :
  length v = length w → ∃ b, Vector.is_parallel v w = Ok b.
Proof.
  intros H. unfold Vector.is_parallel, Vector.same_dimension.
  rewrite bool_decide_true by done. eauto.
Qed.

Lemma constructed_basepoint (p : Plane.obj) :
  constructed p → length (Plane.normal_vector p) = 3%nat →
  Vector.is_zero (Plane.normal_vector p) = false →
  ∃ i x, Plane.normal_vector p !! i = Some x ∧ is_near_zero x = false ∧
         Forall (λ y, is_near_zero y = true) (take i (Plane.normal_vector p)) ∧
         Plane.basepoint p
           = Some (<[i := (Plane.constant_term p / x)%Qc]> [0; 0; 0]%Qc).
Proof.
  intros Hp Hlen Hz. apply constructed_inv in Hp as (_ & _ & Hb).
  apply set_basepoint_nonzero in Hb as (i & x & Hi & Hx & Hnz & Hlt & Hb); [|done].
  apply first_nonzero_from_ok in Hi as (j & y & Hj & Hy & _ & Hall).
  assert (j = i) as -> by lia. exists i, x. done.
Qed.

Lemma plane_eq_protocol (p q : Plane.obj) :
  constructed p → constructed q →
  length (Plane.normal_vector p) = 3%nat → length (Plane.normal_vector q) = 3%nat →
  (Vector.is_zero (Plane.normal_vector p) = true →
     Plane.__eq__ p q =
       Ok (Vector.is_zero (Plane.normal_vector q)
           && is_near_zero (Plane.constant_term p - Plane.constant_term q)%Qc)) ∧
  (Vector.is_zero (Plane.normal_vector p) = false →
   Vector.is_zero (Plane.normal_vector q) = true → Plane.__eq__ p q = Ok false) ∧
  (Vector.is_zero (Plane.normal_vector p) = false →
   Vector.is_zero (Plane.normal_vector q) = false →
   (Plane.is_parallel p q = Ok false ∧ Plane.__eq__ p q = Ok false) ∨
   (Plane.is_parallel p q = Ok true ∧
    ∃ b1 b2 d o, Plane.basepoint p = Some b1 ∧ Plane.basepoint q = Some b2 ∧
                 Vector.substract b1 b2 = Ok d ∧
                 Vector.is_orthogonal d (Plane.normal_vector p) = Ok o ∧
                 Plane.__eq__ p q = Ok o)).
Proof.
  intros Hp Hq Hlp Hlq. unfold Plane.__eq__. split; [|split].
  - intros ->. by destruct (Vector.is_zero (Plane.normal_vector q)).
  - by intros -> ->.
  - intros Hzp Hzq. rewrite Hzp, Hzq.
    destruct (is_parallel_total (Plane.normal_vector p) (Plane.normal_vector q))
      as [par Hpar]; [congruence|].
    unfold Plane.is_parallel. rewrite Hpar. simpl. destruct par; simpl; [right | by left].
    split; [done|].
    destruct (constructed_basepoint p Hp Hlp Hzp) as (i & x & _ & _ & _ & Hb1).
    destruct (constructed_basepoint q Hq Hlq Hzq) as (j & y & _ & _ & _ & Hb2).
    rewrite Hb1, Hb2.
    assert (Hsub : ∃ d, Vector.substract (<[i:=(Plane.constant_term p / x)%Qc]> [0; 0; 0]%Qc)
                          (<[j:=(Plane.constant_term q / y)%Qc]> [0; 0; 0]%Qc) = Ok d
                        ∧ length d = 3%nat).
    { unfold Vector.substract, Vector.same_dimension.
      rewrite bool_decide_true by (by rewrite !length_insert).
      eexists. split; [done|]. by rewrite length_zip_with, !length_insert. }
    destruct Hsub as (d & Hd & Hld). rewrite Hd. simpl.
    assert (Ho : ∃ o, Vector.is_orthogonal d (Plane.normal_vector p) = Ok o).
    { unfold Vector.is_orthogonal, Vector.dot, Vector.same_dimension.
      rewrite bool_decide_true by congruence. simpl. eauto. }
    destruct Ho as [o Ho]. rewrite Ho. eexists _, _, d, o. done.
Qed.

(** The planes of normal vectors (1,2,3) and (2,4,6). *)
Lemma plane_init_first_coordinate (n : Vector.t) (x c : Decimal) (p : Plane.obj) :
  is_near_zero x = false →
  Plane.__init__ (Some (x :: n)) (Some c) = Ok p →
  p = Plane.Build 3 (x :: n) c (Some [c / x; 0; 0]%Qc).
Proof.
  intros Hx. unfold Plane.__init__, Plane.set_basepoint, Plane.basepoint_of,
    Plane.first_nonzero_index. simpl. rewrite Hx. simpl.
  change (getitem (x :: n) 0) with (Ok x). simpl.
  rewrite dec_div_ok by (by apply not_near_zero_ne_0). simpl.
  by intros [= <-].
Qed.

Lemma plane_eq_123_246 (c c' : Decimal) (p q : Plane.obj) :
  Plane.__init__ (Some [dec 1; dec 2; dec 3]) (Some c) = Ok p →
  Plane.__init__ (Some [dec 2; dec 4; dec 6]) (Some c') = Ok q →
  Plane.is_parallel p q = Ok true ∧
  Plane.__eq__ p q = Ok (is_near_zero (c - c' / dec 2)%Qc).
Proof.
  intros Hp Hq.
  apply plane_init_first_coordinate in Hp; [|reflexivity].
  apply plane_init_first_coordinate in Hq; [|reflexivity].
  subst p q. split; [reflexivity|].
  unfold Plane.__eq__. simpl.
  change (Vector.is_zero [dec 1; dec 2; dec 3]) with false.
  change (Vector.is_zero [dec 2; dec 4; dec 6]) with false.
  change (Plane.is_parallel _ _) with (Ok (A:=bool) true). simpl.
  unfold Vector.is_orthogonal, Vector.dot, Vector.same_dimension. simpl.
  do 2 f_equal. change (dec 1) with 1%Qc. field. done.
Qed.

End coincidence.




(** * The reduced row-echelon form (C5) *)

Section rref.
Import LinearSystem.

Lemma reverse_range_split (n x : Z) (done rest : list Z) :
  reverse (range 0 n) = done ++ x :: rest →
  0 ≤ x < n ∧ ∀ y, y ∈ done → x < y < n.
Proof.
  intros Hsplit.
  assert (Hlook : ∀ i y, (done ++ x :: rest) !! i = Some y →
            y = n - 1 - Z.of_nat i ∧ Z.of_nat i < n).
  { intros i y Hy. rewrite <- Hsplit in Hy.
    apply reverse_lookup_Some in Hy as [Hy Hi]. unfold range in *.
    rewrite length_seqZ in *. apply lookup_seqZ in Hy. lia. }
  destruct (Hlook (length done) x) as [Hx Hn].
  { by rewrite list_lookup_middle. }
  split; [lia|]. intros y Hy. apply list_elem_of_lookup in Hy as [j Hj].
  pose proof (lookup_lt_Some _ _ _ Hj) as Hlt.
  destruct (Hlook j y) as [-> ?]; [by apply lookup_app_l_Some | lia].
Qed.

Lemma rref_rows_spec (T R : obj) (pv : list Z) :
  rref_rows T = (Ok tt, R) →
  mapM first_nonzero_or_minus_one (planes T) = Ok pv →
  length (planes R) = length (planes T) ∧ dimension R = dimension T ∧
  (∀ r p : nat, pv !! r = Some (Z.of_nat p) →
     entry_at R r p = Some 1%Qc ∧
     ∀ k, (k < r)%nat → entry_at R k p = Some 0%Qc) ∧
  (∀ k : nat,
     (∀ r : nat, (k ≤ r)%nat → (r < length (planes T))%nat → pv !! r = Some (-1)) →
     planes R !! k = planes T !! k).
Proof.
  intros H Hpv. unfold rref_rows in H.
  apply se_bind_ok in H as (n & s0 & Hn & H). injection Hn as <- <-.
  destruct (indices_ok T) as (pv' & Hpv' & Hpv'' & Hlpv).
  assert (pv' = pv) as -> by congruence.
  apply se_bind_ok in H as (pv0 & s0 & Hpv0 & H).
  assert (pv0 = pv ∧ s0 = T) as [-> ->] by (split; congruence). clear Hpv0.
  apply (for_each_invariant (λ done s1,
    length (planes s1) = length (planes T) ∧ dimension s1 = dimension T ∧
    (∀ r p : nat, Z.of_nat r ∈ done → pv !! r = Some (Z.of_nat p) →
       entry_at s1 r p = Some 1%Qc ∧
       ∀ k, (k < r)%nat → entry_at s1 k p = Some 0%Qc) ∧
    (∀ k : nat,
       (∀ r : nat, Z.of_nat r ∈ done → (k ≤ r)%nat → pv !! r = Some (-1)) →
       planes s1 !! k = planes T !! k))) in H.
  - destruct H as (Hlen & Hdim & HA & HB). split; [done|]. split; [done|]. split.
    + intros r p Hr. apply HA; [|done]. apply range_reverse_facts.
      apply lookup_lt_Some in Hr. unfold len. lia.
    + intros k Hk. apply HB. intros r Hr Hkr. apply range_reverse_facts in Hr.
      apply Hk; [done|]. unfold len in Hr. lia.
  - split; [done|]. split; [done|]. split.
    + intros r p Hr. by apply elem_of_nil in Hr.
    + done.
  - intros done x s1 s2 [rest Hsplit] (Hlen & Hdim & HA & HB) Hbody.
    apply reverse_range_split in Hsplit as [Hx Hdone].
    apply se_bind_ok in Hbody as (pivot_var & s1' & Hpivot & Hbody).
    apply lift_ok in Hpivot as [Hpivot ->].
    apply getitem_nonneg in Hpivot; [|lia].
    set (rn := Z.to_nat x) in *.
    assert (Hin : ∀ r : nat, Z.of_nat r ∈ done ++ [x] ↔ Z.of_nat r ∈ done ∨ r = rn).
    { intros r. rewrite elem_of_app, list_elem_of_singleton. subst rn. split;
        (intros [?|?]; [by left | right; lia]). }
    case_bool_decide as Hneg.
    { injection Hbody as <-. split; [done|]. split; [done|]. split.
      - intros r p Hr Hp. apply Hin in Hr as [Hr | ->]; [by apply HA|].
        rewrite Hpivot in Hp. injection Hp as ->. lia.
      - intros k Hk. apply HB. intros r Hr. apply Hk, Hin. by left. }
    apply se_bind_ok in Hbody as ([] & sa & Hscale & Hclear).
    apply scale_row_spec in Hscale
      as (v & Hv & Hv0 & Hlena & Hdima & Hsamea & Henta); [|lia|lia].
    apply clear_coefficients_above_spec in Hclear
      as (Hlen2 & Hdim2 & Hsame2 & Hent2); [|lia|lia].
    fold rn in Hv, Hsamea, Henta, Hsame2, Hent2.
    set (pn := Z.to_nat pivot_var) in *.
    assert (Hent_ge : ∀ k c, (rn < k)%nat → entry_at s2 k c = entry_at s1 k c).
    { intros k c Hk. unfold entry_at. rewrite Hsame2 by lia. by rewrite Hsamea by lia. }
    assert (Hent_rn : ∀ c, entry_at s2 rn c = (λ a, a * (1 / v))%Qc <$> entry_at s1 rn c).
    { intros c. rewrite <- Henta. unfold entry_at. by rewrite Hsame2. }
    assert (Hent_lt : ∀ k, (k < rn)%nat →
              ∃ g, entry_at s1 k pn = Some g ∧
                   ∀ c, entry_at s2 k c =
                        ((λ a, a * (1 / v))%Qc <$> entry_at s1 rn c) ≫= λ a,
                        entry_at s1 k c ≫= λ b, Some (a * - g + b)%Qc).
    { intros k Hk. destruct (Hent2 k Hk) as (g & Hg & Hc).
      assert (Hk1 : ∀ c, entry_at sa k c = entry_at s1 k c).
      { intros c. unfold entry_at. by rewrite Hsamea by lia. }
      exists g. split; [by rewrite <- Hk1|]. intros c.
      by rewrite Hc, Henta, Hk1. }
    split; [congruence|]. split; [congruence|]. split.
    + intros r p Hr Hp. apply Hin in Hr as [Hr | ->].
      * destruct (HA r p Hr Hp) as [H1 H0].
        assert (Hrn : (rn < r)%nat) by (apply Hdone in Hr; lia).
        split; [by rewrite Hent_ge|]. intros k Hk.
        destruct (lt_eq_lt_dec k rn) as [[Hlt | ->] | Hgt].
        -- destruct (Hent_lt k Hlt) as (g & _ & Hc). rewrite Hc.
           rewrite (H0 rn Hrn), (H0 k Hk). simpl. f_equal; ring.
        -- rewrite Hent_rn, (H0 rn Hrn). simpl. f_equal; ring.
        -- rewrite Hent_ge by done. by apply H0.
      * rewrite Hpivot in Hp. injection Hp as ->.
        assert (Hpn : pn = p) by (subst pn; lia). clearbody pn. subst pn.
        split.
        -- rewrite Hent_rn, Hv. simpl. f_equal; field; done.
        -- intros k Hk. destruct (Hent_lt k Hk) as (g & Hg & Hc).
           rewrite Hc, Hv, Hg. simpl. f_equal; field; done.
    + intros k Hk.
      assert (Hkr : (rn < k)%nat).
      { destruct (le_lt_dec k rn) as [Hle|]; [|done].
        specialize (Hk rn). rewrite Hin in Hk. rewrite Hk in Hpivot by auto.
        injection Hpivot as <-. lia. }
      rewrite Hsame2, Hsamea by lia. apply HB. intros r Hr. apply Hk, Hin. by left.
Qed.

End rref.




(** [compute_rref] can raise: in the triangular form of the planes
    5e-11 x + y = 0, 5e-11 x + 5 y + z = 0 and 5e-11 x + 5 y = 0 the second
    and third rows have their first entry beyond epsilon in column 0; the
    third row clears that entry of the second, whose scaling then divides
    by zero.  [compute_solution] lets the exception through. *)
Example compute_rref_divides_by_zero :
  system_of_rationals
    [([5 # 100000000000; 1; 0], 0); ([5 # 100000000000; 5; 1], 0);
     ([5 # 100000000000; 5; 0], 0)]%Q = Ok three_rows_one_cancelled ∧
  fst (LinearSystem.compute_triangular_form 0%nat {[0%nat := three_rows_one_cancelled]})
    = Ok 1%nat ∧
  fst (LinearSystem.compute_rref 0%nat {[0%nat := three_rows_one_cancelled]})
    = Err DivisionByZero ∧
  fst (LinearSystem.compute_solution 0%nat {[0%nat := three_rows_one_cancelled]})
    = Err DivisionByZero.
Proof. repeat split; vm_compute; reflexivity. Qed.

(** * The triangular form (C4) *)

Section triangular.
Import LinearSystem.

Lemma entry_at_Some_lt (s : obj) (r c : nat) (x : Decimal) :
  entry_at s r c = Some x → (r < length (planes s))%nat.
Proof.
  unfold entry_at. destruct (planes s !! r) as [p|] eqn:Hp; [|done].
  intros _. by eapply lookup_lt_Some.
Qed.

Lemma entry_ok_nonneg (r col : Z) (s s' : obj) (x : Decimal) :
  0 ≤ r → 0 ≤ col → entry r col s = (Ok x, s') →
  s' = s ∧ entry_at s (Z.to_nat r) (Z.to_nat col) = Some x.
Proof.
  intros Hr Hcol H. apply entry_ok in H as (-> & k & p & Hk & Hp & Hx).
  apply index_nonneg_inv in Hk as [-> _]; [|done].
  apply getitem_nonneg in Hx; [|done]. split; [done|].
  unfold entry_at. by rewrite Hp.
Qed.

Lemma swap_rows_spec (r k : Z) (s s' : obj) :
  0 ≤ r → 0 ≤ k → swap_rows r k s = (Ok tt, s') →
  ∃ pr pk, planes s !! Z.to_nat r = Some pr ∧ planes s !! Z.to_nat k = Some pk ∧
           s' = Build (<[Z.to_nat r := pk]> (<[Z.to_nat k := pr]> (planes s)))
                      (dimension s).
Proof.
  intros Hr Hk H. apply swap_rows_ok in H as (ki & kj & a & b & Hki & Hkj & Ha & Hb & ->).
  apply index_nonneg_inv in Hki as [-> _]; [|done].
  apply index_nonneg_inv in Hkj as [-> _]; [|done]. eauto.
Qed.

Lemma swap_with_first_nonzero_spec (r col : Z) (ks : list Z) (s s' : obj) (b : bool) :
  0 ≤ r → 0 ≤ col → (∀ k, k ∈ ks → r < k) →
  swap_with_first_nonzero r col ks s = (Ok b, s') →
  (b = false ∧ s' = s ∧
   ∀ k, k ∈ ks → near_zero_at s (Z.to_nat k) (Z.to_nat col)) ∨
  (b = true ∧
   ∃ k pr pk, k ∈ ks ∧ pivot_at s (Z.to_nat k) (Z.to_nat col) ∧
     planes s !! Z.to_nat r = Some pr ∧ planes s !! Z.to_nat k = Some pk ∧
     s' = Build (<[Z.to_nat r := pk]> (<[Z.to_nat k := pr]> (planes s))) (dimension s)).
Proof.
  intros Hr Hcol. revert s. induction ks as [|k ks IH]; intros s Hks H; simpl in H.
  - injection H as <- <-. left. split; [done|]. split; [done|].
    intros k Hk. by apply elem_of_nil in Hk.
  - assert (Hk : r < k) by (apply Hks; by left).
    apply se_bind_ok in H as (x & s1 & Hx & H).
    apply entry_ok_nonneg in Hx as [-> Hx]; [|lia|done].
    destruct (is_near_zero x) eqn:Hnz; simpl in H.
    + apply IH in H as [(-> & -> & Hall) | (-> & k' & pr & pk & Hk' & Hrest)].
      * left. split; [done|]. split; [done|]. intros k' Hk'.
        apply elem_of_cons in Hk' as [-> | Hk']; [by exists x | by apply Hall].
      * right. split; [done|]. exists k', pr, pk. split; [by right | done].
      * intros k' Hk'. apply Hks. by right.
    + apply se_bind_ok in H as ([] & s1 & Hswap & H). injection H as <- <-.
      apply swap_rows_spec in Hswap as (pr & pk & Hpr & Hpk & ->); [|done|lia].
      right. split; [done|]. exists k, pr, pk. split; [by left|].
      split; [by exists x | done].
Qed.

Lemma swap_with_row_below_spec (r col : Z) (s s' : obj) (b : bool) :
  0 ≤ r → 0 ≤ col →
  swap_with_row_below_for_nonzero_coefficient r col s = (Ok b, s') →
  (b = false ∧ s' = s ∧
   ∀ k, (Z.to_nat r < k < length (planes s))%nat → near_zero_at s k (Z.to_nat col)) ∨
  (b = true ∧
   ∃ k pr pk, (Z.to_nat r < k < length (planes s))%nat ∧ pivot_at s k (Z.to_nat col) ∧
     planes s !! Z.to_nat r = Some pr ∧ planes s !! k = Some pk ∧
     s' = Build (<[Z.to_nat r := pk]> (<[k := pr]> (planes s))) (dimension s)).
Proof.
  intros Hr Hcol H. unfold swap_with_row_below_for_nonzero_coefficient in H.
  apply se_bind_ok in H as (n & s1 & Hn & H). injection Hn as <- <-.
  apply swap_with_first_nonzero_spec in H
    as [(-> & -> & Hall) | (-> & k & pr & pk & Hk & Hpiv & Hpr & Hpk & ->)]; try done.
  - left. split; [done|]. split; [done|]. intros k Hk.
    specialize (Hall (Z.of_nat k)). rewrite Nat2Z.id in Hall. apply Hall.
    unfold range, len. rewrite elem_of_seqZ. lia.
  - right. split; [done|]. unfold range, len in Hk. apply elem_of_seqZ in Hk.
    exists (Z.to_nat k), pr, pk. split; [lia | done].
  - intros k Hk. unfold range in Hk. apply elem_of_seqZ in Hk. lia.
Qed.

Lemma row_step_refl (s : obj) (rn : nat) :
  (rn < length (planes s))%nat → row_step s s rn.
Proof.
  intros Hrn. split; [done|]. split; [done|]. split; [done|]. split; [done|].
  intros c' H. apply H. lia.
Qed.

Lemma row_step_swap (s : obj) (rn kn : nat) (pr pk : Plane.obj) :
  (rn < kn)%nat → planes s !! rn = Some pr → planes s !! kn = Some pk →
  row_step s (Build (<[rn := pk]> (<[kn := pr]> (planes s))) (dimension s)) rn ∧
  (∀ c, near_zero_from s rn c →
        near_zero_from (Build (<[rn := pk]> (<[kn := pr]> (planes s))) (dimension s)) rn c) ∧
  ∀ c, entry_at (Build (<[rn := pk]> (<[kn := pr]> (planes s))) (dimension s)) rn c
       = entry_at s kn c.
Proof.
  intros Hlt Hpr Hpk.
  pose proof (lookup_lt_Some _ _ _ Hpr) as Hrn. pose proof (lookup_lt_Some _ _ _ Hpk) as Hkn.
  assert (Hent : ∀ k c,
    entry_at (Build (<[rn := pk]> (<[kn := pr]> (planes s))) (dimension s)) k c
    = entry_at s (if decide (k = rn) then kn else if decide (k = kn) then rn else k) c).
  { intros k c. unfold entry_at. simpl. destruct (decide (k = rn)) as [->|Hne].
    - rewrite list_lookup_insert_eq by (by rewrite length_insert). by rewrite Hpk.
    - rewrite list_lookup_insert_ne by done. destruct (decide (k = kn)) as [->|Hne2].
      + rewrite list_lookup_insert_eq by done. by rewrite Hpr.
      + by rewrite list_lookup_insert_ne. }
  split; [|split].
  - split; [simpl; by rewrite !length_insert|]. split; [done|]. split; [|split].
    + intros k Hk. simpl. by rewrite !list_lookup_insert_ne by lia.
    + intros z Hz k Hk. simpl in Hk. rewrite !length_insert in Hk. rewrite Hent.
      apply Hz. repeat case_decide; lia.
    + intros c' Hnz. unfold near_zero_at. rewrite Hent.
      rewrite decide_True by done. apply Hnz. lia.
  - intros c Hnz k Hk. simpl in Hk. rewrite !length_insert in Hk.
    unfold near_zero_at. rewrite Hent. apply Hnz. repeat case_decide; lia.
  - intros c. rewrite Hent. by rewrite decide_True.
Qed.

Lemma range_below_facts (r n k : Z) : k ∈ range (r + 1) n ↔ r < k < n.
Proof. unfold range. rewrite elem_of_seqZ. lia. Qed.

Lemma clear_coeffs_below_spec (r col : Z) (s s' : obj) :
  0 ≤ r → 0 ≤ col → clear_coeffs_below r col s = (Ok tt, s') →
  pivot_at s (Z.to_nat r) (Z.to_nat col) →
  row_step s s' (Z.to_nat r) ∧ pivot_at s' (Z.to_nat r) (Z.to_nat col) ∧
  zero_below s' (Z.to_nat r) (Z.to_nat col).
Proof.
  intros Hr Hcol H (x & Hx & Hxnz). unfold clear_coeffs_below in H.
  apply se_bind_ok in H as (n & s1 & Hn & H). injection Hn as <- <-.
  apply se_bind_ok in H as (beta & s1 & Hbeta & H).
  apply entry_ok_nonneg in Hbeta as [-> Hbeta]; [|done|done].
  assert (beta = x) as -> by congruence.
  pose proof (not_near_zero_ne_0 x Hxnz) as Hx0.
  pose proof (entry_at_Some_lt _ _ _ _ Hx) as Hrn.
  apply (add_multiples_loop (λ g, dec_div (- g) x)) in H
    as (Hlen & Hdim & Hsame & Hcomb); try done.
  2:{ apply NoDup_seqZ. }
  2:{ intros k Hk. apply range_below_facts in Hk. lia. }
  set (rn := Z.to_nat r) in *. set (cn := Z.to_nat col) in *.
  assert (Hkeep : ∀ k, (k ≤ rn)%nat → planes s' !! k = planes s !! k).
  { intros k Hk. apply Hsame. rewrite range_below_facts. lia. }
  assert (Hent : ∀ k, (rn < k < length (planes s))%nat →
            ∃ g, entry_at s k cn = Some g ∧
                 ∀ c, entry_at s' k c =
                      entry_at s rn c ≫= λ a, entry_at s k c ≫= λ b,
                      Some (a * (- g / x) + b)%Qc).
  { intros k Hk. destruct (Hcomb k) as (g & alpha & Hg & Halpha & Hc).
    { rewrite range_below_facts. unfold len. lia. }
    rewrite dec_div_ok in Halpha by done. injection Halpha as <-.
    exists g. split; [done|]. by eapply combined_entry. }
  assert (Hrow : ∀ c, entry_at s' rn c = entry_at s rn c).
  { intros c. unfold entry_at. by rewrite Hkeep. }
  split; [|split].
  - split; [done|]. split; [done|]. split; [|split].
    + intros k Hk. apply Hkeep. lia.
    + intros z Hz k Hk. rewrite Hlen in Hk.
      destruct (decide (k = rn)) as [->|Hne]; [rewrite Hrow; apply Hz; lia|].
      destruct (Hent k) as (g & _ & Hc); [lia|].
      rewrite Hc, (Hz rn), (Hz k) by lia. simpl. f_equal; ring.
    + intros c' Hnz. unfold near_zero_at. rewrite Hrow. apply Hnz. lia.
  - exists x. by rewrite Hrow.
  - intros k Hk. rewrite Hlen in Hk. destruct (Hent k) as (g & Hg & Hc); [lia|].
    rewrite Hc, Hx, Hg. simpl. f_equal; field; done.
Qed.

Lemma find_pivot_and_clear_spec (todo rn cn : nat) (s s' : obj) (col' : Z) :
  (rn < length (planes s))%nat →
  find_pivot_and_clear todo (Z.of_nat rn) (Z.of_nat cn) s = (Ok col', s') →
  row_step s s' rn ∧
  ((col' = Z.of_nat (cn + todo) ∧ s' = s ∧
    ∀ c', (cn ≤ c' < cn + todo)%nat → near_zero_from s rn c') ∨
   (∃ c : nat, (cn ≤ c < cn + todo)%nat ∧ col' = Z.of_nat (S c) ∧
      (∀ c', (cn ≤ c' < c)%nat → near_zero_from s rn c') ∧
      pivot_at s' rn c ∧ zero_below s' rn c)).
Proof.
  revert cn. induction todo as [|todo IH]; intros cn Hrn H; simpl in H.
  - injection H as <- <-. split; [by apply row_step_refl|]. left.
    split; [f_equal; lia|]. split; [done|]. intros c' Hc'. lia.
  - apply se_bind_ok in H as (x & s1 & Hx & H).
    apply entry_ok_nonneg in Hx as [-> Hx]; [|lia|lia]. rewrite !Nat2Z.id in Hx.
    assert (Hfound : ∀ s1, row_step s s1 rn → pivot_at s1 rn cn →
              (clear_coeffs_below (Z.of_nat rn) (Z.of_nat cn) ≫= λ _,
               mret (Z.of_nat cn + 1)) s1 = (Ok col', s') →
              (∀ c', near_zero_from s rn c' → near_zero_from s1 rn c') →
              row_step s s' rn ∧
              ∃ c : nat, (cn ≤ c < cn + S todo)%nat ∧ col' = Z.of_nat (S c) ∧
                (∀ c', (cn ≤ c' < c)%nat → near_zero_from s rn c') ∧
                pivot_at s' rn c ∧ zero_below s' rn c).
    { intros s1 (Hl1 & Hd1 & Hk1 & Hz1 & Hn1) Hpiv Hrun Hnzf.
      apply se_bind_ok in Hrun as ([] & s2 & Hclear & Hret). injection Hret as <- <-.
      apply clear_coeffs_below_spec in Hclear
        as ((Hl2 & Hd2 & Hk2 & Hz2 & Hn2) & Hpiv2 & Hzb2); [|lia|lia|by rewrite !Nat2Z.id].
      rewrite !Nat2Z.id in *. split.
      - split; [congruence|]. split; [congruence|]. split; [|split].
        + intros k Hk. rewrite Hk2 by done. by apply Hk1.
        + intros z Hz. by apply Hz2, Hz1.
        + intros c' Hc'. by apply Hn2, Hnzf.
      - exists cn. split; [lia|]. split; [lia|]. split; [intros; lia | done]. }
    destruct (is_near_zero x) eqn:Hnz.
    + apply se_bind_ok in H as (swapped & s1 & Hswap & H).
      apply swap_with_row_below_spec in Hswap
        as [(-> & -> & Hall) | (-> & k & pr & pk & Hk & Hpiv & Hpr & Hpk & ->)];
        [| |lia|lia]; rewrite !Nat2Z.id in *; simpl in H.
      * assert (Hcol0 : near_zero_from s rn cn).
        { intros k Hk. destruct (decide (k = rn)) as [->|Hne]; [by exists x|].
          apply Hall. lia. }
        replace (Z.of_nat cn + 1) with (Z.of_nat (S cn)) in H by lia.
        apply IH in H as [Hstep Hcases]; [|done]. split; [done|].
        destruct Hcases as [(-> & -> & Hskip) | (c & Hc & -> & Hskip & Hrest)].
        -- left. split; [f_equal; lia|]. split; [done|]. intros c' Hc'.
           destruct (decide (c' = cn)) as [->|Hne]; [done|]. apply Hskip. lia.
        -- right. exists c. split; [lia|]. split; [done|]. split; [|done].
           intros c' Hc'.
           destruct (decide (c' = cn)) as [->|Hne]; [done|]. apply Hskip. lia.
      * destruct (row_step_swap s rn k pr pk) as (Hstep & Hnzf & Hent); [lia|done|done|].
        destruct (Hfound _ Hstep) as [Hstep' Hc]; [|done|done|split; [done | by right]].
        destruct Hpiv as (y & Hy & Hynz). exists y. by rewrite Hent.
    + simpl in H.
      destruct (Hfound s) as [Hstep' Hc]; [by apply row_step_refl|by exists x|done|done|].
      split; [done | by right].
Qed.

Lemma next_column_snoc (cs : list nat) (c : nat) : next_column (cs ++ [c]) = S c.
Proof. unfold next_column. by rewrite last_snoc. Qed.

Lemma pivot_row_step (d : Z) (s s' : obj) (before : list nat) (i c rn : nat) :
  (i < rn)%nat → row_step s s' rn → pivot_row d s before i c → pivot_row d s' before i c.
Proof.
  intros Hi (Hlen & Hdim & Hkeep & Hzero & _) (Hd & Hnext & Hpiv & Hzb & Hnz).
  assert (Hent : ∀ c', entry_at s' i c' = entry_at s i c').
  { intros c'. unfold entry_at. by rewrite Hkeep. }
  split; [done|]. split; [done|]. split; [|split].
  - unfold pivot_at. by rewrite Hent.
  - intros k Hk. rewrite Hlen in Hk. destruct (decide (k < rn)%nat) as [Hlt|Hge].
    + unfold entry_at. rewrite Hkeep by done. apply Hzb. lia.
    + apply Hzero; [|lia]. intros k' Hk'. apply Hzb. lia.
  - intros c' Hc'. unfold near_zero_at. rewrite Hent. by apply Hnz.
Qed.

Lemma triangular_rows_spec (d : Z) (m rn : nat) (col : Z) (cs : list nat) (s T : obj) :
  (rn + m = length (planes s))%nat →
  triangular_invariant d s rn col cs →
  triangular_rows d (seqZ (Z.of_nat rn) (Z.of_nat m)) col s = (Ok tt, T) →
  length (planes T) = length (planes s) ∧ dimension T = dimension s ∧
  ∃ col' cs', triangular_invariant d T (rn + m) col' cs'.
Proof.
  revert rn col cs s. induction m as [|m IH]; intros rn col cs s Hlen Hinv H.
  - simpl in H. injection H as <-. split; [done|]. split; [done|].
    exists col, cs. by rewrite Nat.add_0_r.
  - rewrite seqZ_cons in H by lia. simpl in H.
    apply se_bind_ok in H as (col1 & s1 & Hfind & H).
    replace (Z.succ (Z.of_nat rn)) with (Z.of_nat (S rn)) in H by lia.
    replace (Z.pred (Z.of_nat (S m))) with (Z.of_nat m) in H by lia.
    assert (Hnext : length (planes s1) = length (planes s) ∧ dimension s1 = dimension s ∧
                    ∃ cs1, triangular_invariant d s1 (S rn) col1 cs1).
    { destruct Hinv as [Hrows [[Hcs ->] | (Hcs & Hd & Hnone)]].
      - apply find_pivot_and_clear_spec in Hfind as [Hstep Hcases]; [|lia].
        pose proof Hstep as (Hl1 & Hd1 & _ & _ & Hnz1).
        split; [done|]. split; [done|].
        destruct Hcases as [(-> & -> & Hskip) | (c & Hc & -> & Hskip & Hpiv & Hzb)].
        + exists cs. split; [done|]. right. split; [lia|]. split; [lia|].
          intros k c' Hk Hc' Hc'd. apply Hskip; lia.
        + exists (cs ++ [c]). split.
          * intros i ci Hi. destruct (decide (i < length cs)%nat) as [Hlt|Hge].
            -- rewrite lookup_app_l in Hi by done. rewrite take_app_le by lia.
               eapply pivot_row_step; [|done|by apply Hrows]. lia.
            -- assert (i = length cs) as ->.
               { apply lookup_lt_Some in Hi. rewrite length_app in Hi. simpl in Hi. lia. }
               rewrite list_lookup_middle in Hi by done. injection Hi as <-.
               rewrite take_app_length. rewrite Hcs.
               split; [lia|]. split; [lia|]. split; [done|]. split; [done|].
               intros c' Hc'. apply Hnz1, Hskip. lia.
          * left. rewrite length_app, next_column_snoc. simpl. split; [lia | done].
      - replace (Z.to_nat (d - col)) with 0%nat in Hfind by lia. simpl in Hfind.
        injection Hfind as <- <-. split; [done|]. split; [done|].
        exists cs. split; [done|]. right. split; [lia | done]. }
    destruct Hnext as (Hl1 & Hd1 & cs1 & Hinv1).
    apply (IH _ _ cs1) in H as (Hl & Hd & col' & cs' & Hinv'); [|lia|done].
    split; [congruence|]. split; [congruence|].
    exists col', cs'. by replace (rn + S m)%nat with (S rn + m)%nat by lia.
Qed.

Lemma triangular_form_of_staircase (s T : obj) :
  triangular_form_of s = (Ok tt, T) →
  length (planes T) = length (planes s) ∧ dimension T = dimension s ∧
  ∃ cs, staircase (dimension s) T cs.
Proof.
  unfold triangular_form_of, range, len. rewrite Z.sub_0_r. intros H.
  apply (triangular_rows_spec _ _ 0 0 []) in H as (Hlen & Hdim & col' & cs & Hinv);
    [|done|].
  2:{ split; [intros i c Hi; by rewrite lookup_nil in Hi|]. by left. }
  split; [done|]. split; [done|]. exists cs. simpl in Hinv.
  destruct Hinv as [Hrows [[Hcs _] | (Hcs & _ & Hnone)]].
  - split; [lia|]. split; [done|]. intros k c' Hk. lia.
  - split; [lia|]. split; done.
Qed.

End triangular.

(** ** The elimination returns on planes in three unknowns *)

Section returns.
Import LinearSystem.

Lemma plane_init_total (nv : Vector.t) (c : Decimal) :
  length nv = 3%nat →
  ∃ p, Plane.__init__ (Some nv) (Some c) = Ok p ∧ Plane.normal_vector p = nv.
Proof.
  intros Hlen.
  assert (Hb : ∃ b, Plane.set_basepoint 3 nv c = Ok b).
  { unfold Plane.set_basepoint, Plane.basepoint_of.
    destruct (Plane.first_nonzero_index nv) as [i|e] eqn:Hi.
    - apply first_nonzero_from_ok in Hi as (j & x & -> & Hj & Hx & _).
      rewrite Z.add_0_l. simpl. rewrite (getitem_of_nat nv j x Hj). simpl.
      rewrite dec_div_ok by (by apply not_near_zero_ne_0). simpl.
      apply lookup_lt_Some in Hj. unfold setitem.
      rewrite index_of_nat by (simpl; lia). eauto.
    - apply first_nonzero_from_err in Hi as [-> _]. simpl. eauto. }
  destruct Hb as [b Hb]. unfold Plane.__init__.
  rewrite truthy_nonempty by (by destruct nv). simpl. rewrite Hb. simpl. eauto.
Qed.

Lemma three_unknowns_entry (s : obj) (rn cn : nat) :
  three_unknowns s → (rn < length (planes s))%nat → (cn < 3)%nat →
  ∃ x, entry (Z.of_nat rn) (Z.of_nat cn) s = (Ok x, s) ∧ entry_at s rn cn = Some x.
Proof.
  intros [_ Hall] Hrn Hcn.
  destruct (lookup_lt_is_Some_2 (planes s) rn Hrn) as [p Hp].
  pose proof (Forall_lookup_1 _ _ _ _ Hall Hp) as Hlen. simpl in Hlen.
  destruct (lookup_lt_is_Some_2 (Plane.normal_vector p) cn) as [x Hx]; [lia|].
  exists x. split; [|unfold entry_at; by rewrite Hp].
  apply entry_ok. split; [done|]. exists rn, p.
  split; [by apply index_of_nat|]. split; [done | by apply getitem_of_nat].
Qed.

Lemma three_unknowns_add_multiple (c : Decimal) (s : obj) (i j : nat) :
  three_unknowns s → (i < length (planes s))%nat → (j < length (planes s))%nat →
  ∃ s', add_multiple_times_row_to_row c (Z.of_nat i) (Z.of_nat j) s = (Ok tt, s') ∧
        three_unknowns s'.
Proof.
  intros [Hd Hall] Hi Hj.
  destruct (lookup_lt_is_Some_2 (planes s) i Hi) as [p1 Hp1].
  destruct (lookup_lt_is_Some_2 (planes s) j Hj) as [p2 Hp2].
  pose proof (Forall_lookup_1 _ _ _ _ Hall Hp1) as Hl1.
  pose proof (Forall_lookup_1 _ _ _ _ Hall Hp2) as Hl2. simpl in Hl1, Hl2.
  unfold add_multiple_times_row_to_row. rewrite se_bind_eq.
  assert (Hr1 : __getitem__ (Z.of_nat i) s = (Ok p1, s)).
  { apply row_ok. split; [done|]. exists i. split; [by apply index_of_nat | done]. }
  assert (Hr2 : __getitem__ (Z.of_nat j) s = (Ok p2, s)).
  { apply row_ok. split; [done|]. exists j. split; [by apply index_of_nat | done]. }
  rewrite Hr1, se_bind_eq, Hr2, se_bind_eq.
  unfold Vector.add, Vector.same_dimension, Vector.scalar_multiply, lift at 1.
  rewrite bool_decide_true by (rewrite length_map; congruence).
  destruct (plane_init_total
    (zip_with Qcplus (map (λ x, x * c)%Qc (Plane.normal_vector p1)) (Plane.normal_vector p2))
    (Plane.constant_term p1 * c + Plane.constant_term p2)%Qc) as (p' & Hp' & Hnv).
  { rewrite length_zip_with, length_map. lia. }
  rewrite se_bind_eq. unfold lift. rewrite Hp'.
  unfold assign_row, setitem. rewrite index_of_nat by done.
  eexists. split; [done|]. split; [done|]. simpl.
  apply Forall_insert; [done|]. rewrite Hnv, length_zip_with, length_map. lia.
Qed.

Lemma three_unknowns_swap (s : obj) (i j : nat) :
  three_unknowns s → (i < length (planes s))%nat → (j < length (planes s))%nat →
  ∃ s', swap_rows (Z.of_nat i) (Z.of_nat j) s = (Ok tt, s') ∧
        three_unknowns s' ∧ length (planes s') = length (planes s).
Proof.
  intros [Hd Hall] Hi Hj.
  destruct (lookup_lt_is_Some_2 (planes s) i Hi) as [a Ha].
  destruct (lookup_lt_is_Some_2 (planes s) j Hj) as [b Hb].
  unfold swap_rows. rewrite se_bind_eq.
  assert (Hr1 : __getitem__ (Z.of_nat i) s = (Ok a, s)).
  { apply row_ok. split; [done|]. exists i. split; [by apply index_of_nat | done]. }
  assert (Hr2 : __getitem__ (Z.of_nat j) s = (Ok b, s)).
  { apply row_ok. split; [done|]. exists j. split; [by apply index_of_nat | done]. }
  rewrite Hr1, se_bind_eq, Hr2, se_bind_eq.
  unfold assign_row at 1, setitem. rewrite index_of_nat by done.
  unfold assign_row, setitem. simpl. rewrite length_insert, index_of_nat by done.
  eexists. split; [done|]. split; [|simpl; by rewrite !length_insert].
  split; [done|]. simpl.
  repeat apply Forall_insert; try done; by eapply (Forall_lookup_1 _ _ _ _ Hall).
Qed.

Lemma three_unknowns_swap_with_first_nonzero (rn cn : nat) (ks : list Z) (s : obj) :
  three_unknowns s → (rn < length (planes s))%nat → (cn < 3)%nat →
  (∀ k, k ∈ ks → 0 ≤ k < len (planes s)) →
  ∃ b s', swap_with_first_nonzero (Z.of_nat rn) (Z.of_nat cn) ks s = (Ok b, s') ∧
          three_unknowns s' ∧ length (planes s') = length (planes s).
Proof.
  intros Hwf Hrn Hcn. induction ks as [|k ks IH]; intros Hks; simpl.
  - by exists false, s.
  - destruct (Hks k) as [Hk0 Hkn]; [by left|]. unfold len in Hkn.
    destruct (three_unknowns_entry s (Z.to_nat k) cn) as (x & Hx & _); [done|lia|done|].
    rewrite Z2Nat.id in Hx by done. rewrite se_bind_eq, Hx.
    destruct (is_near_zero x); simpl.
    + apply IH. intros k' Hk'. apply Hks. by right.
    + destruct (three_unknowns_swap s rn (Z.to_nat k)) as (s' & Hs' & Hwf' & Hlen');
        [done|done|lia|].
      rewrite Z2Nat.id in Hs' by done. rewrite se_bind_eq, Hs'. by exists true, s'.
Qed.

Lemma three_unknowns_clear_coeffs_below (rn cn : nat) (s : obj) :
  three_unknowns s → pivot_at s rn cn → (cn < 3)%nat →
  ∃ s', clear_coeffs_below (Z.of_nat rn) (Z.of_nat cn) s = (Ok tt, s') ∧
        three_unknowns s' ∧ length (planes s') = length (planes s).
Proof.
  intros Hwf (x & Hx & Hxnz) Hcn.
  pose proof (entry_at_Some_lt _ _ _ _ Hx) as Hrn.
  destruct (three_unknowns_entry s rn cn) as (x' & Hent & Hx'); [done|done|done|].
  assert (x' = x) as -> by congruence.
  unfold clear_coeffs_below. rewrite se_bind_eq. simpl. rewrite se_bind_eq, Hent.
  assert (Hloop : ∀ ks s1, three_unknowns s1 → length (planes s1) = length (planes s) →
            (∀ k, k ∈ ks → 0 ≤ k < len (planes s)) →
            ∃ s', for_each ks (λ k,
                    entry k (Z.of_nat cn) ≫= λ gamma,
                    lift (dec_div (- gamma) x) ≫= λ alpha,
                    add_multiple_times_row_to_row alpha (Z.of_nat rn) k) s1 = (Ok tt, s') ∧
                  three_unknowns s' ∧ length (planes s') = length (planes s)).
  { induction ks as [|k ks IH]; intros s1 Hwf1 Hlen1 Hks; simpl.
    - by exists s1.
    - destruct (Hks k) as [Hk0 Hkn]; [by left|]. unfold len in Hkn.
      destruct (three_unknowns_entry s1 (Z.to_nat k) cn) as (g & Hg & _);
        [done|lia|done|].
      rewrite Z2Nat.id in Hg by done. rewrite se_bind_eq, se_bind_eq, Hg.
      rewrite se_bind_eq. unfold lift.
      rewrite dec_div_ok by (by apply not_near_zero_ne_0).
      destruct (three_unknowns_add_multiple (- g / x)%Qc s1 rn (Z.to_nat k))
        as (s2 & Hs2 & Hwf2); [done|lia|lia|].
      rewrite Z2Nat.id in Hs2 by done. rewrite Hs2.
      apply IH; [done| |intros k' Hk'; apply Hks; by right].
      apply add_multiple_times_row_to_row_ok in Hs2
        as (? & ? & ? & ? & ? & _ & _ & _ & _ & _ & _ & ->).
      simpl. by rewrite length_insert. }
  apply Hloop; [done|done|]. intros k Hk. apply range_below_facts in Hk. lia.
Qed.

Lemma three_unknowns_find_pivot (todo rn cn : nat) (s : obj) :
  three_unknowns s → (rn < length (planes s))%nat → (cn + todo ≤ 3)%nat →
  ∃ col' s', find_pivot_and_clear todo (Z.of_nat rn) (Z.of_nat cn) s = (Ok col', s') ∧
             three_unknowns s' ∧ length (planes s') = length (planes s).
Proof.
  intros Hwf Hrn. revert cn. induction todo as [|todo IH]; intros cn Hcn; simpl.
  - by exists (Z.of_nat cn), s.
  - destruct (three_unknowns_entry s rn cn) as (x & Hx & Hxat); [done|done|lia|].
    rewrite se_bind_eq, Hx.
    assert (Hclear : ∀ s1, three_unknowns s1 → length (planes s1) = length (planes s) →
              pivot_at s1 rn cn →
              ∃ col' s', (clear_coeffs_below (Z.of_nat rn) (Z.of_nat cn) ≫= λ _,
                          mret (Z.of_nat cn + 1)) s1 = (Ok col', s') ∧
                         three_unknowns s' ∧ length (planes s') = length (planes s)).
    { intros s1 Hwf1 Hlen1 Hpiv.
      destruct (three_unknowns_clear_coeffs_below rn cn s1) as (s2 & Hs2 & Hwf2 & Hlen2);
        [done|done|lia|].
      rewrite se_bind_eq, Hs2. eexists _, s2. split; [done|]. split; [done | congruence]. }
    destruct (is_near_zero x) eqn:Hnz.
    + destruct (three_unknowns_swap_with_first_nonzero rn cn
                  (range (Z.of_nat rn + 1) (len (planes s))) s)
        as (b & s1 & Hs1 & Hwf1 & Hlen1); [done|done|lia| |].
      { intros k Hk. apply range_below_facts in Hk. lia. }
      rewrite se_bind_eq. unfold swap_with_row_below_for_nonzero_coefficient.
      rewrite se_bind_eq. simpl. rewrite Hs1.
      pose proof Hs1 as Hspec.
      change (swap_with_first_nonzero (Z.of_nat rn) (Z.of_nat cn)
                (range (Z.of_nat rn + 1) (len (planes s))) s)
        with ((__len__ ≫= λ n, swap_with_first_nonzero (Z.of_nat rn) (Z.of_nat cn)
                             (range (Z.of_nat rn + 1) n)) s) in Hspec.
      apply swap_with_row_below_spec in Hspec
        as [(-> & -> & _) | (-> & k & pr & pk & Hk & Hpiv & Hpr & Hpk & ->)]; [| |lia|lia].
      * simpl. replace (Z.of_nat cn + 1) with (Z.of_nat (S cn)) by lia.
        apply IH. lia.
      * simpl. rewrite !Nat2Z.id in *. apply Hclear; [done|done|].
        destruct (row_step_swap s rn k pr pk) as (_ & _ & Hent); [lia|done|done|].
        destruct Hpiv as (y & Hy & Hynz). exists y. by rewrite Hent.
    + simpl. apply Hclear; [done|done|]. by exists x.
Qed.

Lemma three_unknowns_triangular_rows (m rn : nat) (col : Z) (s : obj) :
  three_unknowns s → (rn + m = length (planes s))%nat → 0 ≤ col ≤ 3 →
  ∃ T, triangular_rows 3 (seqZ (Z.of_nat rn) (Z.of_nat m)) col s = (Ok tt, T) ∧
       three_unknowns T.
Proof.
  revert rn col s. induction m as [|m IH]; intros rn col s Hwf Hlen Hcol.
  - by exists s.
  - rewrite seqZ_cons by lia. simpl.
    replace (Z.succ (Z.of_nat rn)) with (Z.of_nat (S rn)) by lia.
    replace (Z.pred (Z.of_nat (S m))) with (Z.of_nat m) by lia.
    destruct (three_unknowns_find_pivot (Z.to_nat (3 - col)) rn (Z.to_nat col) s)
      as (col' & s1 & Hs1 & Hwf1 & Hlen1); [done|lia|lia|].
    assert (Hcol' : 0 ≤ col' ≤ 3).
    { pose proof Hs1 as Hspec.
      apply find_pivot_and_clear_spec in Hspec as [_ [(-> & _) | (c & ? & -> & _)]]; lia. }
    rewrite Z2Nat.id in Hs1 by lia. rewrite se_bind_eq, Hs1.
    apply IH; [done|lia|done].
Qed.

Lemma three_unknowns_triangular_form (s : obj) :
  three_unknowns s → ∃ T, triangular_form_of s = (Ok tt, T) ∧ three_unknowns T.
Proof.
  intros Hwf. unfold triangular_form_of, range, len. rewrite Z.sub_0_r.
  destruct Hwf as [Hd Hall]. rewrite Hd.
  by apply (three_unknowns_triangular_rows _ 0).
Qed.

End returns.




(** * Planes: the search for the first coefficient, the constructor and
      the iterator *)

Section plane_search.

Lemma first_nonzero_from_found (k : Z) (v : Vector.t) (j : nat) (x : Decimal) :
  v !! j = Some x → is_near_zero x = false →
  (∀ i y, (i < j)%nat → v !! i = Some y → is_near_zero y = true) →
  Plane.first_nonzero_from k v = Ok (k + Z.of_nat j).
Proof.
  revert k j. induction v as [|a v IH]; intros k j Hj Hx Hbefore; [done|].
  destruct j as [|j]; simpl in *.
  - injection Hj as ->. rewrite Hx. simpl. f_equal. lia.
  - rewrite (Hbefore 0%nat a); [|lia|done]. simpl.
    rewrite (IH (k + 1) j Hj Hx).
    + f_equal. lia.
    + intros i y Hi Hy. apply (Hbefore (S i) y); [lia | done].
Qed.

Lemma hyperplane_first_nonzero_from (k : Z) (v : Vector.t) :
  Hyperplane.first_nonzero_from k v = Plane.first_nonzero_from k v.
Proof.
  revert k. induction v as [|a v IH]; intros k; simpl; [done|].
  by rewrite IH.
Qed.

End plane_search.

Section plane_search_result.

Lemma first_nonzero_index_spec (v : Vector.t) :
  (∀ k, Plane.first_nonzero_index v = Ok k ↔
        ∃ (j : nat) (x : Decimal),
          k = Z.of_nat j ∧ v !! j = Some x ∧ is_near_zero x = false ∧
          ∀ i y, (i < j)%nat → v !! i = Some y → is_near_zero y = true) ∧
  (∀ e, Plane.first_nonzero_index v = Err e ↔
        e = Exception Plane.NO_NONZERO_ELTS_FOUND_MSG ∧
        ∀ y, y ∈ v → is_near_zero y = true) ∧
  Hyperplane.first_nonzero_index v = Plane.first_nonzero_index v.
Proof.
  split; [|split].
  - intros k. split.
    + intros H. apply first_nonzero_from_ok in H as (j & x & -> & Hj & Hx & Hall).
      exists j, x. split; [lia|]. split; [done|]. split; [done|].
      intros i y Hi Hy. rewrite Forall_lookup in Hall. apply (Hall i y).
      rewrite lookup_take_lt; done.
    + intros (j & x & -> & Hj & Hx & Hbefore).
      unfold Plane.first_nonzero_index.
      by rewrite (first_nonzero_from_found 0 v j x Hj Hx Hbefore).
  - intros e. split.
    + intros H. apply first_nonzero_from_err in H as [-> Hz]. split; [done|].
      intros y Hy. unfold Vector.is_zero in Hz. rewrite forallb_forall in Hz.
      apply Hz. by apply list_elem_of_In.
    + intros [-> Hz]. apply first_nonzero_index_zero.
      unfold Vector.is_zero. apply forallb_forall. intros y Hy.
      apply Hz. by apply list_elem_of_In.
  - apply hyperplane_first_nonzero_from.
Qed.

End plane_search_result.

(** X1.  [first_nonzero_index] returns the position of the first
    coefficient that is not within epsilon of zero, and raises the exception
    of message [NO_NONZERO_ELTS_FOUND_MSG] exactly when every coefficient is
    within epsilon of zero; the static method of [Hyperplane] is the same
    function. *)
Theorem X1_first_nonzero_index (v : Vector.t) :
  (∀ k, Plane.first_nonzero_index v = Ok k ↔
        ∃ (j : nat) (x : Decimal),
          k = Z.of_nat j ∧ v !! j = Some x ∧ is_near_zero x = false ∧
          ∀ i y, (i < j)%nat → v !! i = Some y → is_near_zero y = true) ∧
  (∀ e, Plane.first_nonzero_index v = Err e ↔
        e = Exception Plane.NO_NONZERO_ELTS_FOUND_MSG ∧
        ∀ y, y ∈ v → is_near_zero y = true) ∧
  Hyperplane.first_nonzero_index v = Plane.first_nonzero_index v.
Proof. apply first_nonzero_index_spec. Qed.

Section plane_constructor.

Lemma first_nonzero_index_found (v : Vector.t) (j : nat) (x : Decimal) :
  v !! j = Some x → is_near_zero x = false →
  (∀ i y, (i < j)%nat → v !! i = Some y → is_near_zero y = true) →
  Plane.first_nonzero_index v = Ok (Z.of_nat j).
Proof.
  intros Hj Hx Hbefore. unfold Plane.first_nonzero_index.
  by rewrite (first_nonzero_from_found 0 v j x Hj Hx Hbefore).
Qed.

Lemma set_basepoint_found (nv : Vector.t) (c : Decimal) (k : nat) (x : Decimal) :
  nv !! k = Some x → is_near_zero x = false →
  (∀ i y, (i < k)%nat → nv !! i = Some y → is_near_zero y = true) →
  Plane.set_basepoint 3 nv c =
    if bool_decide (k < 3)%nat
    then Ok (Some (<[k := (c / x)%Qc]> [0; 0; 0]%Qc))
    else Err (IndexError "list assignment index out of range").
Proof.
  intros Hk Hx Hbefore. unfold Plane.set_basepoint, Plane.basepoint_of.
  rewrite (first_nonzero_index_found nv k x Hk Hx Hbefore). simpl.
  rewrite (getitem_of_nat nv k x Hk). simpl.
  rewrite dec_div_ok by (by apply not_near_zero_ne_0). simpl.
  unfold setitem, index. simpl.
  destruct (decide (k < 3)%nat) as [H3|H3].
  - rewrite !bool_decide_true by lia. rewrite Nat2Z.id. reflexivity.
  - rewrite !bool_decide_false by lia.
    rewrite (bool_decide_false (k < 3)%nat) by lia. reflexivity.
Qed.

End plane_constructor.



Section plane_basepoint.

Lemma sum_single (n : list Decimal) (k : nat) (x q : Decimal) (zs : list Decimal) :
  n !! k = Some x → length zs = length n → Forall (λ z, z = 0%Qc) zs →
  Vector.sum (zip_with Qcmult n (<[k := q]> zs)) = (x * q)%Qc.
Proof.
  revert k zs. induction n as [|a n IH]; intros k zs Hk Hlen Hzs; [done|].
  destruct zs as [|z zs]; [done|]. simpl in Hlen.
  apply Forall_cons in Hzs as [-> Hzs].
  destruct k as [|k]; simpl in *.
  - injection Hk as ->.
    assert (Vector.sum (zip_with Qcmult n zs) = 0%Qc) as ->; [|ring].
    clear -Hzs. revert n. induction Hzs as [|z zs -> _ IH]; intros [|b n]; simpl;
      try done. rewrite IH. ring.
  - rewrite (IH k zs Hk); [ring | lia | done].
Qed.

End plane_basepoint.



Section plane_iterator.

Lemma next_until_stop_from (self : Plane.obj) (calls i : nat) :
  (i ≤ length (Plane.normal_vector self))%nat →
  (length (Plane.normal_vector self) - i < calls)%nat →
  Plane.next_until_stop calls self (Some (Z.of_nat i))
    = (Ok (Some (drop i (Plane.normal_vector self))),
       Some (len (Plane.normal_vector self))).
Proof.
  revert i. induction calls as [|calls IH]; intros i Hi Hcalls; [lia|].
  simpl. rewrite se_bind_eq. unfold Plane.__next__, len.
  destruct (decide (i = length (Plane.normal_vector self))) as [->|Hne].
  - rewrite bool_decide_true by lia. rewrite drop_all. done.
  - rewrite bool_decide_false by lia.
    destruct (lookup_lt_is_Some_2 (Plane.normal_vector self) i) as [x Hx]; [lia|].
    rewrite (getitem_of_nat _ i x Hx).
    rewrite se_bind_eq.
    replace (Z.of_nat i + 1) with (Z.of_nat (S i)) by lia.
    rewrite (IH (S i)) by lia. simpl.
    by rewrite (drop_S _ x i Hx).
Qed.

Lemma getitem_each {A} (pre xs : list A) :
  mapM (getitem (pre ++ xs)) (seqZ (Z.of_nat (length pre)) (Z.of_nat (length xs)))
    = Ok xs.
Proof.
  revert pre. induction xs as [|x xs IH]; intros pre; [reflexivity|].
  rewrite length_cons, Nat2Z.inj_succ, seqZ_cons by lia. simpl.
  rewrite (getitem_of_nat (pre ++ x :: xs) (length pre) x).
  2: { by rewrite lookup_app_r, Nat.sub_diag by lia. }
  simpl. replace (Z.succ (Z.of_nat (length pre))) with (Z.of_nat (length (pre ++ [x])))
    by (rewrite length_app; simpl; lia).
  rewrite Z.pred_succ.
  replace (pre ++ x :: xs) with ((pre ++ [x]) ++ xs) by (by rewrite <- app_assoc).
  by rewrite IH.
Qed.

End plane_iterator.

(** X4.  Iterating over a plane: whatever the cursor was before, the loop
    [for x in self], given more calls of [__next__] than the normal vector
    has coordinates, stops and has produced the coordinates of the normal
    vector in order, which are [self[0]], ..., [self[len(self) - 1]]; it
    leaves the cursor at [len(self)], where [__next__] raises [StopIteration]
    again. *)
Theorem X4_plane_iteration (self : Plane.obj) (calls : nat) (current : option Z) :
  (length (Plane.normal_vector self) < calls)%nat →
  Plane.iterate calls self current
    = (Ok (Some (Plane.normal_vector self)), Some (Plane.__len__ self)) ∧
  mapM (Plane.__getitem__ self) (range 0 (Plane.__len__ self))
    = Ok (Plane.normal_vector self) ∧
  Plane.__next__ self (Some (Plane.__len__ self))
    = (Ok Plane.StopIteration, Some (Plane.__len__ self)).
Proof.
  intros Hcalls. split; [|split].
  - unfold Plane.iterate. rewrite se_bind_eq. unfold Plane.__iter__, put.
    apply (next_until_stop_from self calls 0); lia.
  - unfold range, Plane.__len__, len. rewrite Z.sub_0_r.
    apply (getitem_each [] (Plane.normal_vector self)).
  - unfold Plane.__next__, Plane.__len__. rewrite bool_decide_true by lia. done.
Qed.

Lemma X4_plane_iteration_witness :
  Plane.iterate 4 plane_123_1 (Some 2)
    = (Ok (Some (Plane.normal_vector plane_123_1)), Some (Plane.__len__ plane_123_1)) ∧
  mapM (Plane.__getitem__ plane_123_1) (range 0 (Plane.__len__ plane_123_1))
    = Ok (Plane.normal_vector plane_123_1) ∧
  Plane.__next__ plane_123_1 (Some (Plane.__len__ plane_123_1))
    = (Ok Plane.StopIteration, Some (Plane.__len__ plane_123_1)).
Proof.
  apply (X4_plane_iteration plane_123_1 4 (Some 2)). simpl. lia.
Defined.

(** * Rows of a system: indexing, swapping, failing operations, pivots *)

Section rows.
Import LinearSystem.

Lemma index_in_range (n : nat) (i : Z) :
  - Z.of_nat n ≤ i < Z.of_nat n → ∃ k, index n i = Some k ∧ (k < n)%nat.
Proof.
  intros Hi. unfold index. destruct (decide (0 ≤ i)).
  - rewrite bool_decide_true by lia. eexists. split; [done | lia].
  - rewrite bool_decide_false by lia. rewrite bool_decide_true by lia.
    eexists. split; [done | lia].
Qed.

Lemma index_out_of_range (n : nat) (i : Z) :
  ¬ (- Z.of_nat n ≤ i < Z.of_nat n) → index n i = None.
Proof.
  intros Hi. unfold index. rewrite !bool_decide_false by lia. done.
Qed.

Lemma getitem_insert {A} (l : list A) (i : Z) (k : nat) (x : A) :
  index (length l) i = Some k → getitem (<[k := x]> l) i = Ok x.
Proof.
  intros Hk. unfold getitem. rewrite length_insert, Hk. simpl.
  rewrite list_lookup_insert_eq; [done|]. by eapply index_lt.
Qed.

Lemma getitem_insert_ne {A} (l : list A) (i j : Z) (k : nat) (x : A) :
  index (length l) i = Some k → index (length l) j ≠ Some k →
  getitem (<[k := x]> l) j = getitem l j.
Proof.
  intros Hk Hj. unfold getitem. rewrite length_insert.
  destruct (index (length l) j) as [k'|]; [|done]. simpl.
  rewrite list_lookup_insert_ne; [done | congruence].
Qed.

(** Exchanging two places of a list twice gives the list back. *)
Lemma insert_swap_back {A} (l : list A) (i j : nat) (a b : A) :
  l !! i = Some a → l !! j = Some b →
  <[i := a]> (<[j := b]> (<[i := b]> (<[j := a]> l))) = l.
Proof.
  intros Hi Hj. apply list_eq. intros n.
  pose proof (lookup_lt_Some _ _ _ Hi). pose proof (lookup_lt_Some _ _ _ Hj).
  destruct (decide (n = i)) as [->|Hni].
  { rewrite list_lookup_insert_eq by (rewrite !length_insert; lia). done. }
  rewrite list_lookup_insert_ne by done.
  destruct (decide (n = j)) as [->|Hnj].
  { rewrite list_lookup_insert_eq by (rewrite !length_insert; lia). done. }
  rewrite !list_lookup_insert_ne by done. done.
Qed.

Lemma insert_swap_comm {A} (l : list A) (i j : nat) (a b : A) :
  l !! i = Some a → l !! j = Some b →
  <[j := a]> (<[i := b]> l) = <[i := b]> (<[j := a]> l).
Proof.
  intros Hi Hj. destruct (decide (i = j)) as [->|Hne].
  - assert (a = b) as -> by congruence. done.
  - by rewrite list_insert_insert_ne.
Qed.

Lemma swap_rows_run (row1 row2 : Z) (s : obj) (k1 k2 : nat) (a b : Plane.obj) :
  index (length (planes s)) row1 = Some k1 → index (length (planes s)) row2 = Some k2 →
  planes s !! k1 = Some a → planes s !! k2 = Some b →
  swap_rows row1 row2 s
    = (Ok tt, Build (<[k1 := b]> (<[k2 := a]> (planes s))) (dimension s)).
Proof.
  intros H1 H2 Ha Hb. unfold swap_rows.
  rewrite se_bind_eq. unfold __getitem__ at 1, getitem. rewrite H1. simpl. rewrite Ha.
  rewrite se_bind_eq. unfold __getitem__, getitem. rewrite H2. simpl. rewrite Hb.
  rewrite se_bind_eq. unfold assign_row at 1, setitem. rewrite H2.
  unfold assign_row, setitem. simpl. rewrite length_insert, H1. done.
Qed.

End rows.

(** X5.  Replacing a row and reading it back.  With a row [x] of the
    dimension of the system and an index [i] within [-len(self)] and
    [len(self) - 1], [self[i] = x] returns; afterwards [self[i]] is [x], the
    number of rows and the dimension are as before, and an index that denotes
    another place reads what it read before.  With an index outside these
    bounds it raises [IndexError] and leaves the system as it was. *)
Theorem X5_setitem_getitem (i : Z) (x : Plane.obj) (s : LinearSystem.obj) :
  Plane.dimension x = LinearSystem.dimension s →
  (- len (LinearSystem.planes s) ≤ i < len (LinearSystem.planes s) →
   ∃ s', LinearSystem.__setitem__ i x s = (Ok tt, s') ∧
         LinearSystem.__getitem__ i s' = (Ok x, s') ∧
         LinearSystem.__len__ s' = (fst (LinearSystem.__len__ s), s') ∧
         LinearSystem.dimension s' = LinearSystem.dimension s ∧
         ∀ j, index (length (LinearSystem.planes s)) j
                ≠ index (length (LinearSystem.planes s)) i →
              LinearSystem.__getitem__ j s' = (fst (LinearSystem.__getitem__ j s), s')) ∧
  (¬ (- len (LinearSystem.planes s) ≤ i < len (LinearSystem.planes s)) →
   LinearSystem.__setitem__ i x s
     = (Err (IndexError "list assignment index out of range"), s)).
Proof.
  intros Hd. unfold LinearSystem.__setitem__. rewrite bool_decide_true by done.
  unfold LinearSystem.assign_row, setitem, len. split.
  - intros Hi. destruct (index_in_range _ _ Hi) as (k & Hk & Hlt).
    rewrite Hk. eexists. split; [done|].
    unfold LinearSystem.__getitem__, LinearSystem.__len__, len. simpl.
    rewrite (getitem_insert _ i k x Hk), length_insert.
    repeat split; try done.
    intros j Hj. rewrite (getitem_insert_ne _ i j k x Hk); [done | congruence].
  - intros Hi. by rewrite (index_out_of_range _ _ Hi).
Qed.

Lemma X5_setitem_getitem_witness :
  ∃ s', LinearSystem.__setitem__ (-1) plane_246_3 three_planes = (Ok tt, s') ∧
        LinearSystem.__getitem__ (-1) s' = (Ok plane_246_3, s') ∧
        LinearSystem.__getitem__ 2 s' = (Ok plane_246_3, s').
Proof.
  destruct (X5_setitem_getitem (-1) plane_246_3 three_planes eq_refl) as [H _].
  destruct H as (s' & Hset & Hget & _); [by vm_compute|].
  exists s'. split; [exact Hset|]. split; [exact Hget|].
  vm_compute in Hset. injection Hset as <-. vm_compute. reflexivity.
Defined.

(** X6.  Swapping rows.  When [swap_rows(row1, row2)] returns, each of the
    two places holds what the other held; swapping the same rows again, in
    either order of the arguments, gives the system back, and
    [swap_rows(row2, row1)] does what [swap_rows(row1, row2)] does. *)
Theorem X6_swap_rows_twice (row1 row2 : Z) (s s' : LinearSystem.obj) :
  LinearSystem.swap_rows row1 row2 s = (Ok tt, s') →
  LinearSystem.__getitem__ row1 s' = (fst (LinearSystem.__getitem__ row2 s), s') ∧
  LinearSystem.__getitem__ row2 s' = (fst (LinearSystem.__getitem__ row1 s), s') ∧
  LinearSystem.swap_rows row2 row1 s = (Ok tt, s') ∧
  LinearSystem.swap_rows row1 row2 s' = (Ok tt, s) ∧
  LinearSystem.swap_rows row2 row1 s' = (Ok tt, s).
Proof.
  intros H. apply swap_rows_ok in H as (k1 & k2 & a & b & H1 & H2 & Ha & Hb & ->).
  pose proof (index_lt _ _ _ H1) as Hlt1. pose proof (index_lt _ _ _ H2) as Hlt2.
  destruct s as [l d]. cbn [LinearSystem.planes LinearSystem.dimension] in *.
  assert (<[k1 := b]> (<[k2 := a]> l) !! k1 = Some b) as Ha'.
  { rewrite list_lookup_insert_eq; [done|]. by rewrite length_insert. }
  assert (<[k1 := b]> (<[k2 := a]> l) !! k2 = Some a) as Hb'.
  { destruct (decide (k1 = k2)) as [->|Hne].
    - rewrite list_lookup_insert_eq by (by rewrite length_insert). congruence.
    - rewrite list_lookup_insert_ne by done. by rewrite list_lookup_insert_eq. }
  split; [|split; [|split; [|split]]].
  - unfold LinearSystem.__getitem__, getitem. simpl.
    rewrite !length_insert. rewrite H1, H2. simpl. by rewrite Ha', Hb.
  - unfold LinearSystem.__getitem__, getitem. simpl.
    rewrite !length_insert. rewrite H1, H2. simpl. by rewrite Hb', Ha.
  - rewrite (swap_rows_run row2 row1 (LinearSystem.Build l d) k2 k1 b a H2 H1 Hb Ha).
    cbn [LinearSystem.planes LinearSystem.dimension].
    by rewrite (insert_swap_comm l k1 k2 a b Ha Hb).
  - rewrite (swap_rows_run row1 row2 _ k1 k2 b a);
      [| cbn [LinearSystem.planes]; rewrite ?length_insert; done ..].
    cbn [LinearSystem.planes LinearSystem.dimension].
    by rewrite (insert_swap_back l k1 k2 a b Ha Hb).
  - rewrite (swap_rows_run row2 row1 _ k2 k1 a b);
      [| cbn [LinearSystem.planes]; rewrite ?length_insert; done ..].
    cbn [LinearSystem.planes LinearSystem.dimension].
    rewrite (insert_swap_comm _ k1 k2 b a Ha' Hb').
    by rewrite (insert_swap_back l k1 k2 a b Ha Hb).
Qed.

Lemma X6_swap_rows_twice_witness :
  LinearSystem.swap_rows 0 (-1) (snd (LinearSystem.swap_rows 0 (-1) three_planes))
    = (Ok tt, three_planes).
Proof.
  apply (X6_swap_rows_twice 0 (-1) three_planes
           (snd (LinearSystem.swap_rows 0 (-1) three_planes))).
  vm_compute. reflexivity.
Defined.

Section failing_operations.
Import LinearSystem.

Lemma apply_operation_err (op : row_operation) (s s' : obj) (e : exn) :
  apply_operation op s = (Err e, s') → s' = s.
Proof.
  destruct op as [row1 row2 | c row | c row1 row2]; simpl; intros H.
  - by apply swap_rows_err in H as [_ ->].
  - by apply multiply_coefficient_and_row_err in H as [_ ->].
  - by apply add_multiple_times_row_to_row_err in H as [_ ->].
Qed.

Lemma mapM_lookup {A B} (f : A → res B) (xs : list A) (ys : list B) :
  mapM f xs = Ok ys →
  length ys = length xs ∧
  ∀ i x, xs !! i = Some x → ∃ y, ys !! i = Some y ∧ f x = Ok y.
Proof.
  revert ys. induction xs as [|x xs IH]; intros ys H.
  - injection H as <-. split; [done|]. intros i x Hx. done.
  - simpl in H. apply res_bind_ok in H as (y & Hy & H).
    apply res_bind_ok in H as (ys' & Hys & [= <-]).
    destruct (IH ys' Hys) as [Hlen Hall]. split; [simpl; lia|].
    intros [|i] x' Hx'; simpl in *.
    + injection Hx' as <-. eauto.
    + by apply Hall.
Qed.

Lemma first_nonzero_or_minus_one_cases (p : Plane.obj) (k : Z) :
  first_nonzero_or_minus_one p = Ok k →
  (k = -1 ∧ Vector.is_zero (Plane.normal_vector p) = true) ∨
  (0 ≤ k ∧ Plane.first_nonzero_index (Plane.normal_vector p) = Ok k ∧
   Vector.is_zero (Plane.normal_vector p) = false).
Proof.
  unfold first_nonzero_or_minus_one.
  destruct (Plane.first_nonzero_index _) as [i|e] eqn:Hi.
  - intros [= <-]. right.
    pose proof (first_nonzero_index_ok_not_zero _ _ Hi) as Hz.
    apply first_nonzero_from_ok in Hi as (j & x & -> & _). split; [lia | done].
  - apply first_nonzero_from_err in Hi as [-> Hz]. simpl. intros [= <-]. by left.
Qed.

Lemma count_pivots (ps : list Plane.obj) (ks : list Z) :
  mapM first_nonzero_or_minus_one ps = Ok ks →
  foldr Z.add 0 (map (λ index, if bool_decide (index >= 0) then 1 else 0) ks)
  = Z.of_nat (length (filter (λ p, Vector.is_zero (Plane.normal_vector p) = false) ps)).
Proof.
  revert ks. induction ps as [|p ps IH]; intros ks H.
  - by injection H as <-.
  - simpl in H. apply res_bind_ok in H as (k & Hk & H).
    apply res_bind_ok in H as (ks' & Hks & [= <-]). simpl.
    rewrite (IH ks' Hks). rewrite filter_cons.
    apply first_nonzero_or_minus_one_cases in Hk as [[-> Hz] | (Hk & _ & Hz)].
    + rewrite bool_decide_false by lia. rewrite decide_False by congruence. lia.
    + rewrite bool_decide_true by lia. rewrite decide_True by done. simpl. lia.
Qed.

End failing_operations.

(** X7.  A row operation that raises changes nothing: when a sequence of
    row operations raises, the system is left as the operations before the
    failing one made it, and the failing operation has left it so. *)
Theorem X7_failed_operation_changes_nothing (ops : list row_operation)
    (s s' : LinearSystem.obj) (e : exn) :
  apply_operations ops s = (Err e, s') →
  ∃ before op after,
    ops = before ++ op :: after ∧
    apply_operations before s = (Ok tt, s') ∧
    apply_operation op s' = (Err e, s').
Proof.
  revert s. induction ops as [|op ops IH]; intros s H; [done|].
  unfold apply_operations in H. simpl in H. rewrite se_bind_eq in H.
  destruct (apply_operation op s) as [[[]|e1] s1] eqn:Hop.
  - apply IH in H as (before & op' & after & -> & Hbefore & Hfail).
    exists (op :: before), op', after. split; [done|]. split; [|done].
    unfold apply_operations. simpl. rewrite se_bind_eq, Hop. exact Hbefore.
  - injection H as <- <-. pose proof (apply_operation_err _ _ _ _ Hop) as ->.
    exists [], op, ops. done.
Qed.

Lemma X7_failed_operation_changes_nothing_witness :
  ∃ before op after,
    [Swap 0 1; Scale (dec 2) 5; Swap 1 2] = before ++ op :: after ∧
    apply_operations before three_planes
      = (Ok tt, snd (apply_operations [Swap 0 1] three_planes)) ∧
    apply_operation op (snd (apply_operations [Swap 0 1] three_planes))
      = (Err (IndexError "list index out of range"),
         snd (apply_operations [Swap 0 1] three_planes)).
Proof.
  apply (X7_failed_operation_changes_nothing [Swap 0 1; Scale (dec 2) 5; Swap 1 2]
           three_planes).
  vm_compute. reflexivity.
Defined.

(** X8.  [indices_of_first_nonzero_terms_in_each_row] never raises and
    leaves the system as it is; it returns one index for each row: -1 for a
    row whose coefficients are all within epsilon of zero, and otherwise the
    position of the first coefficient of the row that is not. *)
Theorem X8_indices_of_first_nonzero_terms (s : LinearSystem.obj) :
  ∃ indices,
    LinearSystem.indices_of_first_nonzero_terms_in_each_row s = (Ok indices, s) ∧
    length indices = length (LinearSystem.planes s) ∧
    ∀ i p, LinearSystem.planes s !! i = Some p →
      ∃ k, indices !! i = Some k ∧
        ((k = -1 ∧ ∀ y, y ∈ Plane.normal_vector p → is_near_zero y = true) ∨
         (∃ (j : nat) (x : Decimal),
            k = Z.of_nat j ∧ Plane.normal_vector p !! j = Some x ∧
            is_near_zero x = false ∧
            ∀ i' y, (i' < j)%nat → Plane.normal_vector p !! i' = Some y →
                    is_near_zero y = true)).
Proof.
  destruct (indices_ok s) as (ks & Hrun & Hks & Hlen).
  exists ks. split; [done|]. split; [done|].
  intros i p Hp. destruct (mapM_lookup _ _ _ Hks) as [_ Hall].
  destruct (Hall i p Hp) as (k & Hk & Hfirst). exists k. split; [done|].
  destruct (first_nonzero_index_spec (Plane.normal_vector p)) as (Hok & _ & _).
  apply first_nonzero_or_minus_one_cases in Hfirst as [[-> Hz] | (_ & Hfirst & _)].
  - left. split; [done|]. intros y Hy.
    unfold Vector.is_zero in Hz. rewrite forallb_forall in Hz.
    apply Hz. by apply list_elem_of_In.
  - right. by apply Hok.
Qed.

(** X9.  [raise_excepion_if_too_few_pivots] counts the rows that have a
    coefficient not within epsilon of zero: it raises the exception of
    message [INF_SOLUTIONS_MSG] exactly when there are fewer such rows than
    the dimension of the system, and returns otherwise; it leaves the system
    as it is. *)
Theorem X9_too_few_pivots (s : LinearSystem.obj) :
  LinearSystem.raise_excepion_if_too_few_pivots s =
    (if bool_decide
          (Z.of_nat (length (filter (λ p, Vector.is_zero (Plane.normal_vector p) = false)
                               (LinearSystem.planes s)))
           < LinearSystem.dimension s)
     then Err (Exception LinearSystem.INF_SOLUTIONS_MSG)
     else Ok tt,
     s).
Proof.
  destruct (indices_ok s) as (ks & Hrun & Hks & Hlen).
  unfold LinearSystem.raise_excepion_if_too_few_pivots.
  rewrite se_bind_eq, Hrun. rewrite se_bind_eq. unfold LinearSystem.dimension_.
  rewrite (count_pivots _ _ Hks). by case_bool_decide.
Qed.

(** X10.  The constructor of [LinearSystem] returns exactly when the list
    of planes is not empty and all planes have the same dimension; the system
    then holds the list and the dimension of its planes.  On the empty list
    it raises [IndexError]. *)
Theorem X10_system_constructor (planes : list Plane.obj) :
  (planes = [] →
   LinearSystem.__init__ planes = Err (IndexError "list index out of range")) ∧
  ((∃ s, LinearSystem.__init__ planes = Ok s) ↔
   planes ≠ [] ∧
   ∀ p q, p ∈ planes → q ∈ planes → Plane.dimension p = Plane.dimension q) ∧
  (∀ s p, LinearSystem.__init__ planes = Ok s → p ∈ planes →
          s = LinearSystem.Build planes (Plane.dimension p)).
Proof.
  split; [by intros ->|]. destruct planes as [|p0 ps].
  { split; [|done]. split; [by intros [s Hs] | by intros [? _]]. }
  unfold LinearSystem.__init__.
  assert (getitem (p0 :: ps) 0 = Ok p0) as -> by done. simpl.
  destruct (bool_decide (Plane.dimension p0 = Plane.dimension p0)) eqn:H0.
  2: { by apply bool_decide_eq_false in H0. }
  simpl.
  destruct (forallb _ ps) eqn:Hall.
  - rewrite forallb_forall in Hall.
    assert (∀ p, p ∈ p0 :: ps → Plane.dimension p = Plane.dimension p0) as Hd.
    { intros p [->|Hp]%elem_of_cons; [done|].
      apply list_elem_of_In, Hall in Hp. by apply bool_decide_eq_true in Hp. }
    split.
    + split; [|eauto]. intros _. split; [done|].
      intros p q Hp Hq. by rewrite (Hd p Hp), (Hd q Hq).
    + intros s p [= <-] Hp. by rewrite (Hd p Hp).
  - split; [|done]. split; [by intros [s Hs]|]. intros [_ Hd].
    apply not_true_iff_false in Hall. destruct Hall. apply forallb_forall.
    intros p Hp. apply bool_decide_eq_true. apply Hd; [|left].
    right. by apply list_elem_of_In.
Qed.

(** * The elimination pipeline: messages and solution sets *)

Section messages.
Import LinearSystem.

Lemma parametrization_of_err (s R : obj) (e : exn) :
  parametrization_of s = (Err e, R) →
  e = Exception NO_SOLUTIONS_MSG ∨ str e ≠ NO_SOLUTIONS_MSG ∧ str e ≠ INF_SOLUTIONS_MSG.
Proof.
  rewrite parametrization_of_eq.
  destruct (rref_of s) as [[[]|e1] R1] eqn:HR.
  2:{ intros [= <- <-]. right. apply rref_of_err in HR.
      by destruct (builtin_error_str _ HR) as (? & ? & _). }
  destruct (check_contradictory (planes R1)) as [[]|e1] eqn:Hc.
  2:{ intros [= <- <-]. left. by apply check_contradictory_err in Hc as [-> _]. }
  destruct (extract_direction_vectors_for_parametrization R1) as [[dvs|e1] R2] eqn:Hd.
  2:{ intros [= <- <-]. right. apply extract_direction_vectors_err in Hd.
      by destruct (builtin_error_str _ Hd) as (? & ? & _). }
  destruct (extract_basepoint_for_parametrization R2) as [[bp|e1] R3] eqn:Hb.
  2:{ intros [= <- <-]. right. apply extract_basepoint_err in Hb.
      by destruct (builtin_error_str _ Hb) as (? & ? & _). }
  unfold Parametrization.__init__. destruct (forallb _ dvs); [done|].
  intros [= <- <-]. right. done.
Qed.

End messages.

(** X11.  [compute_solution] never returns the message "Infinitely many
    solutions": the only message it returns is "No solutions", and an
    exception it lets through has neither message.  (The method
    [raise_excepion_if_too_few_pivots], which raises the exception of that
    message, is not called by the pipeline; a system with free variables gets
    a parametrization.) *)
Theorem X11_only_message_is_no_solutions (self : LinearSystem.loc)
    (h : LinearSystem.heap) :
  (∀ m, fst (LinearSystem.compute_solution self h) = Ok (LinearSystem.Message m) →
        m = LinearSystem.NO_SOLUTIONS_MSG) ∧
  (∀ e, fst (LinearSystem.compute_solution self h) = Err e →
        str e ≠ LinearSystem.NO_SOLUTIONS_MSG ∧ str e ≠ LinearSystem.INF_SOLUTIONS_MSG).
Proof.
  destruct (h !! self) as [s|] eqn:Hs.
  2:{ rewrite (compute_solution_dangling _ _ Hs). simpl.
      split; [done|]. by intros e [= <-]. }
  rewrite (compute_solution_eq _ _ s Hs). simpl.
  destruct (parametrization_of s) as [[P|e] R] eqn:HP; simpl; [done|].
  apply parametrization_of_err in HP as [-> | [Hno Hinf]].
  - simpl. split; [by intros m [= <-] | done].
  - rewrite !bool_decide_false by done. simpl. split; [done|]. by intros e' [= <-].
Qed.

Section elimination_solutions.
Import LinearSystem.

Lemma same_solutions_refl (s : obj) :
  Forall constructed (planes s) → same_solutions s s.
Proof. intros H. split; [done|]. split; done. Qed.

Lemma same_solutions_trans (s1 s2 s3 : obj) :
  same_solutions s1 s2 → same_solutions s2 s3 → same_solutions s1 s3.
Proof.
  intros (_ & Hlen1 & H1) (Hc & Hlen2 & H2). split; [done|]. split; [congruence|].
  intros x. by rewrite H1.
Qed.

Lemma swap_rows_same (row1 row2 : Z) (s s' : obj) :
  Forall constructed (planes s) → swap_rows row1 row2 s = (Ok tt, s') →
  same_solutions s s'.
Proof.
  intros Hc H. split; [|split].
  - by destruct (swap_step row1 row2 s s' [] Hc H).
  - by destruct (swap_step row1 row2 s s' [] Hc H) as (_ & ? & _).
  - intros x. by destruct (swap_step row1 row2 s s' x Hc H) as (_ & _ & ?).
Qed.

Lemma add_multiple_same (c : Decimal) (row k : Z) (s s' : obj) :
  0 ≤ row → 0 ≤ k → row ≠ k → Forall constructed (planes s) →
  add_multiple_times_row_to_row c row k s = (Ok tt, s') →
  same_solutions s s'.
Proof.
  intros Hrow Hk Hne Hc H.
  assert (index (length (planes s)) row ≠ index (length (planes s)) k) as Hidx.
  { pose proof H as H'. apply add_multiple_times_row_to_row_ok in H'
      as (ki & kj & _ & _ & _ & Hki & Hkj & _).
    apply index_nonneg_inv in Hki as [-> ?]; [|done].
    apply index_nonneg_inv in Hkj as [-> ?]; [|done].
    rewrite (index_nonneg _ row), (index_nonneg _ k) by lia.
    intros [= Heq]. lia. }
  split; [|split].
  - by destruct (add_multiple_step c row k s s' [] Hidx Hc H).
  - by destruct (add_multiple_step c row k s s' [] Hidx Hc H) as (_ & ? & _).
  - intros x. by destruct (add_multiple_step c row k s s' x Hidx Hc H) as (_ & _ & ?).
Qed.

Lemma scale_same (c : Decimal) (row : Z) (s s' : obj) :
  c ≠ 0%Qc → Forall constructed (planes s) →
  multiply_coefficient_and_row c row s = (Ok tt, s') →
  same_solutions s s'.
Proof.
  intros Hne Hc H. split; [|split].
  - by destruct (scale_step c row s s' [] Hne Hc H).
  - by destruct (scale_step c row s s' [] Hne Hc H) as (_ & ? & _).
  - intros x. by destruct (scale_step c row s s' x Hne Hc H) as (_ & _ & ?).
Qed.

Lemma swap_with_first_nonzero_same (row col : Z) (ks : list Z) (s s' : obj) (b : bool) :
  Forall constructed (planes s) →
  swap_with_first_nonzero row col ks s = (Ok b, s') → same_solutions s s'.
Proof.
  intros Hc. induction ks as [|k ks IH]; simpl; intros H.
  - injection H as <- <-. by apply same_solutions_refl.
  - apply se_bind_ok in H as (coeff & s1 & Hentry & H).
    apply entry_ok in Hentry as [-> _].
    destruct (is_near_zero coeff); simpl in H; [by apply IH|].
    apply se_bind_ok in H as ([] & s2 & Hswap & [= <- <-]).
    by eapply swap_rows_same.
Qed.

Lemma swap_with_row_below_same (row col : Z) (s s' : obj) (b : bool) :
  Forall constructed (planes s) →
  swap_with_row_below_for_nonzero_coefficient row col s = (Ok b, s') →
  same_solutions s s'.
Proof.
  intros Hc H. unfold swap_with_row_below_for_nonzero_coefficient in H.
  apply se_bind_ok in H as (n & s1 & [= <- <-] & H).
  by eapply swap_with_first_nonzero_same.
Qed.

Lemma clear_coeffs_below_same (row col : Z) (s s' : obj) :
  0 ≤ row → Forall constructed (planes s) →
  clear_coeffs_below row col s = (Ok tt, s') → same_solutions s s'.
Proof.
  intros Hrow Hc H. unfold clear_coeffs_below in H.
  apply se_bind_ok in H as (n & s1 & [= <- <-] & H).
  apply se_bind_ok in H as (beta & s1 & Hbeta & H).
  apply entry_ok in Hbeta as [-> _].
  revert H. apply (for_each_invariant (λ _ s1, same_solutions s s1)).
  { by apply same_solutions_refl. }
  intros before k s1 s2 [rest Hk] Hsame Hbody.
  assert (row < k) as Hlt.
  { assert (k ∈ range (row + 1) (len (planes s))) as Hin.
    { rewrite Hk. apply elem_of_app. right. left. }
    by apply range_below_facts in Hin as [? _]. }
  apply se_bind_ok in Hbody as (gamma & s3 & Hgamma & Hbody).
  apply entry_ok in Hgamma as [-> _].
  apply se_bind_ok in Hbody as (alpha & s3 & [_ ->]%lift_ok & Hbody).
  eapply same_solutions_trans; [done|].
  apply (add_multiple_same alpha row k s1 s2); [done | lia | lia | by destruct Hsame | done].
Qed.

Lemma clear_coefficients_above_same (row col : Z) (s s' : obj) :
  Forall constructed (planes s) →
  clear_coefficients_above row col s = (Ok tt, s') → same_solutions s s'.
Proof.
  intros Hc. unfold clear_coefficients_above.
  apply (for_each_invariant (λ _ s1, same_solutions s s1)).
  { by apply same_solutions_refl. }
  intros before k s1 s2 [rest Hk] Hsame Hbody.
  assert (0 ≤ k < row) as Hlt.
  { apply range_reverse_facts. rewrite Hk. apply elem_of_app. right. left. }
  apply se_bind_ok in Hbody as (n & s3 & Hn & Hbody).
  apply entry_ok in Hn as [-> _].
  eapply same_solutions_trans; [done|].
  apply (add_multiple_same (- n)%Qc row k s1 s2);
    [lia | lia | lia | by destruct Hsame | done].
Qed.

Lemma scale_row_same (row col : Z) (s s' : obj) :
  Forall constructed (planes s) →
  scale_row_to_make_coefficient_equal_one row col s = (Ok tt, s') →
  same_solutions s s'.
Proof.
  intros Hc H. unfold scale_row_to_make_coefficient_equal_one in H.
  apply se_bind_ok in H as (n & s1 & Hn & H). apply entry_ok in Hn as [-> _].
  apply se_bind_ok in H as (beta & s1 & [Hbeta ->]%lift_ok & H).
  eapply scale_same; [|done|done].
  unfold dec_div in Hbeta. case_bool_decide as Hn0; [done|]. injection Hbeta as <-.
  intros H0. apply Hn0.
  assert (n * (1 / n) = 1)%Qc as H1 by (field; done).
  rewrite H0 in H1. ring_simplify in H1. done.
Qed.

Lemma find_pivot_and_clear_same (todo : nat) (row col : Z) (s s' : obj) (col' : Z) :
  0 ≤ row → Forall constructed (planes s) →
  find_pivot_and_clear todo row col s = (Ok col', s') → same_solutions s s'.
Proof.
  intros Hrow. revert col s.
  induction todo as [|todo IH]; intros col s Hc H; simpl in H.
  { injection H as <- <-. by apply same_solutions_refl. }
  apply se_bind_ok in H as (c & s1 & Hcc & H). apply entry_ok in Hcc as [-> _].
  destruct (is_near_zero c).
  - apply se_bind_ok in H as (swapped & s1 & Hswap & H).
    pose proof (swap_with_row_below_same _ _ _ _ _ Hc Hswap) as Hsame.
    destruct swapped; simpl in H.
    + apply se_bind_ok in H as ([] & s2 & Hclear & [= <- <-]).
      eapply same_solutions_trans; [done|].
      eapply clear_coeffs_below_same; [done | by destruct Hsame | done].
    + eapply same_solutions_trans; [done|].
      eapply IH; [by destruct Hsame | done].
  - apply se_bind_ok in H as ([] & s2 & Hclear & [= <- <-]).
    by eapply clear_coeffs_below_same.
Qed.

Lemma triangular_rows_same (d : Z) (rows : list Z) (col : Z) (s s' : obj) :
  (∀ row, row ∈ rows → 0 ≤ row) → Forall constructed (planes s) →
  triangular_rows d rows col s = (Ok tt, s') → same_solutions s s'.
Proof.
  revert col s. induction rows as [|row rows IH]; intros col s Hrows Hc H; simpl in H.
  { injection H as <-. by apply same_solutions_refl. }
  apply se_bind_ok in H as (col' & s1 & Hfind & H).
  assert (same_solutions s s1) as Hsame.
  { eapply find_pivot_and_clear_same; [|done|done]. apply Hrows. left. }
  eapply same_solutions_trans; [done|].
  eapply IH; [|by destruct Hsame|done]. intros r Hr. apply Hrows. by right.
Qed.

Lemma triangular_form_of_same (s T : obj) :
  Forall constructed (planes s) → triangular_form_of s = (Ok tt, T) →
  same_solutions s T.
Proof.
  intros Hc H. eapply triangular_rows_same; [|done|done].
  intros row Hrow. unfold range in Hrow. apply elem_of_seqZ in Hrow. lia.
Qed.

Lemma rref_rows_same (T R : obj) :
  Forall constructed (planes T) → rref_rows T = (Ok tt, R) → same_solutions T R.
Proof.
  intros Hc H. unfold rref_rows in H.
  apply se_bind_ok in H as (n & s1 & [= <- <-] & H).
  apply se_bind_ok in H as (pivot_indices & s1 & Hidx & H).
  destruct (indices_ok T) as (ks & Hks & _). rewrite Hks in Hidx.
  injection Hidx as <- <-.
  revert H. apply (for_each_invariant (λ _ s1, same_solutions T s1)).
  { by apply same_solutions_refl. }
  intros before row s1 s2 _ Hsame Hbody.
  apply se_bind_ok in Hbody as (pivot_var & s3 & [_ ->]%lift_ok & Hbody).
  case_bool_decide as Hpv.
  { injection Hbody as <-. done. }
  apply se_bind_ok in Hbody as ([] & s3 & Hscale & Hclear).
  pose proof (scale_row_same _ _ _ _ (proj1 Hsame) Hscale) as Hsame1.
  pose proof (clear_coefficients_above_same _ _ _ _ (proj1 Hsame1) Hclear) as Hsame2.
  eapply same_solutions_trans; [done|]. by eapply same_solutions_trans.
Qed.

Lemma rref_of_same (s R : obj) :
  Forall constructed (planes s) → rref_of s = (Ok tt, R) → same_solutions s R.
Proof.
  intros Hc H. unfold rref_of in H.
  apply se_bind_ok in H as ([] & T & HT & HR).
  pose proof (triangular_form_of_same _ _ Hc HT) as Hsame.
  eapply same_solutions_trans; [done|].
  eapply rref_rows_same; [by destruct Hsame | done].
Qed.

End elimination_solutions.



(** * Systems in three unknowns: what the pipeline can do *)

Section three_unknowns_outcomes.
Import LinearSystem.

Lemma for_each_outcome {S A} (I : S → Prop) (P : exn → Prop) (xs : list A)
    (body : A → SE S unit) (s : S) :
  I s →
  (∀ x s1, x ∈ xs → I s1 →
     (∃ s2, body x s1 = (Ok tt, s2) ∧ I s2) ∨
     (∃ e s2, body x s1 = (Err e, s2) ∧ P e)) →
  (∃ s', for_each xs body s = (Ok tt, s') ∧ I s') ∨
  (∃ e s', for_each xs body s = (Err e, s') ∧ P e).
Proof.
  revert s. induction xs as [|x xs IH]; intros s Hs Hbody; simpl.
  - left. by exists s.
  - rewrite se_bind_eq.
    destruct (Hbody x s) as [(s2 & -> & Hs2) | (e & s2 & -> & He)]; [by left | done | |].
    + apply IH; [done|]. intros x' s1 Hx'. apply Hbody. by right.
    + right. by exists e, s2.
Qed.

Lemma mapM_total {A B} (P : B → Prop) (f : A → res B) (xs : list A) :
  (∀ x, x ∈ xs → ∃ y, f x = Ok y ∧ P y) →
  ∃ ys, mapM f xs = Ok ys ∧ Forall P ys.
Proof.
  induction xs as [|x xs IH]; intros Hf; simpl.
  - by exists [].
  - destruct (Hf x) as (y & -> & Hy); [by left|]. simpl.
    destruct IH as (ys & -> & Hys). { intros x' Hx'. apply Hf. by right. }
    simpl. exists (y :: ys). split; [done|]. by constructor.
Qed.

Lemma mapM_Forall2 {A B} (f : A → res B) (xs : list A) (ys : list B) :
  mapM f xs = Ok ys → Forall2 (λ x y, f x = Ok y) xs ys.
Proof.
  revert ys. induction xs as [|x xs IH]; intros ys H; simpl in H.
  - injection H as <-. constructor.
  - apply res_bind_ok in H as (y & Hy & H).
    apply res_bind_ok in H as (ys' & Hys & [= <-]). constructor; eauto.
Qed.

Lemma three_unknowns_multiply (c : Decimal) (s : obj) (i : nat) :
  three_unknowns s → (i < length (planes s))%nat →
  ∃ s', multiply_coefficient_and_row c (Z.of_nat i) s = (Ok tt, s') ∧
        three_unknowns s' ∧ length (planes s') = length (planes s).
Proof.
  intros [Hd Hall] Hi.
  destruct (lookup_lt_is_Some_2 (planes s) i Hi) as [p Hp].
  pose proof (Forall_lookup_1 _ _ _ _ Hall Hp) as Hl. simpl in Hl.
  unfold multiply_coefficient_and_row. rewrite se_bind_eq.
  assert (Hr : __getitem__ (Z.of_nat i) s = (Ok p, s)).
  { apply row_ok. split; [done|]. exists i. split; [by apply index_of_nat | done]. }
  rewrite Hr.
  destruct (plane_init_total (Vector.scalar_multiply (Plane.normal_vector p) c)
              (Plane.constant_term p * c)%Qc) as (p' & Hp' & Hnv).
  { unfold Vector.scalar_multiply. by rewrite length_map. }
  rewrite se_bind_eq. unfold lift. rewrite Hp'.
  unfold assign_row, setitem. rewrite index_of_nat by done.
  eexists. split; [done|]. split; [|simpl; by rewrite length_insert].
  split; [done|]. simpl.
  apply Forall_insert; [done|]. rewrite Hnv. unfold Vector.scalar_multiply.
  by rewrite length_map.
Qed.

Lemma three_unknowns_add_multiple_length (c : Decimal) (s : obj) (i j : nat) :
  three_unknowns s → (i < length (planes s))%nat → (j < length (planes s))%nat →
  ∃ s', add_multiple_times_row_to_row c (Z.of_nat i) (Z.of_nat j) s = (Ok tt, s') ∧
        three_unknowns s' ∧ length (planes s') = length (planes s).
Proof.
  intros Hwf Hi Hj.
  destruct (three_unknowns_add_multiple c s i j Hwf Hi Hj) as (s' & Hs' & Hwf').
  exists s'. split; [done|]. split; [done|].
  apply add_multiple_times_row_to_row_ok in Hs'
    as (? & ? & ? & ? & ? & _ & _ & _ & _ & _ & _ & ->).
  simpl. by rewrite length_insert.
Qed.

Lemma three_unknowns_clear_above (rn cn : nat) (s : obj) :
  three_unknowns s → (rn < length (planes s))%nat → (cn < 3)%nat →
  ∃ s', clear_coefficients_above (Z.of_nat rn) (Z.of_nat cn) s = (Ok tt, s') ∧
        three_unknowns s' ∧ length (planes s') = length (planes s).
Proof.
  intros Hwf Hrn Hcn. unfold clear_coefficients_above.
  destruct (for_each_outcome
              (λ s1, three_unknowns s1 ∧ length (planes s1) = length (planes s))
              (λ _, False)
              (reverse (range 0 (Z.of_nat rn)))
              (λ k, entry k (Z.of_nat cn) ≫= λ n,
                    add_multiple_times_row_to_row (- n)%Qc (Z.of_nat rn) k) s)
    as [(s' & Hs' & Hwf' & Hlen') | (e & s' & _ & [])]; [done| |by exists s'].
  intros k s1 Hk [Hwf1 Hlen1]. left. apply range_reverse_facts in Hk.
  destruct (three_unknowns_entry s1 (Z.to_nat k) cn) as (g & Hg & _); [done|lia|done|].
  rewrite Z2Nat.id in Hg by lia. rewrite se_bind_eq, Hg.
  destruct (three_unknowns_add_multiple_length (- g)%Qc s1 rn (Z.to_nat k))
    as (s2 & Hs2 & Hwf2 & Hlen2); [done|lia|lia|].
  rewrite Z2Nat.id in Hs2 by lia. exists s2. split; [done|]. split; [done | congruence].
Qed.

Lemma three_unknowns_scale_row (rn cn : nat) (s : obj) :
  three_unknowns s → (rn < length (planes s))%nat → (cn < 3)%nat →
  (∃ s', scale_row_to_make_coefficient_equal_one (Z.of_nat rn) (Z.of_nat cn) s
           = (Ok tt, s') ∧
         three_unknowns s' ∧ length (planes s') = length (planes s)) ∨
  (∃ s', scale_row_to_make_coefficient_equal_one (Z.of_nat rn) (Z.of_nat cn) s
           = (Err DivisionByZero, s')).
Proof.
  intros Hwf Hrn Hcn. unfold scale_row_to_make_coefficient_equal_one.
  destruct (three_unknowns_entry s rn cn) as (x & Hx & _); [done|done|done|].
  rewrite se_bind_eq, Hx, se_bind_eq. unfold lift, dec_div.
  case_bool_decide as H0; [right; by eexists|]. left.
  by apply three_unknowns_multiply.
Qed.

Lemma pivot_in_three (p : Plane.obj) (k : Z) :
  length (Plane.normal_vector p) = 3%nat →
  first_nonzero_or_minus_one p = Ok k → k = -1 ∨ 0 ≤ k < 3.
Proof.
  intros Hlen H.
  apply first_nonzero_or_minus_one_cases in H as [[-> _] | (_ & H & _)]; [by left|].
  right. apply first_nonzero_from_ok in H as (j & x & -> & Hj & _).
  apply lookup_lt_Some in Hj. lia.
Qed.

Lemma three_unknowns_pivots (s : obj) (ks : list Z) :
  three_unknowns s → mapM first_nonzero_or_minus_one (planes s) = Ok ks →
  Forall (λ k, k = -1 ∨ 0 ≤ k < 3) ks ∧
  Forall (λ '(k, p), (k = -1 ∨ 0 ≤ k < 3) ∧ length (Plane.normal_vector p) = 3%nat)
    (zip ks (planes s)).
Proof.
  intros [_ Hall] H. apply mapM_Forall2 in H.
  induction H as [|p k ps ks Hk _ IH]; [by split|].
  apply Forall_cons in Hall as [Hp Hall]. destruct (IH Hall) as [IH1 IH2].
  pose proof (pivot_in_three p k Hp Hk). split; constructor; done.
Qed.

Lemma three_unknowns_rref_rows (T : obj) :
  three_unknowns T →
  (∃ R, rref_rows T = (Ok tt, R) ∧ three_unknowns R ∧
        length (planes R) = length (planes T)) ∨
  (∃ R, rref_rows T = (Err DivisionByZero, R)).
Proof.
  intros Hwf. unfold rref_rows. rewrite se_bind_eq. simpl.
  destruct (indices_ok T) as (ks & Hks & HmapM & Hlen).
  rewrite se_bind_eq, Hks.
  destruct (three_unknowns_pivots T ks Hwf HmapM) as [Hpiv _].
  destruct (for_each_outcome
              (λ s1, three_unknowns s1 ∧ length (planes s1) = length (planes T))
              (λ e, e = DivisionByZero)
              (reverse (range 0 (len (planes T))))
              (λ row, lift (getitem ks row) ≫= λ pivot_var,
                 if bool_decide (pivot_var < 0) then mret tt
                 else scale_row_to_make_coefficient_equal_one row pivot_var ;;
                      clear_coefficients_above row pivot_var) T)
    as [(R & HR & HwfR & HlenR) | (e & R & HR & ->)]; [done| |left; by exists R|right; by exists R].
  intros row s1 Hrow [Hwf1 Hlen1]. apply range_reverse_facts in Hrow. unfold len in Hrow.
  destruct (lookup_lt_is_Some_2 ks (Z.to_nat row)) as [k Hk]; [lia|].
  rewrite se_bind_eq. unfold lift.
  assert (getitem ks row = Ok k) as ->.
  { rewrite <- (Z2Nat.id row) by lia. by apply getitem_of_nat. }
  case_bool_decide as Hneg; [left; by exists s1|].
  assert (0 ≤ k < 3) as Hk3.
  { rewrite Forall_lookup in Hpiv. destruct (Hpiv _ _ Hk); lia. }
  rewrite se_bind_eq.
  destruct (three_unknowns_scale_row (Z.to_nat row) (Z.to_nat k) s1)
    as [(s2 & Hs2 & Hwf2 & Hlen2) | (s2 & Hs2)]; [done|lia|lia| |].
  - rewrite !Z2Nat.id in Hs2 by lia. rewrite Hs2.
    destruct (three_unknowns_clear_above (Z.to_nat row) (Z.to_nat k) s2)
      as (s3 & Hs3 & Hwf3 & Hlen3); [done|lia|lia|].
    rewrite !Z2Nat.id in Hs3 by lia. left. exists s3.
    split; [done|]. split; [done | congruence].
  - rewrite !Z2Nat.id in Hs2 by lia. rewrite Hs2. right. by exists DivisionByZero, s2.
Qed.

Lemma three_unknowns_rref_of (s : obj) :
  three_unknowns s →
  (∃ R, rref_of s = (Ok tt, R) ∧ three_unknowns R) ∨
  (∃ R, rref_of s = (Err DivisionByZero, R)).
Proof.
  intros Hwf. unfold rref_of. rewrite se_bind_eq.
  destruct (three_unknowns_triangular_form s Hwf) as (T & -> & HwfT).
  destruct (three_unknowns_rref_rows T HwfT) as [(R & HR & HwfR & _) | (R & HR)].
  - left. by exists R.
  - right. by exists R.
Qed.

Lemma direction_coords_three (free_var : Z) (rows : list (Z * Plane.obj))
    (coords : list Decimal) :
  0 ≤ free_var < 3 → length coords = 3%nat →
  Forall (λ '(k, p), (k = -1 ∨ 0 ≤ k < 3) ∧ length (Plane.normal_vector p) = 3%nat) rows →
  ∃ d, direction_coords free_var rows coords = Ok d ∧ length d = 3%nat.
Proof.
  intros Hfv. revert coords.
  induction rows as [|[k p] rows IH]; intros coords Hlen Hrows; simpl.
  - by exists coords.
  - apply Forall_cons in Hrows as [[Hk Hp] Hrows].
    case_bool_decide as Hneg; [by exists coords|].
    destruct (lookup_lt_is_Some_2 (Plane.normal_vector p) (Z.to_nat free_var))
      as [x Hx]; [lia|].
    assert (getitem (Plane.normal_vector p) free_var = Ok x) as ->.
    { rewrite <- (Z2Nat.id free_var) by lia. by apply getitem_of_nat. }
    simpl. unfold setitem. rewrite index_nonneg by lia. simpl.
    apply IH; [by rewrite length_insert | done].
Qed.

Lemma basepoint_coords_three (rows : list (Z * Plane.obj)) (coords : list Decimal) :
  length coords = 3%nat →
  Forall (λ '(k, p), (k = -1 ∨ 0 ≤ k < 3) ∧ length (Plane.normal_vector p) = 3%nat) rows →
  ∃ b, basepoint_coords_from rows coords = Ok b ∧ length b = 3%nat.
Proof.
  revert coords. induction rows as [|[k p] rows IH]; intros coords Hlen Hrows; simpl.
  - by exists coords.
  - apply Forall_cons in Hrows as [[Hk Hp] Hrows].
    case_bool_decide as Hneg; [by exists coords|].
    unfold setitem. rewrite index_nonneg by lia. simpl.
    apply IH; [by rewrite length_insert | done].
Qed.

Lemma three_unknowns_parametrization (R : obj) :
  three_unknowns R →
  ∃ dvs bp,
    extract_direction_vectors_for_parametrization R = (Ok dvs, R) ∧
    extract_basepoint_for_parametrization R = (Ok bp, R) ∧
    length bp = 3%nat ∧ Forall (λ v, length v = 3%nat) dvs.
Proof.
  intros Hwf. destruct (indices_ok R) as (ks & Hks & HmapM & Hlen).
  destruct (three_unknowns_pivots R ks Hwf HmapM) as [_ Hrows].
  destruct Hwf as [Hd Hall].
  unfold extract_direction_vectors_for_parametrization,
    extract_basepoint_for_parametrization.
  rewrite !se_bind_eq. unfold dimension_. rewrite !se_bind_eq, Hks, !se_bind_eq.
  unfold get, lift. rewrite Hd.
  destruct (mapM_total (λ v, length v = 3%nat)
              (λ free_var,
                 setitem (Vector.zeros 3) free_var 1%Qc ≫= λ vector_coords,
                 direction_coords free_var (zip ks (planes R)) vector_coords)
              (free_variables 3 ks)) as (dvs & -> & Hdvs).
  { intros fv Hfv. unfold free_variables in Hfv.
    apply list_elem_of_filter in Hfv as [_ Hfv]. unfold range in Hfv.
    apply elem_of_seqZ in Hfv. unfold setitem. rewrite index_nonneg by (simpl; lia).
    simpl. apply direction_coords_three; [lia | by rewrite length_insert | done]. }
  destruct (basepoint_coords_three (zip ks (planes R)) (Vector.zeros 3))
    as (bp & -> & Hbp); [done|done|].
  by exists dvs, bp.
Qed.

End three_unknowns_outcomes.



(** * The parametrization of a reduced system *)

Section sums.

Local Abbreviation dotp n x := (Vector.sum (zip_with Qcmult n x)).

Lemma dot_insert (n acc : list Decimal) (k : nat) (a old v : Decimal) :
  n !! k = Some a → acc !! k = Some old →
  dotp n (<[k := v]> acc) = (dotp n acc + a * (v - old))%Qc.
Proof.
  revert acc k. induction n as [|b n IH]; intros [|y acc] [|k] Hn Hacc;
    simpl in *; try done.
  - injection Hn as ->. injection Hacc as ->. ring.
  - rewrite (IH acc k) by done. ring.
Qed.

Lemma dot_all_zero (n z : list Decimal) :
  (∀ j x y, n !! j = Some x → z !! j = Some y → (x * y = 0)%Qc) → dotp n z = 0%Qc.
Proof.
  revert z. induction n as [|x n IH]; intros [|y z] H0; simpl; try done.
  rewrite (H0 0%nat x y) by done. rewrite IH; [ring|].
  intros j x' y' Hx' Hy'. by apply (H0 (S j)).
Qed.

Lemma dot_single (n z : list Decimal) (c : nat) (a b : Decimal) :
  n !! c = Some a → z !! c = Some b →
  (∀ j x y, j ≠ c → n !! j = Some x → z !! j = Some y → (x * y = 0)%Qc) →
  dotp n z = (a * b)%Qc.
Proof.
  revert z c. induction n as [|x n IH]; intros [|y z] [|c] Hn Hz H0;
    simpl in *; try done.
  - injection Hn as ->. injection Hz as ->.
    rewrite dot_all_zero; [ring|].
    intros j x y Hx Hy. by apply (H0 (S j)).
  - rewrite (H0 0%nat x y) by done. rewrite (IH z c) by
      (try done; intros j x' y' Hj; apply (H0 (S j)); lia). ring.
Qed.

Lemma dot_sub (n x y : list Decimal) :
  length x = length y →
  dotp n (zip_with Qcminus x y) = (dotp n x - dotp n y)%Qc.
Proof.
  revert x y. induction n as [|a n IH]; intros [|b x] [|c y] Hlen;
    simpl in *; try done; try ring.
  rewrite IH by lia. ring.
Qed.

Lemma dot_comm_add (n b d : list Decimal) (t : Decimal) :
  length b = length d →
  dotp n (zip_with Qcplus b (Vector.scalar_multiply d t))
  = (dotp n b + t * dotp n d)%Qc.
Proof.
  unfold Vector.scalar_multiply.
  revert b d. induction n as [|a n IH]; intros [|x b] [|y d] Hlen;
    simpl in *; try done; try ring.
  rewrite IH by lia. ring.
Qed.

End sums.

Section placing.

Lemma with_values_length (coords : list Decimal) (cvs : list (nat * Decimal)) :
  length (with_values coords cvs) = length coords.
Proof.
  unfold with_values. revert coords.
  induction cvs as [|[c v] cvs IH]; intros coords; simpl; [done|].
  by rewrite IH, length_insert.
Qed.

Lemma with_values_untouched (coords : list Decimal) (cvs : list (nat * Decimal))
    (j : nat) :
  j ∉ cvs.*1 → with_values coords cvs !! j = coords !! j.
Proof.
  unfold with_values. revert coords.
  induction cvs as [|[c v] cvs IH]; intros coords Hj; simpl; [done|].
  rewrite fmap_cons, not_elem_of_cons in Hj. destruct Hj as [Hjc Hj]. simpl in Hjc.
  rewrite IH by done. by rewrite list_lookup_insert_ne.
Qed.

Lemma with_values_at (coords : list Decimal) (cvs : list (nat * Decimal))
    (i c : nat) (v : Decimal) :
  NoDup cvs.*1 → cvs !! i = Some (c, v) → (c < length coords)%nat →
  with_values coords cvs !! c = Some v.
Proof.
  unfold with_values. revert coords i.
  induction cvs as [|[c' v'] cvs IH]; intros coords i Hnd Hi Hc; [done|].
  rewrite fmap_cons in Hnd. apply NoDup_cons in Hnd as [Hnotin Hnd]. simpl in *.
  destruct i as [|i]; simpl in Hi.
  - injection Hi as -> ->.
    change (with_values (<[c := v]> coords) cvs !! c = Some v).
    rewrite with_values_untouched by done. by rewrite list_lookup_insert_eq.
  - apply (IH _ i); [done | done | by rewrite length_insert].
Qed.

End placing.

Section extraction_loops.
Import LinearSystem.

(** The loops stop at the first row without a pivot. *)
Lemma basepoint_coords_from_pivots (cs : list nat) (prs : list Plane.obj)
    (rest : list (Z * Plane.obj)) (coords : list Decimal) :
  length cs = length prs → Forall (λ c, (c < length coords)%nat) cs →
  match rest with [] => True | (k, _) :: _ => k < 0 end →
  basepoint_coords_from (zip (map Z.of_nat cs) prs ++ rest) coords
    = Ok (with_values coords (zip cs (map Plane.constant_term prs))).
Proof.
  intros Hlen Hcs Hrest. revert prs coords Hlen Hcs.
  induction cs as [|c cs IH]; intros [|p prs] coords Hlen Hcs; simpl in *; try done.
  - destruct rest as [|[k q] rest]; [done|]. simpl. by rewrite bool_decide_true.
  - apply Forall_cons in Hcs as [Hc Hcs].
    rewrite bool_decide_false by lia. unfold setitem. rewrite index_of_nat by done.
    simpl. rewrite IH; [done | lia |]. by rewrite length_insert.
Qed.

Lemma direction_coords_pivots (free_var : nat) (cs : list nat) (prs : list Plane.obj)
    (rest : list (Z * Plane.obj)) (coords : list Decimal) :
  length cs = length prs → Forall (λ c, (c < length coords)%nat) cs →
  Forall (λ p, (free_var < length (Plane.normal_vector p))%nat) prs →
  match rest with [] => True | (k, _) :: _ => k < 0 end →
  direction_coords (Z.of_nat free_var) (zip (map Z.of_nat cs) prs ++ rest) coords
    = Ok (with_values coords
            (zip cs (map (λ p, (- default 0 (Plane.normal_vector p !! free_var))%Qc)
                       prs))).
Proof.
  intros Hlen Hcs Hprs Hrest. revert prs coords Hlen Hcs Hprs.
  induction cs as [|c cs IH]; intros [|p prs] coords Hlen Hcs Hprs; simpl in *;
    try done.
  - destruct rest as [|[k q] rest]; [done|]. simpl. by rewrite bool_decide_true.
  - apply Forall_cons in Hcs as [Hc Hcs]. apply Forall_cons in Hprs as [Hp Hprs].
    rewrite bool_decide_false by lia.
    destruct (lookup_lt_is_Some_2 _ _ Hp) as [x Hx].
    rewrite (getitem_of_nat _ _ _ Hx). simpl.
    unfold setitem. rewrite index_of_nat by done. simpl.
    rewrite IH; [by rewrite Hx | lia | by rewrite length_insert | done].
Qed.

Lemma mapM_map {A B} (f : A → res B) (g : A → B) (xs : list A) :
  (∀ x, x ∈ xs → f x = Ok (g x)) → mapM f xs = Ok (map g xs).
Proof.
  induction xs as [|x xs IH]; intros Hf; simpl; [done|].
  rewrite (Hf x) by left. simpl. rewrite IH; [done|].
  intros x' Hx'. apply Hf. by right.
Qed.

End extraction_loops.

Section reduced_form.
Import LinearSystem.

Lemma pivot_column_nat (p : Plane.obj) (k : Z) :
  pivot_column p = Some k →
  ∃ (j : nat) (x : Decimal), k = Z.of_nat j ∧ Plane.normal_vector p !! j = Some x ∧
    first_nonzero_or_minus_one p = Ok k.
Proof.
  unfold pivot_column, first_nonzero_or_minus_one.
  destruct (Plane.first_nonzero_index _) as [i|e] eqn:Hi; [|done].
  intros [= <-]. apply first_nonzero_from_ok in Hi as (j & x & -> & Hj & _).
  exists j, x. split; [lia | done].
Qed.

Lemma zero_row_spec (p : Plane.obj) :
  zero_row p = true →
  Forall (λ x, x = 0%Qc) (Plane.normal_vector p) ∧ Plane.constant_term p = 0%Qc ∧
  first_nonzero_or_minus_one p = Ok (-1).
Proof.
  unfold zero_row. intros [Hz Hc]%andb_true_iff.
  apply bool_decide_eq_true in Hc. rewrite forallb_forall in Hz.
  assert (Forall (λ x, x = 0%Qc) (Plane.normal_vector p)) as Hall.
  { apply Forall_forall. intros x Hx. apply list_elem_of_In, Hz in Hx.
    by apply bool_decide_eq_true in Hx. }
  split; [done|]. split; [done|].
  unfold first_nonzero_or_minus_one. rewrite first_nonzero_index_zero; [done|].
  unfold Vector.is_zero. apply forallb_forall. intros x Hx.
  apply list_elem_of_In in Hx. rewrite Forall_forall in Hall. rewrite (Hall x Hx).
  apply near_zero_0.
Qed.

Lemma leading_pivots_length (ps : list Plane.obj) :
  (length (leading_pivots ps) ≤ length ps)%nat.
Proof.
  induction ps as [|p ps IH]; simpl; [done|].
  destruct (pivot_column p); simpl; lia.
Qed.

Lemma leading_pivots_lookup (ps : list Plane.obj) (i c : nat) :
  leading_pivots ps !! i = Some c →
  ∃ p, ps !! i = Some p ∧ pivot_column p = Some (Z.of_nat c).
Proof.
  revert i c. induction ps as [|p ps IH]; intros i c; simpl; [done|].
  destruct (pivot_column p) as [k|] eqn:Hk; [|done].
  destruct i as [|i]; simpl.
  - intros [= <-]. exists p. split; [done|]. rewrite Hk.
    apply pivot_column_nat in Hk as (j & _ & -> & _). by rewrite Nat2Z.id.
  - apply IH.
Qed.

Lemma pivots_of_reduced (ps : list Plane.obj) :
  forallb zero_row (drop (length (leading_pivots ps)) ps) = true →
  mapM first_nonzero_or_minus_one ps
    = Ok (map Z.of_nat (leading_pivots ps)
          ++ replicate (length ps - length (leading_pivots ps)) (-1)).
Proof.
  induction ps as [|p ps IH]; simpl; [done|].
  destruct (pivot_column p) as [k|] eqn:Hk; simpl.
  - intros Hz. apply pivot_column_nat in Hk as (j & _ & -> & _ & ->). simpl.
    rewrite (IH Hz). simpl. by rewrite Nat2Z.id.
  - intros [Hp Hz]%andb_true_iff.
    apply zero_row_spec in Hp as (_ & _ & ->). simpl.
    assert (mapM first_nonzero_or_minus_one ps = Ok (replicate (length ps) (-1))) as ->.
    { clear IH Hk. induction ps as [|q ps IH]; simpl in *; [done|].
      apply andb_true_iff in Hz as [Hq Hz].
      apply zero_row_spec in Hq as (_ & _ & ->). simpl. by rewrite (IH Hz). }
    done.
Qed.

Lemma zip_seq_lookup {A} (l : list A) (i : nat) (x : A) :
  l !! i = Some x → (i, x) ∈ zip (seq 0 (length l)) l.
Proof.
  intros Hx. apply list_elem_of_lookup. exists i.
  apply lookup_zip_with_Some. exists i, x. split; [done|]. split; [|done].
  apply lookup_seq. split; [done|]. by eapply lookup_lt_Some.
Qed.

Lemma unit_column_spec (ps : list Plane.obj) (i c k : nat) (p : Plane.obj) :
  unit_column ps i c = true → ps !! k = Some p →
  Plane.normal_vector p !! c = Some (if decide (k = i) then 1%Qc else 0%Qc).
Proof.
  unfold unit_column. rewrite forallb_forall. intros Hall Hp.
  specialize (Hall (k, p)). simpl in Hall.
  rewrite <- list_elem_of_In in Hall. specialize (Hall (zip_seq_lookup _ _ _ Hp)).
  apply bool_decide_eq_true in Hall. rewrite Hall.
  by destruct (decide (k = i)); [rewrite bool_decide_true | rewrite bool_decide_false].
Qed.

(** What [reduced] says of the rows. *)
Lemma reduced_spec (R : obj) :
  reduced R = true →
  let ps := planes R in
  let cs := leading_pivots ps in
  (∀ p, p ∈ ps → len (Plane.normal_vector p) = dimension R) ∧
  mapM first_nonzero_or_minus_one ps
    = Ok (map Z.of_nat cs ++ replicate (length ps - length cs) (-1)) ∧
  (∀ i c k p, cs !! i = Some c → ps !! k = Some p →
     Plane.normal_vector p !! c = Some (if decide (k = i) then 1%Qc else 0%Qc)) ∧
  (∀ k p, (length cs ≤ k)%nat → ps !! k = Some p →
     Forall (λ x, x = 0%Qc) (Plane.normal_vector p) ∧ Plane.constant_term p = 0%Qc) ∧
  NoDup cs.
Proof.
  unfold reduced. intros [[Hlen Hunit]%andb_true_iff Hzero]%andb_true_iff.
  simpl.
  assert (∀ i c k p, leading_pivots (planes R) !! i = Some c → planes R !! k = Some p →
            Plane.normal_vector p !! c = Some (if decide (k = i) then 1%Qc else 0%Qc))
    as Hcols.
  { intros i c k p Hc Hp. apply (unit_column_spec (planes R)); [|done].
    rewrite forallb_forall in Hunit. specialize (Hunit (i, c)). simpl in Hunit.
    apply Hunit. apply list_elem_of_In. by apply zip_seq_lookup. }
  split; [|split; [|split; [|split]]].
  - intros p Hp. rewrite forallb_forall in Hlen.
    apply list_elem_of_In, Hlen in Hp. by apply bool_decide_eq_true in Hp.
  - by apply pivots_of_reduced.
  - done.
  - intros k p Hk Hp. rewrite forallb_forall in Hzero.
    assert (p ∈ drop (length (leading_pivots (planes R))) (planes R)) as Hin.
    { apply list_elem_of_lookup. exists (k - length (leading_pivots (planes R)))%nat.
      rewrite lookup_drop. rewrite <- Hp. f_equal. lia. }
    apply list_elem_of_In, Hzero, zero_row_spec in Hin as (? & ? & _). done.
  - apply NoDup_alt. intros i i' c Hi Hi'.
    destruct (leading_pivots_lookup _ _ _ Hi) as (p & Hp & _).
    pose proof (Hcols i c i p Hi Hp) as H1. pose proof (Hcols i' c i p Hi' Hp) as H2.
    rewrite decide_True in H1 by done. rewrite H1 in H2.
    destruct (decide (i = i')) as [|Hne]; [done|]. by injection H2.
Qed.

End reduced_form.

Section combinations.

Local Abbreviation dotp n x := (Vector.sum (zip_with Qcmult n x)).

Lemma with_values_insert (coords : list Decimal) (cvs : list (nat * Decimal))
    (f : nat) (v : Decimal) :
  f ∉ cvs.*1 →
  with_values (<[f := v]> coords) cvs = <[f := v]> (with_values coords cvs).
Proof.
  unfold with_values. revert coords.
  induction cvs as [|[c w] cvs IH]; intros coords Hf; simpl; [done|].
  rewrite fmap_cons, not_elem_of_cons in Hf. destruct Hf as [Hfc Hf]. simpl in Hfc.
  rewrite <- IH by done. by rewrite list_insert_insert_ne.
Qed.

Lemma combination_ok (b : Vector.t) (ds : list Vector.t) (ts : list Decimal) :
  Forall (λ v, length v = length b) ds →
  ∃ x, combination b ds ts = Ok x ∧ length x = length b.
Proof.
  revert b ts. induction ds as [|d ds IH]; intros b ts Hds; simpl.
  - by exists b.
  - destruct ts as [|t ts]; [by exists b|].
    apply Forall_cons in Hds as [Hd Hds].
    unfold Vector.add, Vector.same_dimension, Vector.scalar_multiply.
    rewrite bool_decide_true by (by rewrite length_map). simpl.
    destruct (IH (zip_with Qcplus b (map (λ x, (x * t)%Qc) d)) ts) as (x & Hx & Hlen).
    { eapply Forall_impl; [done|]. intros v Hv. simpl in Hv.
      rewrite length_zip_with, length_map. lia. }
    exists x. split; [done|]. rewrite Hlen, length_zip_with, length_map. lia.
Qed.

Lemma combination_dot (n b : Vector.t) (ds : list Vector.t) (ts : list Decimal)
    (x : Vector.t) (c : Decimal) :
  Forall (λ v, length v = length b) ds →
  combination b ds ts = Ok x →
  dotp n b = c → Forall (λ v, dotp n v = 0%Qc) ds →
  dotp n x = c.
Proof.
  revert b ts. induction ds as [|d ds IH]; intros b ts Hds Hx Hb H0; simpl in Hx.
  - by injection Hx as <-.
  - destruct ts as [|t ts]; [by injection Hx as <-|].
    apply Forall_cons in Hds as [Hd Hds]. apply Forall_cons in H0 as [Hd0 H0].
    unfold Vector.add, Vector.same_dimension in Hx.
    rewrite bool_decide_true in Hx by (unfold Vector.scalar_multiply; by rewrite length_map).
    simpl in Hx.
    apply (IH (zip_with Qcplus b (Vector.scalar_multiply d t)) ts); [|done| |done].
    + eapply Forall_impl; [exact Hds|]. intros v Hv. simpl in Hv.
      unfold Vector.scalar_multiply. rewrite length_zip_with, length_map. lia.
    + rewrite dot_comm_add by done. rewrite Hb, Hd0. ring.
Qed.

(** The coordinates of a combination at a place where each direction
    vector is one or zero. *)
Lemma combination_lookup (D : Z → Vector.t) (x0 : Vector.t) (j : nat)
    (fvs : list Z) (b y : Vector.t) (bj : Decimal) :
  NoDup fvs →
  (∀ f, f ∈ fvs → length (D f) = length b ∧
                  D f !! j = Some (if decide (Z.of_nat j = f) then 1%Qc else 0%Qc)) →
  b !! j = Some bj →
  combination b (map D fvs) (map (λ f, default 0%Qc (x0 !! Z.to_nat f)) fvs) = Ok y →
  y !! j = Some (bj + (if decide (Z.of_nat j ∈ fvs) then default 0%Qc (x0 !! j)
                       else 0%Qc))%Qc.
Proof.
  revert b bj. induction fvs as [|f fvs IH]; intros b bj Hnd HD Hbj Hy; simpl in Hy.
  - injection Hy as <-. rewrite Hbj. rewrite decide_False by apply not_elem_of_nil.
    f_equal. ring.
  - apply NoDup_cons in Hnd as [Hnotin Hnd].
    destruct (HD f) as [Hlen Hfj]; [by left|].
    unfold Vector.add, Vector.same_dimension in Hy.
    rewrite bool_decide_true in Hy by (unfold Vector.scalar_multiply; by rewrite length_map).
    simpl in Hy.
    apply (IH (zip_with Qcplus b (Vector.scalar_multiply (D f)
                 (default 0%Qc (x0 !! Z.to_nat f))))
              (bj + (if decide (Z.of_nat j = f) then 1%Qc else 0%Qc)
                    * default 0%Qc (x0 !! Z.to_nat f))%Qc Hnd) in Hy.
    + rewrite Hy. f_equal.
      destruct (decide (Z.of_nat j = f)) as [<-|Hne].
      * rewrite Nat2Z.id. rewrite decide_False by done.
        rewrite decide_True by left. ring.
      * destruct (decide (Z.of_nat j ∈ fvs)) as [Hin|Hnin].
        -- rewrite decide_True by (by right). ring_simplify. reflexivity.
        -- rewrite decide_False; [ring|]. by intros [?|?]%elem_of_cons.
    + intros f' Hf'. destruct (HD f') as [Hlen' Hf'j]; [by right|].
      split; [|done]. unfold Vector.scalar_multiply.
      rewrite length_zip_with, length_map. lia.
    + unfold Vector.scalar_multiply. rewrite lookup_zip_with, Hbj. simpl.
      rewrite list_lookup_fmap, Hfj. simpl. done.
Qed.

End combinations.

Section parametrization_of_reduced.
Import LinearSystem.

Local Abbreviation dotp n x := (Vector.sum (zip_with Qcmult n x)).

Variable R : obj.
Hypothesis Hred : reduced R = true.
Hypothesis Hne : planes R ≠ [].

Local Abbreviation d := (Z.to_nat (dimension R)).
Local Abbreviation cs := (leading_pivots (planes R)).
Local Abbreviation prs := (take (length cs) (planes R)).
Local Abbreviation ks :=
  (map Z.of_nat cs ++ replicate (length (planes R) - length cs) (-1)).
Local Abbreviation zeros := (replicate d 0%Qc).
Local Abbreviation bp := (with_values zeros (zip cs (map Plane.constant_term prs))).
Local Abbreviation dir f :=
  (with_values (<[f := 1%Qc]> zeros)
     (zip cs (map (λ p, Qcopp (default 0%Qc (Plane.normal_vector p !! f))) prs))).
Local Abbreviation fvs := (free_variables (dimension R) ks).

Lemma reduced_dimension : dimension R = Z.of_nat d.
Proof.
  destruct (reduced_spec R Hred) as (Hlen & _).
  destruct (planes R) as [|p ps] eqn:Hps; [done|].
  rewrite <- (Hlen p) by left. unfold len. lia.
Qed.

Lemma reduced_row_length (p : Plane.obj) :
  p ∈ planes R → length (Plane.normal_vector p) = d.
Proof.
  intros Hp. destruct (reduced_spec R Hred) as (Hlen & _).
  rewrite <- (Hlen p Hp). unfold len. lia.
Qed.

Lemma reduced_indices :
  indices_of_first_nonzero_terms_in_each_row R = (Ok ks, R).
Proof.
  unfold indices_of_first_nonzero_terms_in_each_row.
  by destruct (reduced_spec R Hred) as (_ & -> & _).
Qed.

Lemma reduced_pivot_row (i c : nat) :
  cs !! i = Some c →
  ∃ p, planes R !! i = Some p ∧ prs !! i = Some p ∧
       Plane.normal_vector p !! c = Some 1%Qc ∧ (c < d)%nat.
Proof.
  intros Hc. destruct (leading_pivots_lookup _ _ _ Hc) as (p & Hp & _).
  destruct (reduced_spec R Hred) as (_ & _ & Hcols & _).
  pose proof (Hcols i c i p Hc Hp) as H1. rewrite decide_True in H1 by done.
  exists p. split; [done|]. split; [|split; [done|]].
  - rewrite lookup_take_lt; [done|]. by eapply lookup_lt_Some.
  - rewrite <- (reduced_row_length p) by (by eapply list_elem_of_lookup_2).
    by eapply lookup_lt_Some.
Qed.

Lemma reduced_pivots_lt : Forall (λ c, (c < length zeros)%nat) cs.
Proof.
  apply Forall_lookup. intros i c Hc. rewrite length_replicate.
  by destruct (reduced_pivot_row i c Hc) as (_ & _ & _ & _ & ?).
Qed.

Lemma reduced_prs_length : length cs = length prs.
Proof. rewrite length_take. pose proof (leading_pivots_length (planes R)). lia. Qed.

Lemma reduced_rows :
  zip ks (planes R)
  = zip (map Z.of_nat cs) prs
    ++ zip (replicate (length (planes R) - length cs) (-1))
           (drop (length cs) (planes R)).
Proof.
  rewrite zip_with_app_l. by rewrite length_map.
Qed.

Lemma reduced_rest_stops (n : nat) (l : list Plane.obj) :
  match zip (replicate n (-1)) l with [] => True | (k, _) :: _ => k < 0 end.
Proof. destruct n, l; simpl; done. Qed.

Lemma reduced_free (f : Z) :
  f ∈ fvs ↔ 0 ≤ f < Z.of_nat d ∧ Z.to_nat f ∉ cs.
Proof.
  unfold free_variables, range. rewrite list_elem_of_filter, elem_of_seqZ.
  rewrite reduced_dimension, Nat2Z.id.
  rewrite elem_of_app, list_elem_of_fmap. split.
  - intros [Hnotin Hf]. split; [lia|]. intros Hin. apply Hnotin. left.
    exists (Z.to_nat f). split; [lia | done].
  - intros [Hf Hnotin]. split; [|lia]. intros [(c & -> & Hc) | Hrep].
    + by rewrite Nat2Z.id in Hnotin.
    + apply elem_of_replicate in Hrep as [-> _]. lia.
Qed.

Lemma reduced_free_NoDup : NoDup fvs.
Proof. unfold free_variables, range. apply NoDup_filter, NoDup_seqZ. Qed.

Lemma reduced_basepoint :
  extract_basepoint_for_parametrization R = (Ok bp, R).
Proof.
  unfold extract_basepoint_for_parametrization.
  rewrite se_bind_eq. unfold dimension_. rewrite se_bind_eq, reduced_indices.
  rewrite se_bind_eq. unfold get, lift. rewrite reduced_rows.
  rewrite basepoint_coords_from_pivots; [done | | |].
  - apply reduced_prs_length.
  - apply reduced_pivots_lt.
  - apply reduced_rest_stops.
Qed.

Lemma reduced_directions :
  extract_direction_vectors_for_parametrization R
    = (Ok (map (λ f, dir (Z.to_nat f)) fvs), R).
Proof.
  unfold extract_direction_vectors_for_parametrization.
  rewrite se_bind_eq. unfold dimension_. rewrite se_bind_eq, reduced_indices.
  rewrite se_bind_eq. unfold get, lift.
  rewrite (mapM_map _ (λ f, dir (Z.to_nat f))); [done|].
  intros f Hf. apply reduced_free in Hf as [Hf Hnotin].
  unfold setitem, Vector.zeros. rewrite index_nonneg by (rewrite length_replicate; lia).
  simpl. rewrite reduced_rows.
  rewrite <- (Z2Nat.id f) at 1 by lia.
  rewrite direction_coords_pivots; [done | | | |].
  - apply reduced_prs_length.
  - rewrite Forall_forall. intros c Hc. rewrite length_insert.
    pose proof reduced_pivots_lt as Hlt. rewrite Forall_forall in Hlt. by apply Hlt.
  - rewrite Forall_forall. intros p Hp. rewrite reduced_row_length; [lia|].
    apply list_elem_of_lookup in Hp as [i Hi]. apply lookup_take_Some in Hi as [Hi _].
    by eapply list_elem_of_lookup_2.
  - apply reduced_rest_stops.
Qed.

Lemma reduced_pivots_NoDup (vs : list Decimal) :
  length vs = length cs → NoDup (zip cs vs).*1.
Proof.
  intros Hlen. rewrite fst_zip by lia.
  by destruct (reduced_spec R Hred) as (_ & _ & _ & _ & ?).
Qed.

Lemma reduced_placed_length (coords : list Decimal) (cvs : list (nat * Decimal)) :
  length coords = d → length (with_values coords cvs) = d.
Proof. intros <-. apply with_values_length. Qed.

(** The product of a row with coordinates placed at the pivot columns. *)
Lemma reduced_row_placed (k : nat) (p : Plane.obj) (vs : list Decimal) :
  planes R !! k = Some p → length vs = length cs →
  dotp (Plane.normal_vector p) (with_values zeros (zip cs vs))
  = default 0%Qc (vs !! k).
Proof.
  intros Hp Hlen. destruct (reduced_spec R Hred) as (_ & _ & Hcols & Hzero & Hnd).
  destruct (decide (k < length cs)%nat) as [Hk|Hk].
  - destruct (lookup_lt_is_Some_2 cs k Hk) as [c Hc].
    destruct (lookup_lt_is_Some_2 vs k) as [v Hv]; [lia|]. rewrite Hv. simpl.
    pose proof (Hcols k c k p Hc Hp) as H1. rewrite decide_True in H1 by done.
    destruct (reduced_pivot_row k c Hc) as (_ & _ & _ & _ & Hcd).
    rewrite (dot_single _ _ c 1%Qc v); [ring | done | |].
    + apply (with_values_at _ _ k); [by apply reduced_pivots_NoDup | |].
      * apply lookup_zip_with_Some. by exists c, v.
      * by rewrite length_replicate.
    + intros j x y Hj Hx Hy.
      destruct (decide (j ∈ cs)) as [Hin|Hnotin].
      * apply list_elem_of_lookup in Hin as [i Hi].
        pose proof (Hcols i j k p Hi Hp) as H2.
        rewrite decide_False in H2 by (intros ->; congruence).
        rewrite Hx in H2. injection H2 as ->. ring.
      * rewrite with_values_untouched in Hy by (by rewrite fst_zip by lia).
        apply lookup_replicate in Hy as [-> _]. ring.
  - rewrite lookup_ge_None_2 by lia. simpl.
    destruct (Hzero k p) as [Hall _]; [lia | done|].
    apply dot_all_zero. intros j x y Hx _.
    rewrite Forall_lookup in Hall. rewrite (Hall j x Hx). ring.
Qed.

Lemma reduced_row_basepoint (k : nat) (p : Plane.obj) :
  planes R !! k = Some p → dotp (Plane.normal_vector p) bp = Plane.constant_term p.
Proof.
  intros Hp. rewrite (reduced_row_placed k p); [|done|].
  2:{ rewrite length_map. symmetry. apply reduced_prs_length. }
  rewrite list_lookup_fmap.
  destruct (decide (k < length cs)%nat) as [Hk|Hk].
  - rewrite lookup_take_lt by done. by rewrite Hp.
  - rewrite lookup_take_ge by lia. simpl.
    destruct (reduced_spec R Hred) as (_ & _ & _ & Hzero & _).
    by destruct (Hzero k p) as [_ ->]; [lia | done|].
Qed.

Lemma reduced_row_direction (k : nat) (p : Plane.obj) (f : nat) :
  planes R !! k = Some p → (f < d)%nat → f ∉ cs →
  dotp (Plane.normal_vector p) (dir f) = 0%Qc.
Proof.
  intros Hp Hf Hnotin.
  assert (length (map (λ p, Qcopp (default 0%Qc (Plane.normal_vector p !! f))) prs)
          = length cs) as Hlen.
  { rewrite length_map. symmetry. apply reduced_prs_length. }
  rewrite with_values_insert by (by rewrite fst_zip by lia).
  destruct (lookup_lt_is_Some_2 (Plane.normal_vector p) f) as [a Ha].
  { rewrite reduced_row_length; [done|]. by eapply list_elem_of_lookup_2. }
  rewrite (dot_insert _ _ f a 0%Qc); [|done|].
  2:{ rewrite with_values_untouched by (by rewrite fst_zip by lia).
      by apply lookup_replicate. }
  rewrite (reduced_row_placed k p); [|done|done].
  rewrite list_lookup_fmap.
  destruct (decide (k < length cs)%nat) as [Hk|Hk].
  - rewrite lookup_take_lt by done. rewrite Hp. simpl. rewrite Ha. simpl. ring.
  - rewrite lookup_take_ge by lia. simpl.
    destruct (reduced_spec R Hred) as (_ & _ & _ & Hzero & _).
    destruct (Hzero k p) as [Hall _]; [lia | done|].
    rewrite Forall_lookup in Hall. rewrite (Hall f a Ha). ring.
Qed.

Lemma reduced_direction_free (f j : nat) :
  (f < d)%nat → f ∉ cs → (j < d)%nat → j ∉ cs →
  length (dir f) = d ∧
  dir f !! j = Some (if decide (j = f) then 1%Qc else 0%Qc).
Proof.
  intros Hf Hfc Hj Hjc.
  assert (length (map (λ p, Qcopp (default 0%Qc (Plane.normal_vector p !! f))) prs)
          = length cs) as Hlen.
  { rewrite length_map. symmetry. apply reduced_prs_length. }
  split.
  - by rewrite with_values_length, length_insert, length_replicate.
  - rewrite with_values_untouched by (by rewrite fst_zip by lia).
    destruct (decide (j = f)) as [->|Hjf].
    + rewrite list_lookup_insert_eq; [done|]. by rewrite length_replicate.
    + rewrite list_lookup_insert_ne by done. by apply lookup_replicate.
Qed.

Lemma reduced_basepoint_free (j : nat) :
  (j < d)%nat → j ∉ cs → length bp = d ∧ bp !! j = Some 0%Qc.
Proof.
  intros Hj Hjc. split.
  - by rewrite with_values_length, length_replicate.
  - rewrite with_values_untouched.
    + by apply lookup_replicate.
    + rewrite fst_zip; [done|]. rewrite length_map, <- reduced_prs_length. lia.
Qed.

Lemma reduced_not_contradictory : check_contradictory (planes R) = Ok tt.
Proof.
  apply check_contradictory_ok. intros Hex. apply Exists_exists in Hex as (p & Hp & Hz & Hc).
  apply list_elem_of_lookup in Hp as [k Hk].
  destruct (reduced_spec R Hred) as (_ & _ & _ & Hzero & _).
  destruct (decide (k < length cs)%nat) as [Hlt|Hge].
  - destruct (lookup_lt_is_Some_2 cs k Hlt) as [c Hc'].
    destruct (leading_pivots_lookup _ _ _ Hc') as (p' & Hp' & Hpiv).
    assert (p' = p) as -> by congruence.
    unfold pivot_column in Hpiv.
    destruct (Plane.first_nonzero_index _) as [i|] eqn:Hi; [|done].
    apply first_nonzero_index_ok_not_zero in Hi. congruence.
  - destruct (Hzero k p) as [_ H0]; [lia | done|].
    rewrite H0, near_zero_0 in Hc. done.
Qed.

Lemma reduced_directions_length :
  Forall (λ v, length v = length bp) (map (λ f, dir (Z.to_nat f)) fvs).
Proof.
  apply Forall_forall. intros v Hv. apply list_elem_of_fmap in Hv as (f & -> & _).
  by rewrite !with_values_length, length_insert.
Qed.

Lemma reduced_parametrization :
  parametrization_of_reduced R
    = (Ok (Parametrization.Build bp (map (λ f, dir (Z.to_nat f)) fvs) (dimension R)), R).
Proof.
  unfold parametrization_of_reduced. rewrite se_bind_eq.
  unfold raise_excepion_if_contradictory_equation. rewrite reduced_not_contradictory.
  rewrite se_bind_eq, reduced_directions, se_bind_eq, reduced_basepoint.
  unfold lift, Parametrization.__init__, Vector.dimension, len.
  assert (forallb (λ v : list Decimal,
            bool_decide (Z.of_nat (length v) = Z.of_nat (length bp)))
            (map (λ f, dir (Z.to_nat f)) fvs) = true) as ->.
  { apply forallb_forall. intros v Hv. apply bool_decide_eq_true.
    pose proof reduced_directions_length as Hall. rewrite Forall_forall in Hall.
    rewrite (Hall v); [done|]. by apply list_elem_of_In. }
  rewrite with_values_length, length_replicate, <- reduced_dimension. done.
Qed.

Lemma reduced_sound (ts : list Decimal) (x : Vector.t) :
  combination bp (map (λ f, dir (Z.to_nat f)) fvs) ts = Ok x → solves_all x R.
Proof.
  intros Hx. apply Forall_lookup. intros k p Hp. apply solves_iff.
  destruct (combination_ok bp (map (λ f, dir (Z.to_nat f)) fvs) ts
              reduced_directions_length) as (x' & Hx' & Hlen).
  assert (x' = x) as -> by congruence.
  split.
  - rewrite Hlen, with_values_length, length_replicate.
    apply reduced_row_length. by eapply list_elem_of_lookup_2.
  - eapply combination_dot; [apply reduced_directions_length | done | |].
    + by apply (reduced_row_basepoint k).
    + apply Forall_forall. intros v Hv. apply list_elem_of_fmap in Hv as (f & -> & Hf).
      apply reduced_free in Hf as [Hf Hnotin].
      apply (reduced_row_direction k p); [done | lia | done].
Qed.

Lemma reduced_complete (x : Vector.t) :
  solves_all x R →
  combination bp (map (λ f, dir (Z.to_nat f)) fvs)
    (map (λ f, default 0%Qc (x !! Z.to_nat f)) fvs) = Ok x.
Proof.
  intros Hx.
  destruct (combination_ok bp (map (λ f, dir (Z.to_nat f)) fvs)
              (map (λ f, default 0%Qc (x !! Z.to_nat f)) fvs)
              reduced_directions_length) as (y & Hy & Hleny).
  rewrite Hy. f_equal.
  pose proof (reduced_sound _ _ Hy) as Hysol.
  rewrite with_values_length, length_replicate in Hleny.
  assert (length x = d) as Hlenx.
  { destruct (planes R) as [|p0 ps] eqn:Hps; [done|].
    assert (solves x p0) as H0.
    { unfold solves_all in Hx. rewrite Hps in Hx. by apply Forall_cons in Hx as [? _]. }
    apply solves_iff in H0 as [<- _]. apply reduced_row_length. rewrite Hps. left. }
  assert (∀ j, (j < d)%nat → j ∉ cs → y !! j = x !! j) as Hfree.
  { intros j Hj Hjc.
    destruct (lookup_lt_is_Some_2 x j) as [xj Hxj]; [lia|].
    rewrite (combination_lookup (λ f, dir (Z.to_nat f)) x j fvs bp y 0%Qc).
    - rewrite decide_True by (apply reduced_free; rewrite Nat2Z.id; split; [lia | done]).
      rewrite Hxj. simpl. f_equal. ring.
    - apply reduced_free_NoDup.
    - intros f Hf. apply reduced_free in Hf as [Hf Hfc].
      destruct (reduced_direction_free (Z.to_nat f) j) as [Hlen Hlook]; [lia|done|done|done|].
      split; [by rewrite Hlen, with_values_length, length_replicate|].
      rewrite Hlook. f_equal.
      destruct (decide (j = Z.to_nat f)) as [->|Hjf].
      + rewrite decide_True by lia. done.
      + rewrite decide_False by lia. done.
    - by apply reduced_basepoint_free.
    - done. }
  symmetry. apply list_eq. intros j.
  destruct (decide (j < d)%nat) as [Hj|Hj].
  2:{ rewrite !lookup_ge_None_2 by lia. done. }
  destruct (decide (j ∈ cs)) as [Hin|Hnotin]; [|by rewrite Hfree].
  apply list_elem_of_lookup in Hin as [i Hi].
  destruct (reduced_pivot_row i j Hi) as (p & Hp & _ & H1 & _).
  destruct (reduced_spec R Hred) as (_ & _ & Hcols & _).
  destruct (lookup_lt_is_Some_2 x j) as [xj Hxj]; [lia|].
  destruct (lookup_lt_is_Some_2 y j) as [yj Hyj]; [lia|].
  rewrite Hxj, Hyj. f_equal.
  assert (solves x p) as Hxp by (by eapply Forall_lookup_1).
  assert (solves y p) as Hyp by (by eapply Forall_lookup_1).
  apply solves_iff in Hxp as [_ Hxp]. apply solves_iff in Hyp as [_ Hyp].
  assert (dotp (Plane.normal_vector p) (zip_with Qcminus x y) = (1 * (xj - yj))%Qc) as Hz.
  { apply (dot_single _ _ j); [done | by rewrite lookup_zip_with, Hxj, Hyj |].
    intros j' a b Hj' Ha Hb.
    destruct (decide (j' ∈ cs)) as [Hin'|Hnotin'].
    - apply list_elem_of_lookup in Hin' as [i' Hi'].
      pose proof (Hcols i' j' i p Hi' Hp) as H2.
      rewrite decide_False in H2.
      + rewrite Ha in H2. injection H2 as ->. ring.
      + intros ->. rewrite Hi in Hi'. by injection Hi'.
    - apply lookup_zip_with_Some in Hb as (xj' & yj' & -> & Hxj' & Hyj').
      assert (j' < d)%nat as Hj'd by (apply lookup_lt_Some in Hyj'; lia).
      rewrite <- (Hfree j' Hj'd Hnotin') in Hxj'.
      assert (xj' = yj') as -> by congruence. ring. }
  rewrite dot_sub, Hxp, Hyp in Hz by lia.
  apply (Qc_add_cancel (- yj)%Qc).
  replace (- yj + yj)%Qc with 0%Qc by ring.
  replace (- yj + xj)%Qc with (1 * (xj - yj))%Qc by ring.
  rewrite <- Hz. ring.
Qed.

Lemma reduced_free_count : (length fvs + length cs = d)%nat.
Proof.
  pose proof (filter_app_complement (λ i : Z, i ∉ ks) (range 0 (dimension R))) as Hperm.
  apply Permutation_length in Hperm. rewrite length_app in Hperm.
  unfold range in Hperm at 3. rewrite length_seqZ in Hperm.
  assert (filter (λ i : Z, ¬ (i ∉ ks)) (range 0 (dimension R)) ≡ₚ map Z.of_nat cs)
    as Hpiv.
  { apply NoDup_Permutation.
    - apply NoDup_filter, NoDup_seqZ.
    - apply NoDup_fmap_2; [apply _|].
      by destruct (reduced_spec R Hred) as (_ & _ & _ & _ & ?).
    - intros i. unfold range. rewrite list_elem_of_filter, elem_of_seqZ.
      rewrite reduced_dimension, list_elem_of_fmap. split.
      + intros [Hin Hi]. destruct (decide (i ∈ ks)) as [Hks|Hks]; [|done].
        apply elem_of_app in Hks as [Hks | Hrep].
        * by apply list_elem_of_fmap in Hks.
        * apply elem_of_replicate in Hrep as [-> _]. lia.
      + intros (c & -> & Hc). split.
        * intros Hnotin. apply Hnotin. apply elem_of_app. left.
          apply list_elem_of_fmap. by exists c.
        * apply list_elem_of_lookup in Hc as [k Hk].
          destruct (reduced_pivot_row k c Hk) as (_ & _ & _ & _ & ?). lia. }
  apply Permutation_length in Hpiv. rewrite length_map in Hpiv.
  unfold free_variables. lia.
Qed.

End parametrization_of_reduced.

Section solutions_of_the_system.
Import LinearSystem.

Lemma parametrization_of_split (s : obj) :
  parametrization_of s =
  match rref_of s with
  | (Ok _, R) => parametrization_of_reduced R
  | (Err e, R) => (Err e, R)
  end.
Proof.
  unfold parametrization_of, parametrization_of_reduced.
  rewrite (se_bind_eq rref_of). by destruct (rref_of s) as [[[]|e] R].
Qed.

Lemma reduced_points (R : obj) :
  reduced R = true → planes R ≠ [] →
  ∃ P, parametrization_of_reduced R = (Ok P, R) ∧
       Parametrization.dimension P = dimension R ∧
       Z.of_nat (length (Parametrization.direction_vectors P))
         = dimension R - Z.of_nat (length (leading_pivots (planes R))) ∧
       ∀ x, solves_all x R ↔ point P x.
Proof.
  intros Hred Hne. eexists. split; [by apply reduced_parametrization|].
  split; [done|]. split.
  - simpl. rewrite length_map. pose proof (reduced_free_count R Hred Hne).
    rewrite (reduced_dimension R Hred Hne) at 2. lia.
  - intros x. unfold point, point_of. simpl. split.
    + intros Hx. eexists. split; [|by apply reduced_complete].
      by rewrite !length_map.
    + intros (ts & _ & Hts). by eapply reduced_sound.
Qed.

End solutions_of_the_system.



Section solutions_of_the_receiver.

Lemma rref_solutions (self oR : LinearSystem.loc) (h hR : LinearSystem.heap)
    (s R : LinearSystem.obj) :
  h !! self = Some s →
  Forall constructed (LinearSystem.planes s) → LinearSystem.planes s ≠ [] →
  LinearSystem.compute_rref self h = (Ok oR, hR) → hR !! oR = Some R →
  reduced R = true →
  ∃ P, fst (LinearSystem.compute_solution self h) = Ok (LinearSystem.Param P) ∧
       Z.of_nat (length (Parametrization.direction_vectors P))
         = LinearSystem.dimension R
           - Z.of_nat (length (leading_pivots (LinearSystem.planes R))) ∧
       ∀ x, solves_all x s ↔ point P x.
Proof.
  intros Hs Hc Hne Hrref HR Hred.
  rewrite (compute_rref_eq _ _ s Hs) in Hrref.
  destruct (rref_of s) as [[[]|e] R'] eqn:Hrr; simpl in Hrref; [|done].
  injection Hrref as <- <-. rewrite lookup_insert_eq in HR. injection HR as ->.
  destruct (rref_of_same _ _ Hc Hrr) as (_ & Hlen & Hsame).
  destruct (reduced_points R Hred) as (P & HP & _ & Hcount & Hpoints).
  { intros HR0. rewrite HR0 in Hlen. by destruct (LinearSystem.planes s). }
  exists P. rewrite (compute_solution_eq _ _ s Hs). simpl.
  rewrite parametrization_of_split, Hrr, HP. simpl. split; [done|]. split; [done|].
  intros x. by rewrite Hsame.
Qed.

End solutions_of_the_receiver.





(** * Steps of the elimination: the search for a row to swap, and scaling *)

Section steps.
Import LinearSystem.

Lemma swap_with_first_nonzero_first (row col : Z) (ks : list Z) (s s' : obj) (b : bool) :
  0 ≤ col → (∀ k, k ∈ ks → 0 ≤ k) →
  swap_with_first_nonzero row col ks s = (Ok b, s') →
  (b = false ∧ s' = s ∧
   ∀ k, k ∈ ks → near_zero_at s (Z.to_nat k) (Z.to_nat col)) ∨
  (b = true ∧
   ∃ ks1 k ks2, ks = ks1 ++ k :: ks2 ∧
     (∀ k', k' ∈ ks1 → near_zero_at s (Z.to_nat k') (Z.to_nat col)) ∧
     pivot_at s (Z.to_nat k) (Z.to_nat col) ∧
     swap_rows row k s = (Ok tt, s')).
Proof.
  intros Hcol. induction ks as [|k ks IH]; intros Hks H; simpl in H.
  - injection H as <- <-. left. split; [done|]. split; [done|].
    intros k Hk. by apply elem_of_nil in Hk.
  - assert (Hk : 0 ≤ k) by (apply Hks; by left).
    apply se_bind_ok in H as (x & s1 & Hx & H).
    apply entry_ok_nonneg in Hx as [-> Hx]; [|lia|done].
    destruct (is_near_zero x) eqn:Hnz; simpl in H.
    + apply IH in H as [(-> & -> & Hall) | (-> & ks1 & k' & ks2 & -> & Hall & Hrest)].
      * left. split; [done|]. split; [done|]. intros k' Hk'.
        apply elem_of_cons in Hk' as [-> | Hk']; [by exists x | by apply Hall].
      * right. split; [done|]. exists (k :: ks1), k', ks2. split; [done|].
        split; [|done]. intros k'' Hk''.
        apply elem_of_cons in Hk'' as [-> | Hk'']; [by exists x | by apply Hall].
      * intros k' Hk'. apply Hks. by right.
    + apply se_bind_ok in H as ([] & s1 & Hswap & H). injection H as <- <-.
      right. split; [done|]. exists [], k, ks. split; [done|].
      split; [by intros k' Hk'; apply elem_of_nil in Hk'|].
      split; [by exists x | done].
Qed.

Lemma seqZ_split (a n : Z) (ks1 ks2 : list Z) (k : Z) :
  seqZ a n = ks1 ++ k :: ks2 →
  a ≤ k < a + n ∧ ∀ k', a ≤ k' < k → k' ∈ ks1.
Proof.
  intros Hsplit.
  assert (seqZ a n !! length ks1 = Some k) as Hk.
  { rewrite Hsplit. by rewrite lookup_app_r, Nat.sub_diag by lia. }
  apply lookup_seqZ in Hk as [-> Hlt]. split; [lia|].
  intros k' Hk'. apply list_elem_of_lookup. exists (Z.to_nat (k' - a)).
  assert (seqZ a n !! Z.to_nat (k' - a) = Some k') as Hk''.
  { apply lookup_seqZ. split; lia. }
  rewrite Hsplit, lookup_app_l in Hk'' by lia. done.
Qed.

End steps.

(** X16.  [swap_with_row_below_for_nonzero_coefficient(row, col)] looks,
    in the rows below [row] from the top, for a coefficient in column [col]
    that is not within epsilon of zero.  When it returns [False] the system
    is as it was and every row below [row] is within epsilon of zero in that
    column.  When it returns [True] it has swapped [row] with the first row
    below it whose coefficient in that column is not within epsilon of
    zero. *)
Theorem X16_swap_with_row_below (row col : Z) (s s' : LinearSystem.obj)
    (swapped : bool) :
  0 ≤ row → 0 ≤ col →
  LinearSystem.swap_with_row_below_for_nonzero_coefficient row col s
    = (Ok swapped, s') →
  (swapped = false ∧ s' = s ∧
   ∀ k, (Z.to_nat row < k < length (LinearSystem.planes s))%nat →
        near_zero_at s k (Z.to_nat col)) ∨
  (swapped = true ∧
   ∃ k, (Z.to_nat row < k < length (LinearSystem.planes s))%nat ∧
        pivot_at s k (Z.to_nat col) ∧
        (∀ k', (Z.to_nat row < k' < k)%nat → near_zero_at s k' (Z.to_nat col)) ∧
        LinearSystem.swap_rows row (Z.of_nat k) s = (Ok tt, s')).
Proof.
  intros Hrow Hcol H.
  unfold LinearSystem.swap_with_row_below_for_nonzero_coefficient in H.
  apply se_bind_ok in H as (n & s1 & Hn & H). injection Hn as <- <-.
  apply swap_with_first_nonzero_first in H
    as [(-> & -> & Hall) | (-> & ks1 & k & ks2 & Hsplit & Hall & Hpiv & Hswap)];
    [| |done|].
  - left. split; [done|]. split; [done|]. intros k Hk.
    specialize (Hall (Z.of_nat k)). rewrite Nat2Z.id in Hall. apply Hall.
    unfold range, len. rewrite elem_of_seqZ. lia.
  - right. split; [done|]. unfold range, len in Hsplit.
    apply seqZ_split in Hsplit as [Hk Hfirst]. exists (Z.to_nat k).
    rewrite Z2Nat.id by lia. split; [lia|]. split; [done|]. split; [|done].
    intros k' Hk'. specialize (Hall (Z.of_nat k')). rewrite Nat2Z.id in Hall.
    apply Hall, Hfirst. lia.
  - intros k Hk. unfold range in Hk. apply elem_of_seqZ in Hk. lia.
Qed.

Lemma X16_swap_with_row_below_witness :
  ∃ k, (Z.to_nat 1 < k < length (LinearSystem.planes three_planes))%nat ∧
       pivot_at three_planes k (Z.to_nat 2) ∧
       LinearSystem.swap_rows 1 (Z.of_nat k) three_planes
         = (Ok tt,
            snd (LinearSystem.swap_with_row_below_for_nonzero_coefficient 1 2
                   three_planes)).
Proof.
  destruct (X16_swap_with_row_below 1 2 three_planes
              (snd (LinearSystem.swap_with_row_below_for_nonzero_coefficient 1 2
                      three_planes)) true)
    as [(Hb & _) | (_ & k & Hk & Hpiv & _ & Hswap)].
  - lia.
  - lia.
  - vm_compute. reflexivity.
  - discriminate Hb.
  - exists k. split; [exact Hk|]. split; [exact Hpiv | exact Hswap].
Defined.



(** * The tolerance, and the basepoint of a hyperplane *)

(** X18.  The tolerance of [is_near_zero] is the binary float written
    [1e-10], which is a little more than the decimal 1e-10: a decimal of
    absolute value at most 1e-10 is within epsilon of zero, 1e-10 itself
    included, and a decimal of absolute value at least
    1.00000000000000004e-10 is not; [is_near_zero] does not depend on the
    sign. *)
Theorem X18_tolerance :
  (∀ x : Decimal, (Qcabs x <= Q2Qc (1 # 10000000000))%Qc → is_near_zero x = true) ∧
  (∀ x : Decimal,
     (Q2Qc (100000000000000004 # 1000000000000000000000000000) <= Qcabs x)%Qc →
     is_near_zero x = false) ∧
  (∀ x : Decimal, is_near_zero (- x)%Qc = is_near_zero x).
Proof.
  split; [|split].
  - intros x Hx. unfold is_near_zero. apply bool_decide_eq_true.
    eapply Qcle_lt_trans; [exact Hx|]. by vm_compute.
  - intros x Hx. unfold is_near_zero. apply bool_decide_eq_false.
    apply Qcle_not_lt. eapply Qcle_trans; [|exact Hx]. by vm_compute.
  - intros x. unfold is_near_zero. by rewrite Qcabs_opp.
Qed.



(** * The free variables of a parametrization *)

Section free_coordinates.
Import LinearSystem.

Lemma direction_coords_untouched (free_var : Z) (rows : list (Z * Plane.obj))
    (coords out : list Decimal) (j : nat) :
  direction_coords free_var rows coords = Ok out →
  (∀ k p, (k, p) ∈ rows → k ≠ Z.of_nat j) →
  out !! j = coords !! j.
Proof.
  revert coords. induction rows as [|[k p] rows IH]; intros coords H Hj; simpl in H.
  - by injection H as <-.
  - case_bool_decide as Hneg; [by injection H as <-|].
    apply res_bind_ok in H as (x & _ & H).
    apply res_bind_ok in H as (coords' & Hset & H).
    apply setitem_ok in Hset as (i & Hi & ->).
    apply index_nonneg_inv in Hi as [-> _]; [|lia].
    rewrite (IH _ H) by (intros k' p' Hin; apply (Hj k' p'); by right).
    rewrite list_lookup_insert_ne; [done|].
    intros Heq. apply (Hj k p); [by left | lia].
Qed.

Lemma basepoint_coords_untouched (rows : list (Z * Plane.obj))
    (coords out : list Decimal) (j : nat) :
  basepoint_coords_from rows coords = Ok out →
  (∀ k p, (k, p) ∈ rows → k ≠ Z.of_nat j) →
  out !! j = coords !! j.
Proof.
  revert coords. induction rows as [|[k p] rows IH]; intros coords H Hj; simpl in H.
  - by injection H as <-.
  - case_bool_decide as Hneg; [by injection H as <-|].
    apply res_bind_ok in H as (coords' & Hset & H).
    apply setitem_ok in Hset as (i & Hi & ->).
    apply index_nonneg_inv in Hi as [-> _]; [|lia].
    rewrite (IH _ H) by (intros k' p' Hin; apply (Hj k' p'); by right).
    rewrite list_lookup_insert_ne; [done|].
    intros Heq. apply (Hj k p); [by left | lia].
Qed.

Lemma zip_fst_elem {A B} (l : list A) (k : list B) (a : A) (b : B) :
  (a, b) ∈ zip l k → a ∈ l.
Proof.
  intros Hin. apply list_elem_of_lookup in Hin as [i Hi].
  apply lookup_zip_with_Some in Hi as (a' & b' & [= <- <-] & Ha & _).
  by eapply list_elem_of_lookup_2.
Qed.

Lemma free_coordinates (s : obj) (dvs : list Vector.t) (bp : Vector.t) (ks : list Z) :
  indices_of_first_nonzero_terms_in_each_row s = (Ok ks, s) →
  extract_direction_vectors_for_parametrization s = (Ok dvs, s) →
  extract_basepoint_for_parametrization s = (Ok bp, s) →
  length dvs = length (free_variables (dimension s) ks) ∧
  ∀ j g, free_variables (dimension s) ks !! j = Some g →
    bp !! Z.to_nat g = Some 0%Qc ∧
    ∀ i v, dvs !! i = Some v →
           v !! Z.to_nat g = Some (if decide (i = j) then 1%Qc else 0%Qc).
Proof.
  intros Hks Hdvs Hbp.
  unfold extract_direction_vectors_for_parametrization in Hdvs.
  rewrite se_bind_eq in Hdvs. unfold dimension_ in Hdvs.
  rewrite se_bind_eq, Hks, se_bind_eq in Hdvs. unfold get, lift in Hdvs.
  injection Hdvs as Hdvs.
  unfold extract_basepoint_for_parametrization in Hbp.
  rewrite se_bind_eq in Hbp. unfold dimension_ in Hbp.
  rewrite se_bind_eq, Hks, se_bind_eq in Hbp. unfold get, lift in Hbp.
  injection Hbp as Hbp.
  pose proof (mapM_lookup _ _ _ Hdvs) as [Hlen Hall].
  assert (NoDup (free_variables (dimension s) ks)) as Hnd.
  { unfold free_variables, range. apply NoDup_filter, NoDup_seqZ. }
  assert (∀ g, g ∈ free_variables (dimension s) ks →
            0 ≤ g < dimension s ∧ ∀ k p, (k, p) ∈ zip ks (planes s) → k ≠ Z.of_nat (Z.to_nat g))
    as Hfree.
  { intros g Hg. unfold free_variables, range in Hg.
    apply list_elem_of_filter in Hg as [Hnotin Hg]. apply elem_of_seqZ in Hg.
    split; [lia|]. intros k p Hin Heq. apply Hnotin.
    apply zip_fst_elem in Hin. rewrite Z2Nat.id in Heq by lia. by subst. }
  split; [done|]. intros j g Hg.
  destruct (Hfree g) as [Hgd Hgk]; [by eapply list_elem_of_lookup_2|].
  split.
  - rewrite (basepoint_coords_untouched _ _ _ _ Hbp Hgk).
    apply lookup_replicate. split; [done | lia].
  - intros i v Hv.
    destruct (lookup_lt_is_Some_2 (free_variables (dimension s) ks) i) as [f Hf].
    { rewrite <- Hlen. by eapply lookup_lt_Some. }
    destruct (Hall i f Hf) as (v' & Hv' & Hrun). assert (v' = v) as -> by congruence.
    destruct (Hfree f) as [Hfd _]; [by eapply list_elem_of_lookup_2|].
    apply res_bind_ok in Hrun as (coords & Hset & Hrun).
    apply setitem_ok in Hset as (n & Hn & ->).
    apply index_nonneg_inv in Hn as [-> Hlt]; [|lia].
    rewrite (direction_coords_untouched _ _ _ _ _ Hrun Hgk).
    destruct (decide (i = j)) as [->|Hij].
    + assert (f = g) as -> by congruence.
      by rewrite list_lookup_insert_eq.
    + rewrite list_lookup_insert_ne.
      * apply lookup_replicate. split; [done | lia].
      * intros Heq. apply Hij. apply (NoDup_lookup _ i j f Hnd Hf).
        rewrite Hg. f_equal. lia.
Qed.

End free_coordinates.

(** X20.  The free variables of the extraction.  Whenever
    [extract_direction_vectors_for_parametrization] and
    [extract_basepoint_for_parametrization] return, there are as many
    direction vectors as columns that are the pivot column of no row; the
    basepoint is zero at every such free column; and each direction vector
    belongs to one free column, where it is one and every other direction
    vector is zero, and it is zero at every other free column.  So the
    direction vectors are independent, and the parameters of a point of the
    parametrization are its coordinates at the free columns. *)
Theorem X20_free_coordinates (s : LinearSystem.obj) (dvs : list Vector.t)
    (bp : Vector.t) (pivot_indices : list Z) :
  LinearSystem.indices_of_first_nonzero_terms_in_each_row s = (Ok pivot_indices, s) →
  LinearSystem.extract_direction_vectors_for_parametrization s = (Ok dvs, s) →
  LinearSystem.extract_basepoint_for_parametrization s = (Ok bp, s) →
  let free := LinearSystem.free_variables (LinearSystem.dimension s) pivot_indices in
  length dvs = length free ∧
  (∀ g, g ∈ free → bp !! Z.to_nat g = Some 0%Qc) ∧
  ∀ i v, dvs !! i = Some v →
    ∃ f, f ∈ free ∧
         (∀ g, g ∈ free →
               v !! Z.to_nat g = Some (if decide (g = f) then 1%Qc else 0%Qc)) ∧
         ∀ i' v', i' ≠ i → dvs !! i' = Some v' → v' !! Z.to_nat f = Some 0%Qc.
Proof.
  intros Hks Hdvs Hbp free.
  destruct (free_coordinates s dvs bp pivot_indices Hks Hdvs Hbp) as [Hlen Hall].
  assert (NoDup free) as Hnd.
  { unfold free, LinearSystem.free_variables, range. apply NoDup_filter, NoDup_seqZ. }
  split; [done|]. split.
  - intros g Hg. apply list_elem_of_lookup in Hg as [j Hj].
    by destruct (Hall j g Hj) as [? _].
  - intros i v Hv.
    destruct (lookup_lt_is_Some_2 free i) as [f Hf].
    { unfold free. rewrite <- Hlen. by eapply lookup_lt_Some. }
    exists f. split; [by eapply list_elem_of_lookup_2|]. split.
    + intros g Hg. apply list_elem_of_lookup in Hg as [j Hj].
      destruct (Hall j g Hj) as [_ Hdir]. rewrite (Hdir i v Hv).
      destruct (decide (i = j)) as [->|Hij].
      * assert (g = f) as -> by congruence. by rewrite decide_True.
      * rewrite decide_False; [done|]. intros ->. apply Hij.
        by apply (NoDup_lookup _ i j f Hnd).
    + intros i' v' Hi' Hv'. destruct (Hall i f Hf) as [_ Hdir].
      rewrite (Hdir i' v' Hv'). by rewrite decide_False.
Qed.

Lemma X20_free_coordinates_witness :
  let free := LinearSystem.free_variables
                (LinearSystem.dimension two_planes_reduced) [0; 2] in
  length [[dec (-1); dec 1; dec 0]] = length free ∧
  (∀ g, g ∈ free → [dec 0; dec 0; dec 1] !! Z.to_nat g = Some 0%Qc) ∧
  ∀ i v, [[dec (-1); dec 1; dec 0]] !! i = Some v →
    ∃ f, f ∈ free ∧
         (∀ g, g ∈ free →
               v !! Z.to_nat g = Some (if decide (g = f) then 1%Qc else 0%Qc)) ∧
         ∀ i' v', i' ≠ i → [[dec (-1); dec 1; dec 0]] !! i' = Some v' →
                  v' !! Z.to_nat f = Some 0%Qc.
Proof.
  apply (X20_free_coordinates two_planes_reduced).
  - vm_compute. reflexivity.
  - vm_compute. reflexivity.
  - vm_compute. reflexivity.
Defined.

(** * Clearing a column, and the verdict of no solution *)

Section clearing.
Import LinearSystem.

Lemma clear_coeffs_below_zero (row col : Z) (s s' : obj) :
  0 ≤ row → 0 ≤ col → clear_coeffs_below row col s = (Ok tt, s') →
  length (planes s') = length (planes s) ∧
  (∀ k, (k ≤ Z.to_nat row)%nat → planes s' !! k = planes s !! k) ∧
  zero_below s' (Z.to_nat row) (Z.to_nat col).
Proof.
  intros Hr Hcol H. unfold clear_coeffs_below in H.
  apply se_bind_ok in H as (n & s1 & Hn & H). injection Hn as <- <-.
  apply se_bind_ok in H as (beta & s1 & Hbeta & H).
  apply entry_ok_nonneg in Hbeta as [-> Hbeta]; [|done|done].
  apply (add_multiples_loop (λ g, dec_div (- g) beta)) in H
    as (Hlen & Hdim & Hsame & Hcomb); try done.
  2:{ apply NoDup_seqZ. }
  2:{ intros k Hk. apply range_below_facts in Hk. lia. }
  split; [done|]. split.
  - intros k Hk. apply Hsame. rewrite range_below_facts. lia.
  - intros k Hk. rewrite Hlen in Hk.
    destruct (Hcomb k) as (g & alpha & Hg & Halpha & Hc).
    { rewrite range_below_facts. unfold len. lia. }
    unfold dec_div in Halpha. case_bool_decide as Hb0; [done|]. injection Halpha as <-.
    rewrite (combined_entry _ _ _ _ (Z.to_nat col) _ Hc) by (by rewrite Hg).
    rewrite Hbeta, Hg. simpl. f_equal. field. done.
Qed.

Lemma clear_coefficients_above_zero (row col : Z) (s s' : obj) :
  0 ≤ row → 0 ≤ col → clear_coefficients_above row col s = (Ok tt, s') →
  entry_at s (Z.to_nat row) (Z.to_nat col) = Some 1%Qc →
  length (planes s') = length (planes s) ∧
  (∀ k, (Z.to_nat row ≤ k)%nat → planes s' !! k = planes s !! k) ∧
  ∀ k, (k < Z.to_nat row)%nat → entry_at s' k (Z.to_nat col) = Some 0%Qc.
Proof.
  intros Hr Hcol H H1.
  apply clear_coefficients_above_spec in H as (Hlen & _ & Hsame & Habove); [|done|done].
  split; [done|]. split; [done|]. intros k Hk.
  destruct (Habove k Hk) as (g & Hg & Hc). rewrite Hc, H1, Hg. simpl. f_equal. ring.
Qed.

Lemma zero_row_unsolvable (p : Plane.obj) (x : Vector.t) :
  Forall (λ a, a = 0%Qc) (Plane.normal_vector p) →
  is_near_zero (Plane.constant_term p) = false → ¬ solves x p.
Proof.
  intros Hz Hc Hx. apply solves_iff in Hx as [_ Hx].
  rewrite dot_all_zero in Hx.
  - rewrite <- Hx, near_zero_0 in Hc. done.
  - intros j a b Ha _. rewrite Forall_lookup in Hz. rewrite (Hz j a Ha). ring.
Qed.

Lemma zero_row_contradictory (p : Plane.obj) :
  Forall (λ a, a = 0%Qc) (Plane.normal_vector p) →
  is_near_zero (Plane.constant_term p) = false → contradictory p.
Proof.
  intros Hz Hc. split; [|done]. unfold Vector.is_zero. apply forallb_forall.
  intros a Ha. apply list_elem_of_In in Ha. rewrite Forall_forall in Hz.
  rewrite (Hz a Ha). apply near_zero_0.
Qed.

End clearing.




